(** * Taskify chat backend: intent mapping, parameter extraction,
      orchestration, Task MCP server and conversation persistence.

    A shallow embedding of
      - app/services/intent_mapping.py  (module [IntentMapper])
      - app/services/agent.py           (module [AgentService])
      - mcp_servers/task_mcp/main.py    (modules [TaskMCPServer] and
                                         [TaskMCPDispatch])
      - app/services/conversation.py    (module [ConversationService])
      - app/api/routes/chat.py with the session of app/core/database.py
                                        (module [ChatRoute])

    Conventions.
      - A Python [str] is a [string]; a character is a code point below
        256, so [str.lower], [str.strip] and the regular-expression
        classes are the ones Python applies to those code points.  On
        these [str.lower] maps one character to one and keeps every
        position; beyond them it does not (U+0130 becomes two code
        points), and a message with such a character is outside the
        strings of this file.
      - [int] has CPython's default limit of 4300 digits on a decimal
        literal.
      - The [id] of a task is a number of the INTEGER column of the
        tasks table; what the database driver does with a number the
        column cannot hold is not part of [with_task], and a statement
        about such a number says so.
      - The float constants 1.0, 0.7, 0.5 and 0.0 are rationals.
      - A Python [dict] with string keys is a [gmap string pyval].
      - [uuid4()] and [datetime.utcnow()] read the environment: their
        results are explicit arguments or come from an oracle that is
        part of the state. *)

From Stdlib Require Import String Ascii List ZArith QArith Lia Bool DecimalString.
From Stdlib Require Import Sorted Permutation.
From stdpp Require Import gmap strings.
Import ListNotations.

Local Open Scope string_scope.
Local Open Scope list_scope.
Local Open Scope nat_scope.

(* ===================================================================== *)
(** ** Python strings                                                     *)
(* ===================================================================== *)

Module PyStr.

(** [str.isspace] on one character: TAB..CR, FS..US, SPACE, NEL, NBSP. *)
Definition is_space (c : ascii) : bool :=
  let n := nat_of_ascii c in
  ((9 <=? n) && (n <=? 13)) || ((28 <=? n) && (n <=? 32))
  || (n =? 133) || (n =? 160).

(** Decimal digits (category Nd below 256 is 0..9). *)
Definition is_digit (c : ascii) : bool :=
  let n := nat_of_ascii c in (48 <=? n) && (n <=? 57).

(** [str.lower] on one character: A..Z, and the Latin-1 capitals
    U+00C0..U+00DE apart from the multiplication sign U+00D7. *)
Definition lower_char (c : ascii) : ascii :=
  let n := nat_of_ascii c in
  if ((65 <=? n) && (n <=? 90))
     || ((192 <=? n) && (n <=? 222) && negb (n =? 215))
  then ascii_of_nat (n + 32) else c.

(** [str.lower] on a string of such characters, one for one. *)
Fixpoint lower (s : string) : string :=
  match s with
  | EmptyString => EmptyString
  | String c s' => String (lower_char c) (lower s')
  end.

(** Removal of the leading, then of the trailing characters that
    satisfy [p]. *)
Fixpoint lstrip_by (p : ascii -> bool) (s : string) : string :=
  match s with
  | EmptyString => EmptyString
  | String c s' => if p c then lstrip_by p s' else s
  end.

Fixpoint rstrip_by (p : ascii -> bool) (s : string) : string :=
  match s with
  | EmptyString => EmptyString
  | String c s' =>
      match rstrip_by p s' with
      | EmptyString => if p c then EmptyString else String c EmptyString
      | r => String c r
      end
  end.

Definition lstrip (s : string) : string := lstrip_by is_space s.
Definition rstrip (s : string) : string := rstrip_by is_space s.

(** [s.strip()] *)
Definition strip (s : string) : string := rstrip (lstrip s).

(** [s.startswith(p)] *)
Fixpoint startswith (p s : string) : bool :=
  match p, s with
  | EmptyString, _ => true
  | String a p', String b s' => Ascii.eqb a b && startswith p' s'
  | String _ _, EmptyString => false
  end.

(** [s.find(sub)]: the lowest index where [sub] occurs, or -1. *)
Fixpoint find_from (sub s : string) (i : Z) : Z :=
  if startswith sub s then i
  else match s with
       | EmptyString => (-1)%Z
       | String _ s' => find_from sub s' (i + 1)%Z
       end.

Definition find (s sub : string) : Z := find_from sub s 0%Z.

(** [sub in s] *)
Definition contains (sub s : string) : bool := negb (find s sub =? -1)%Z.

(** [s[n:]] for a non-negative [n]. *)
Fixpoint drop (n : nat) (s : string) : string :=
  match n, s with
  | O, _ => s
  | S n', String _ s' => drop n' s'
  | S _, EmptyString => EmptyString
  end.

(** [s[:n]] for a non-negative [n]. *)
Fixpoint take (n : nat) (s : string) : string :=
  match n, s with
  | S n', String c s' => String c (take n' s')
  | _, _ => EmptyString
  end.

(** Truthiness of a string: [bool(s)]. *)
Definition nonempty (s : string) : bool :=
  match s with EmptyString => false | _ => true end.

End PyStr.

(* ===================================================================== *)
(** ** The fragment of [re] the program uses                              *)
(* ===================================================================== *)

Module Re.

Inductive charclass : Type :=
| space   (* \s *)
| digit   (* \d *)
| anychar (* .  : anything but a newline *).

Definition in_class (cl : charclass) (c : ascii) : bool :=
  match cl with
  | space => PyStr.is_space c
  | digit => PyStr.is_digit c
  | anychar => negb (Ascii.eqb c "010"%char)
  end.

Inductive regex : Type :=
| Eps
| Chr (c : ascii)
| Plus (cl : charclass)          (* cl+   greedy *)
| Seq (r1 r2 : regex)
| Alt (r1 r2 : regex)            (* r1|r2 tried left to right *)
| Opt (r : regex)                (* (?:r)? greedy *)
| Group (n : nat) (r : regex)    (* capturing group number n *)
| Bol                            (* ^ without MULTILINE *)
| Eol                            (* $ without MULTILINE *).

(** A literal word. *)
Fixpoint lit (s : string) : regex :=
  match s with
  | EmptyString => Eps
  | String c s' => Seq (Chr c) (lit s')
  end.

(** Concatenation of a list of pieces. *)
Fixpoint cat (rs : list regex) : regex :=
  match rs with
  | [] => Eps
  | r :: rs' => Seq r (cat rs')
  end.

(** Alternation of literal words, [(?:w|w1|w2|...)]. *)
Fixpoint words (w : string) (ws : list string) : regex :=
  match ws with
  | [] => lit w
  | w' :: ws' => Alt (lit w) (words w' ws')
  end.

Definition captures := list (nat * string).

(** Length of the longest prefix of [s] made of characters of [cl]. *)
Fixpoint span (cl : charclass) (s : string) : nat :=
  match s with
  | String c s' => if in_class cl c then S (span cl s') else 0
  | EmptyString => 0
  end.

Section Matcher.
Context {R : Type}.
(** [ic] is the IGNORECASE flag. *)
Variable ic : bool.

Definition chr_eq (p c : ascii) : bool :=
  if ic then Ascii.eqb (PyStr.lower_char p) (PyStr.lower_char c)
  else Ascii.eqb p c.

(** Greedy repetition: try the continuation after [j], [j-1], ..., 1
    characters. *)
Fixpoint try_down (pos : nat) (s : string)
         (k : nat -> string -> option R) (j : nat) : option R :=
  match j with
  | O => None
  | S j' =>
      match k (pos + j)%nat (PyStr.drop j s) with
      | Some res => Some res
      | None => try_down pos s k j'
      end
  end.

(** Backtracking matcher in continuation-passing style.  [pos] is the
    index of the current position in the subject, [s] what is left of
    the subject from there. *)
Fixpoint run (r : regex) (pos : nat) (s : string) (caps : captures)
         (k : nat -> string -> captures -> option R) : option R :=
  match r with
  | Eps => k pos s caps
  | Chr p =>
      match s with
      | String c s' => if chr_eq p c then k (S pos) s' caps else None
      | EmptyString => None
      end
  | Plus cl =>
      try_down pos s (fun pos' s' => k pos' s' caps) (span cl s)
  | Seq r1 r2 =>
      run r1 pos s caps (fun pos' s' caps' => run r2 pos' s' caps' k)
  | Alt r1 r2 =>
      match run r1 pos s caps k with
      | Some res => Some res
      | None => run r2 pos s caps k
      end
  | Opt r1 =>
      match run r1 pos s caps k with
      | Some res => Some res
      | None => k pos s caps
      end
  | Group n r1 =>
      run r1 pos s caps
          (fun pos' s' caps' =>
             k pos' s' ((n, PyStr.take (pos' - pos) s) :: caps'))
  | Bol => if (pos =? 0)%nat then k pos s caps else None
  | Eol =>
      match s with
      | EmptyString => k pos s caps
      | String c EmptyString =>
          if Ascii.eqb c "010"%char then k pos s caps else None
      | _ => None
      end
  end.
End Matcher.

(** A match object: the text of group 0 and the numbered groups. *)
Record Match : Type := { whole : string; groups : captures }.

Definition match_at (ic : bool) (r : regex) (pos : nat) (s : string)
  : option Match :=
  run ic r pos s []
      (fun pos' _ caps =>
         Some {| whole := PyStr.take (pos' - pos) s; groups := caps |}).

(** Scan the start positions from left to right, the end included. *)
Fixpoint search_from (ic : bool) (r : regex) (pos : nat) (s : string)
  : option Match :=
  match match_at ic r pos s with
  | Some m => Some m
  | None =>
      match s with
      | EmptyString => None
      | String _ s' => search_from ic r (S pos) s'
      end
  end.

(** [re.search(r, s, flags)]; [None] is Python's [None]. *)
Definition search (r : regex) (s : string) (ic : bool) : option Match :=
  search_from ic r 0 s.

(** [m.group(n)] for a group that took part in the match. *)
Fixpoint lookup_group (n : nat) (caps : captures) : option string :=
  match caps with
  | [] => None
  | (i, v) :: caps' => if (i =? n)%nat then Some v else lookup_group n caps'
  end.

Definition group (m : Match) (n : nat) : string :=
  match n with
  | O => whole m
  | _ => match lookup_group n (groups m) with
         | Some v => v
         | None => EmptyString
         end
  end.

Definition is_match (o : option Match) : bool :=
  match o with Some _ => true | None => false end.

End Re.

(* ===================================================================== *)
(** ** app/services/intent_mapping.py                                     *)
(* ===================================================================== *)

(** [class Intent(Enum)] *)
Inductive Intent : Type :=
| ADD | LIST | GET | UPDATE | DELETE | COMPLETE | UNKNOWN.

Definition Intent_eqb (a b : Intent) : bool :=
  match a, b with
  | ADD, ADD | LIST, LIST | GET, GET | UPDATE, UPDATE
  | DELETE, DELETE | COMPLETE, COMPLETE | UNKNOWN, UNKNOWN => true
  | _, _ => false
  end.

(** [intent.value] *)
Definition value (i : Intent) : string :=
  match i with
  | ADD => "add_task"
  | LIST => "list_tasks"
  | GET => "get_task"
  | UPDATE => "update_task"
  | DELETE => "delete_task"
  | COMPLETE => "complete_task"
  | UNKNOWN => "unknown"
  end.

Module IntentMapper.

Import Re.

Record Config : Type := { keywords : list string; patterns : list regex }.

(** [\s+] *)
Definition ws : regex := Plus space.

(** The class attribute [INTENT_PATTERNS]; a dict iterates in insertion
    order, so the table is the list of its items in source order. *)
Definition INTENT_PATTERNS : list (Intent * Config) :=
  [ (ADD,
     {| keywords :=
          [ "add"; "create"; "new task"; "add task"; "create task";
            "remember"; "make a task"; "i need to" ];
        patterns :=
          [ cat [Bol; lit "add"; ws];                  (* ^add\s+ *)
            cat [Bol; lit "create"; ws];               (* ^create\s+ *)
            cat [Bol; lit "new"; ws; lit "task"; ws];  (* ^new\s+task\s+ *)
            cat [Bol; lit "remember"; ws];             (* ^remember\s+ *)
            cat [Bol; lit "add task"];                 (* ^add task *)
            cat [Bol; lit "create task"];              (* ^create task *)
            cat [Bol; lit "i need to "] ] |});         (* ^i need to  *)
    (LIST,
     {| keywords :=
          [ "list"; "show"; "all tasks"; "my tasks"; "what tasks";
            "tasks do i have"; "what do i need" ];
        patterns :=
          [ cat [Bol; lit "list"; ws];                 (* ^list\s+ *)
            cat [Bol; lit "show"; ws];                 (* ^show\s+ *)
            cat [Bol; lit "all"; ws; lit "tasks"];     (* ^all\s+tasks *)
            cat [Bol; lit "my"; ws; lit "tasks"];      (* ^my\s+tasks *)
            cat [Bol; lit "what tasks"];               (* ^what tasks *)
            cat [Bol; lit "what do i"] ] |});          (* ^what do i *)
    (GET,
     {| keywords := [ "get"; "show task"; "details"; "tell me about" ];
        patterns :=
          [ cat [Bol; lit "get"; ws];                  (* ^get\s+ *)
            cat [Bol; lit "show task"];                (* ^show task *)
            cat [Bol; lit "details"; ws];              (* ^details\s+ *)
            cat [Bol; lit "tell me about"] ] |});      (* ^tell me about *)
    (UPDATE,
     {| keywords := [ "update"; "edit"; "change"; "modify"; "rename" ];
        patterns :=
          [ cat [Bol; lit "update"; ws];               (* ^update\s+ *)
            cat [Bol; lit "edit"; ws];                 (* ^edit\s+ *)
            cat [Bol; lit "change"; ws];               (* ^change\s+ *)
            cat [Bol; lit "modify"; ws];               (* ^modify\s+ *)
            cat [Bol; lit "rename"; ws] ] |});         (* ^rename\s+ *)
    (DELETE,
     {| keywords := [ "delete"; "remove"; "trash"; "discard"; "get rid of" ];
        patterns :=
          [ cat [Bol; lit "delete"; ws];               (* ^delete\s+ *)
            cat [Bol; lit "remove"; ws];               (* ^remove\s+ *)
            cat [Bol; lit "trash"; ws];                (* ^trash\s+ *)
            cat [Bol; lit "discard"; ws];              (* ^discard\s+ *)
            cat [Bol; lit "get rid of"] ] |});         (* ^get rid of *)
    (COMPLETE,
     {| keywords :=
          [ "complete"; "done"; "finish"; "check off"; "mark done";
            "mark as done" ];
        patterns :=
          [ cat [Bol; lit "complete"; ws];             (* ^complete\s+ *)
            cat [Bol; lit "done"; ws; lit "with"];     (* ^done\s+with *)
            cat [Bol; lit "finish"; ws];               (* ^finish\s+ *)
            cat [Bol; lit "check off"];                (* ^check off *)
            cat [Bol; lit "mark"; ws; lit "done"];     (* ^mark\s+done *)
            cat [Bol; lit "mark as done"] ] |}) ].     (* ^mark as done *)

(** [any(re.search(pattern, message, re.IGNORECASE) for pattern in
    config["patterns"])]: the inner loop of the pattern pass. *)
Definition pattern_hit (config : Config) (message : string) : bool :=
  existsb (fun pattern => is_match (search pattern message true))
          (patterns config).

(** The inner loop of the keyword pass,
    [keyword.lower() in message.lower()]. *)
Definition keyword_hit (config : Config) (message : string) : bool :=
  existsb (fun keyword =>
             PyStr.contains (PyStr.lower keyword) (PyStr.lower message))
          (keywords config).

(** One pass over the table: the first intent whose inner loop returns. *)
Fixpoint first_hit (hit : Config -> string -> bool)
         (table : list (Intent * Config)) (message : string)
  : option Intent :=
  match table with
  | [] => None
  | (intent, config) :: rest =>
      if hit config message then Some intent
      else first_hit hit rest message
  end.

Definition extract_intent (user_message : string) : Intent * Q :=
  let message := PyStr.lower (PyStr.strip user_message) in
  (* Try pattern matching first (highest confidence) *)
  match first_hit pattern_hit INTENT_PATTERNS message with
  | Some intent => (intent, 1%Q)
  | None =>
      (* Fall back to keyword matching (lower confidence) *)
      match first_hit keyword_hit INTENT_PATTERNS message with
      | Some intent => (intent, (7 # 10)%Q)
      | None => (UNKNOWN, 0%Q)
      end
  end.

Definition get_tool_name (intent : Intent) : string := value intent.

Definition should_confirm (intent : Intent) : bool := Intent_eqb intent DELETE.

Definition get_fallback_response (intent : Intent) : string :=
  match intent with
  | ADD => "I couldn't create that task. Please try again."
  | LIST => "I couldn't retrieve your tasks. Please try again."
  | GET => "I couldn't find that task. Please try again."
  | UPDATE => "I couldn't update that task. Please try again."
  | DELETE => "I couldn't delete that task. Please try again."
  | COMPLETE => "I couldn't mark that task. Please try again."
  | UNKNOWN => "I didn't understand your request. You can ask me to create, list, complete, update, or delete tasks."
  end.

End IntentMapper.

(* ===================================================================== *)
(** ** Python values                                                      *)
(* ===================================================================== *)

#[warnings="-register-all"]
Inductive pyval : Type :=
| VNone
| VBool (b : bool)
| VInt (z : Z)
| VStr (s : string)
| VList (l : list pyval)
| VDict (d : gmap string pyval).

Abbreviation dict := (gmap string pyval).

(** [bool(v)] *)
Definition truthy (v : pyval) : bool :=
  match v with
  | VNone => false
  | VBool b => b
  | VInt z => negb (z =? 0)%Z
  | VStr s => PyStr.nonempty s
  | VList l => match l with [] => false | _ => true end
  | VDict d => negb (bool_decide (d = ∅))
  end.

(** [v is None] *)
Definition is_none (v : pyval) : bool :=
  match v with VNone => true | _ => false end.

(** [d.get(k)], with [None] for a missing key. *)
Definition get (d : dict) (k : string) : pyval :=
  match d !! k with Some v => v | None => VNone end.

(** [d.get(k, default)] *)
Definition get_default (d : dict) (k : string) (default : pyval) : pyval :=
  match d !! k with Some v => v | None => default end.


(** Exceptions, by class; the argument is [str(e)]. *)
Inductive PyExn : Type :=
| TypeError (msg : string)
| ValueError (msg : string)
| AttributeError (msg : string)
| DatabaseError (msg : string)   (* sqlalchemy.exc.* *).

Definition exn_str (e : PyExn) : string :=
  match e with
  | TypeError m | ValueError m | AttributeError m | DatabaseError m => m
  end.

(** [type(v).__name__] *)
Definition type_name (v : pyval) : string :=
  match v with
  | VNone => "NoneType"
  | VBool _ => "bool"
  | VInt _ => "int"
  | VStr _ => "str"
  | VList _ => "list"
  | VDict _ => "dict"
  end.

(** [str(z)] for an integer. *)
Definition str_of_Z (z : Z) : string := NilZero.string_of_int (Z.to_int z).

(** The digits of a decimal literal, single underscores allowed between
    digits; [seen] tells whether the previous character was a digit. *)
Fixpoint parse_digits (s : string) (acc : Z) (seen : bool) : option Z :=
  match s with
  | EmptyString => if seen then Some acc else None
  | String c s' =>
      if PyStr.is_digit c
      then parse_digits s' (acc * 10 + (Z.of_nat (nat_of_ascii c) - 48))%Z true
      else if Ascii.eqb c "_"%char
           then (if seen then parse_digits s' acc false else None)
           else None
  end.

(** The blanks [int] allows around a literal: the separators FS..US are
    not among them. *)
Definition is_int_space (c : ascii) : bool :=
  let n := nat_of_ascii c in
  ((9 <=? n) && (n <=? 13)) || (n =? 32) || (n =? 133) || (n =? 160).

(** What is left of the argument of [int] once the blanks around it and
    a sign are gone. *)
Definition int_literal (s : string) : string :=
  match PyStr.rstrip_by is_int_space (PyStr.lstrip_by is_int_space s) with
  | String "-"%char s' | String "+"%char s' => s'
  | s' => s'
  end.

(** [int(s)] for a string, [None] standing for [ValueError]. *)
Definition int_of_str (s : string) : option Z :=
  match PyStr.rstrip_by is_int_space (PyStr.lstrip_by is_int_space s) with
  | String "-"%char s' => option_map Z.opp (parse_digits s' 0%Z false)
  | String "+"%char s' => parse_digits s' 0%Z false
  | s' => parse_digits s' 0%Z false
  end.

(** [sys.get_int_max_str_digits()], at CPython's default. *)
Definition int_max_str_digits : Z := 4300.

(** The digits [int] counts at the head of a literal before it converts
    them, underscores between digits left out; [None] for an underscore
    at the head, two in a row or one after the last digit, which make
    the literal invalid before the count is looked at.  [prev_digit]
    tells whether the previous character was a digit. *)
Fixpoint scan_digits (s : string) (prev_digit : bool) (digits : nat)
  : option nat :=
  match s with
  | String c s' =>
      if PyStr.is_digit c then scan_digits s' true (S digits)
      else if Ascii.eqb c "_"%char
           then (if prev_digit then scan_digits s' false digits else None)
           else (if prev_digit || (digits =? 0) then Some digits else None)
  | EmptyString => if prev_digit || (digits =? 0) then Some digits else None
  end.

(** [int(v)].  A literal of more than [int_max_str_digits] digits is
    refused with a [ValueError] before what follows the digits is looked
    at.  The text of the other [ValueError] also quotes the literal;
    the program reads neither text. *)
Definition py_int (v : pyval) : PyExn + Z :=
  match v with
  | VInt z => inr z
  | VBool b => inr (if b then 1 else 0)%Z
  | VStr s =>
      let invalid := ValueError "invalid literal for int() with base 10" in
      match scan_digits (int_literal s) false 0 with
      | Some digits =>
          if (int_max_str_digits <? Z.of_nat digits)%Z then
            inl (ValueError
                   ("Exceeds the limit (4300 digits) for integer string conversion: value has "
                      ++ str_of_Z (Z.of_nat digits)
                      ++ " digits; use sys.set_int_max_str_digits() to increase the limit"))
          else
            match int_of_str s with
            | Some z => inr z
            | None => inl invalid
            end
      | None => inl invalid
      end
  | _ =>
      inl (TypeError
             ("int() argument must be a string, a bytes-like object or a real number, not '"
                ++ type_name v ++ "'"))
  end.

(** [v.strip()], an [AttributeError] on anything but a string. *)
Definition py_strip (v : pyval) : PyExn + string :=
  match v with
  | VStr s => inr (PyStr.strip s)
  | _ => inl (AttributeError
                ("'" ++ type_name v ++ "' object has no attribute 'strip'"))
  end.

(* ===================================================================== *)
(** ** Dates                                                              *)
(* ===================================================================== *)

(** A naive UTC [datetime] is its number of microseconds since
    1970-01-01T00:00:00. *)
Module DateTime.

Definition t : Type := Z.

Local Open Scope Z_scope.

(** Zero-padded decimal of width [w]. *)
Fixpoint pad (w : nat) (z : Z) : string :=
  match w with
  | O => EmptyString
  | S w' =>
      (pad w' (z / 10) ++
       String (ascii_of_nat (Z.to_nat (48 + z mod 10))) EmptyString)%string
  end.

(** Year, month and day of a day count (proleptic Gregorian calendar). *)
Definition civil (days : Z) : Z * Z * Z :=
  let z := days + 719468 in
  let era := z / 146097 in
  let doe := z - era * 146097 in
  let yoe := (doe - doe / 1460 + doe / 36524 - doe / 146096) / 365 in
  let doy := doe - (365 * yoe + yoe / 4 - yoe / 100) in
  let mp := (5 * doy + 2) / 153 in
  let d := doy - (153 * mp + 2) / 5 + 1 in
  let m := if mp <? 10 then mp + 3 else mp - 9 in
  let y := yoe + era * 400 + (if m <=? 2 then 1 else 0) in
  (y, m, d).

(** [dt.isoformat()] *)
Definition isoformat (dt : t) : string :=
  let us_per_day := 86400000000 in
  let '(y, m, d) := civil (dt / us_per_day) in
  let r := dt mod us_per_day in
  let secs := r / 1000000 in
  let us := r mod 1000000 in
  let fraction := if us =? 0 then EmptyString else ("." ++ pad 6 us)%string in
  (pad 4 y ++ "-" ++ pad 2 m ++ "-" ++ pad 2 d ++ "T"
   ++ pad 2 (secs / 3600) ++ ":" ++ pad 2 (secs / 60 mod 60) ++ ":"
   ++ pad 2 (secs mod 60) ++ fraction)%string.

End DateTime.

(* ===================================================================== *)
(** ** The tasks table and the request's environment                      *)
(* ===================================================================== *)

(** Modelled from the spec: the [Task] model ([app/models/task.py] is
    not part of the sources).  The columns are those of the spec's task
    shape and of the migrations 001 and 002; the primary key [id] is the
    key under which the row is stored.  A new row takes [created_at] and
    [updated_at] from the clock, as the models of the sources do. *)
Module Task.
Record t : Type := mk {
  user_id : string;
  title : string;
  description : option string;
  is_completed : bool;
  priority : option string;
  due_date : option DateTime.t;
  created_at : DateTime.t;
  updated_at : DateTime.t
}.
End Task.

(** What the structured logger is handed by [log_agent_decision],
    [log_error] and [log_tool_call]; the free-text [logger.info] lines
    are not recorded. *)
Inductive LogEvent : Type :=
| AgentDecision (user_id conversation_id intent : string) (confidence : Q)
                (user_input : string)
| ToolExecutionFailed (user_id conversation_id : string)
                      (error_message : pyval) (tool : string)
                      (error_code : pyval)
| ToolCallLogged (user_id conversation_id tool_name : string)
                 (parameters result : dict).

Record World : Type := mkWorld {
  tasks : gmap Z Task.t;             (* the tasks table, by primary key *)
  task_seq : Z;                      (* last id the table's sequence gave *)
  clock : nat -> DateTime.t;         (* successive results of utcnow() *)
  ticks : nat;                       (* how many were read *)
  served : list (string * dict);     (* the Task MCP tools entered so far *)
  log : list LogEvent
}.

(** Computations on the world. *)
Definition M (A : Type) : Type := World -> A * World.

#[export] Instance M_ret : MRet M := fun A a w => (a, w).
#[export] Instance M_bind : MBind M :=
  fun A B f m w => let '(a, w') := m w in f a w'.

(** [datetime.utcnow()] *)
Definition utcnow : M DateTime.t :=
  fun w => (clock w (ticks w),
            mkWorld (tasks w) (task_seq w) (clock w) (S (ticks w))
                    (served w) (log w)).

Definition emit (e : LogEvent) : M unit :=
  fun w => (tt, mkWorld (tasks w) (task_seq w) (clock w) (ticks w)
                        (served w) (log w ++ [e])).

Definition entered (tool : string) (args : dict) : M unit :=
  fun w => (tt, mkWorld (tasks w) (task_seq w) (clock w) (ticks w)
                        (served w ++ [(tool, args)]) (log w)).

Definition read_tasks : M (gmap Z Task.t) := fun w => (tasks w, w).

(** Commit of one inserted or updated row. *)
Definition write_task (id : Z) (task : Task.t) : M unit :=
  fun w => (tt, mkWorld (<[id := task]> (tasks w)) (task_seq w) (clock w)
                        (ticks w) (served w) (log w)).

(** Commit of one deleted row. *)
Definition remove_task (id : Z) : M unit :=
  fun w => (tt, mkWorld (delete id (tasks w)) (task_seq w) (clock w)
                        (ticks w) (served w) (log w)).

(** The next value of the sequence behind the [id] column. *)
Definition next_task_id : M Z :=
  fun w => ((task_seq w + 1)%Z,
            mkWorld (tasks w) (task_seq w + 1)%Z (clock w) (ticks w)
                    (served w) (log w)).

(* ===================================================================== *)
(** ** mcp_servers/task_mcp/main.py                                       *)
(* ===================================================================== *)

(** The database engine is taken to answer every statement: a reply
    built from an exception comes from the program's own values, never
    from a lost connection.  Driver exceptions carry a short description
    instead of the driver's wording. *)
Module TaskMCPServer.

Definition error_reply (message : string) (code : Z) : dict :=
  {[ "error" := VStr message; "code" := VInt code ]}.

Definition opt_str (o : option string) : pyval :=
  match o with Some s => VStr s | None => VNone end.

(** The dict every tool builds from a task row. *)
Definition task_reply (id : Z) (task : Task.t) : dict :=
  {[ "id" := VInt id;
     "user_id" := VStr (Task.user_id task);
     "title" := VStr (Task.title task);
     "description" := opt_str (Task.description task);
     "is_completed" := VBool (Task.is_completed task);
     "created_at" := VStr (DateTime.isoformat (Task.created_at task));
     "updated_at" := VStr (DateTime.isoformat (Task.updated_at task)) ]}.

(** [Task.user_id == user_id] as the query evaluates it: only a string
    equal to the column satisfies it. *)
Definition owned_by (user_id : pyval) (task : Task.t) : bool :=
  match user_id with
  | VStr u => String.eqb (Task.user_id task) u
  | _ => false
  end.

(** [select(Task).where((Task.id == id) & (Task.user_id == user_id))]
    followed by [scalar_one_or_none()]; [id] is the primary key, so at
    most one row qualifies. *)
Definition select_task (id : Z) (user_id : pyval) (table : gmap Z Task.t)
  : option Task.t :=
  match table !! id with
  | Some task => if owned_by user_id task then Some task else None
  | None => None
  end.

(** The value a Boolean column accepts. *)
Definition as_boolean (v : pyval) : option bool :=
  match v with
  | VBool b => Some b
  | VInt 0 => Some false
  | VInt 1 => Some true
  | _ => None
  end.

(** The value a non-null string column accepts. *)
Definition as_string (v : pyval) : option string :=
  match v with VStr s => Some s | _ => None end.

(** [s or None] *)
Definition or_none (s : string) : option string :=
  if PyStr.nonempty s then Some s else None.

Definition add_task (args : dict) : M (PyExn + dict) :=
  _ ← entered "add_task" args;
  let user_id := get args "user_id" in
  match py_strip (get_default args "title" (VStr "")) with
  | inl e => mret (inl e)
  | inr title =>
  match py_strip (get_default args "description" (VStr "")) with
  | inl e => mret (inl e)
  | inr description =>
      let description := or_none description in
      (* Validation *)
      if negb (PyStr.nonempty title) then
        mret (inr (error_reply "Task title cannot be empty" 400))
      else if (200 <? String.length title)%nat then
        mret (inr (error_reply "Task title cannot exceed 200 characters" 400))
      else if match description with
              | Some d => (2000 <? String.length d)%nat
              | None => false
              end then
        mret (inr (error_reply
                     "Task description cannot exceed 2000 characters" 400))
      else
        created ← utcnow;
        updated ← utcnow;
        match as_string user_id with
        | None =>
            mret (inr (error_reply
                         "Failed to create task: user_id is not a string" 500))
        | Some owner =>
            id ← next_task_id;
            table ← read_tasks;
            match table !! id with
            | Some _ =>
                mret (inr (error_reply
                             "Failed to create task: duplicate key" 500))
            | None =>
                let task :=
                  Task.mk owner title description false None None
                          created updated in
                _ ← write_task id task;
                mret (inr (task_reply id task))
            end
        end
  end
  end.

(** Insertion into a list sorted by [created_at], latest first. *)
Fixpoint insert_desc (x : Z * Task.t) (l : list (Z * Task.t))
  : list (Z * Task.t) :=
  match l with
  | [] => [x]
  | y :: l' =>
      if (Task.created_at (snd y) <? Task.created_at (snd x))%Z
      then x :: l
      else y :: insert_desc x l'
  end.

(** [order_by(Task.created_at.desc())] *)
Definition order_desc (l : list (Z * Task.t)) : list (Z * Task.t) :=
  fold_right insert_desc [] l.

Definition list_tasks (args : dict) : M dict :=
  _ ← entered "list_tasks" args;
  let user_id := get args "user_id" in
  let include_completed := get_default args "include_completed" (VBool true) in
  table ← read_tasks;
  let mine :=
    List.filter (fun r : Z * Task.t => owned_by user_id (snd r))
                (map_to_list table) in
  let shown :=
    if negb (truthy include_completed)
    then List.filter (fun r : Z * Task.t => negb (Task.is_completed (snd r)))
                     mine
    else mine in
  mret ({[ "tasks" :=
             VList (List.map (fun r : Z * Task.t =>
                                VDict (task_reply (fst r) (snd r)))
                             (order_desc shown)) ]} : dict).

(** The common opening of the tools that work on one task:
    [int(task_id)], the query, and the replies of the two [except]
    clauses and of a missing row.  The number [int] returns is looked
    up as it is (see the conventions for one beyond the column). *)
Definition with_task (what : string) (args : dict)
           (k : Z -> Task.t -> M dict) : M dict :=
  let user_id := get args "user_id" in
  let task_id := get args "task_id" in
  match py_int task_id with
  | inl (ValueError _) => mret (error_reply "Invalid task ID format" 400)
  | inl e =>
      mret (error_reply ("Failed to " ++ what ++ " task: " ++ exn_str e) 500)
  | inr id =>
      table ← read_tasks;
      match select_task id user_id table with
      | None => mret (error_reply "Task not found" 404)
      | Some task => k id task
      end
  end.

Definition get_task (args : dict) : M dict :=
  _ ← entered "get_task" args;
  with_task "get" args (fun id task => mret (task_reply id task)).

Definition update_task (args : dict) : M dict :=
  _ ← entered "update_task" args;
  let title := get args "title" in
  let description := get args "description" in
  with_task "update" args (fun id task =>
    let failed (e : PyExn) : M dict :=
      mret (error_reply ("Failed to update task: " ++ exn_str e) 500) in
    (* Update fields if provided *)
    let after_title (new_title : string) : M dict :=
      let after_description (new_description : option string) : M dict :=
        now ← utcnow;
        let task' :=
          Task.mk (Task.user_id task) new_title new_description
                  (Task.is_completed task) (Task.priority task)
                  (Task.due_date task) (Task.created_at task) now in
        _ ← write_task id task';
        mret (task_reply id task') in
      match description with
      | VNone => after_description (Task.description task)
      | _ =>
          match py_strip description with
          | inl e => failed e
          | inr d =>
              let d := or_none d in
              if match d with
                 | Some d' => (2000 <? String.length d')%nat
                 | None => false
                 end
              then mret (error_reply
                           "Task description cannot exceed 2000 characters" 400)
              else after_description d
          end
      end in
    match title with
    | VNone => after_title (Task.title task)
    | _ =>
        match py_strip title with
        | inl e => failed e
        | inr t' =>
            if negb (PyStr.nonempty t') then
              mret (error_reply "Task title cannot be empty" 400)
            else if (200 <? String.length t')%nat then
              mret (error_reply "Task title cannot exceed 200 characters" 400)
            else after_title t'
        end
    end).

Definition delete_task (args : dict) : M dict :=
  _ ← entered "delete_task" args;
  let task_id := get args "task_id" in
  with_task "delete" args (fun id task =>
    _ ← remove_task id;
    mret ({[ "success" := VBool true;
             "message" := VStr "Task deleted successfully";
             "task_id" := task_id ]} : dict)).

Definition complete_task (args : dict) : M dict :=
  _ ← entered "complete_task" args;
  let completed := get_default args "completed" (VBool true) in
  with_task "complete" args (fun id task =>
    now ← utcnow;
    match as_boolean completed with
    | None =>
        mret (error_reply
                "Failed to complete task: completed is not a boolean" 500)
    | Some flag =>
        let task' :=
          Task.mk (Task.user_id task) (Task.title task)
                  (Task.description task) flag (Task.priority task)
                  (Task.due_date task) (Task.created_at task) now in
        _ ← write_task id task';
        mret (task_reply id task')
    end).

End TaskMCPServer.

(* ===================================================================== *)
(** ** app/models/conversation.py, app/models/message.py                  *)
(* ===================================================================== *)

(** A [UUID] is its canonical text. *)
Definition UUID : Type := string.

Module Conversation.
Record t : Type := mk {
  id : UUID;
  user_id : string;
  created_at : DateTime.t;
  updated_at : DateTime.t
}.
End Conversation.

Module Message.
Record t : Type := mk {
  id : UUID;
  conversation_id : UUID;
  user_id : string;
  sender : string;                 (* "user" or "assistant" *)
  content : string;
  tool_calls : option pyval;
  created_at : DateTime.t
}.
End Message.

(* ===================================================================== *)
(** ** app/services/agent.py: parameter extraction                        *)
(* ===================================================================== *)

Module AgentService.

Import Re IntentMapper TaskMCPServer.

(** The extraction patterns of the ADD branch, in source order. *)
Definition add_patterns : list regex :=
  [ (* ^(?:add|create|remember)\s+(.+)$ *)
    cat [Bol; words "add" ["create"; "remember"]; ws;
         Group 1 (Plus anychar); Eol];
    (* ^(?:add|create|remember)\s+task\s+(.+)$ *)
    cat [Bol; words "add" ["create"; "remember"]; ws; lit "task"; ws;
         Group 1 (Plus anychar); Eol];
    (* ^new\s+task\s+(.+)$ *)
    cat [Bol; lit "new"; ws; lit "task"; ws; Group 1 (Plus anychar); Eol];
    (* ^task\s+to\s+(.+)$ *)
    cat [Bol; lit "task"; ws; lit "to"; ws; Group 1 (Plus anychar); Eol] ].

(** [\d+] *)
Definition digits : regex := Plus digit.

(** [(?:task\s+)?(\d+)\s+(?:to\s+)?(.+)] *)
Definition update_pattern : regex :=
  cat [Opt (cat [lit "task"; ws]); Group 1 (Plus digit); ws;
       Opt (cat [lit "to"; ws]); Group 2 (Plus anychar)].

(** The loop [for pattern in patterns: match = re.search(...); if match:
    break], whose result is the value of [match] after the loop. *)
Fixpoint first_match (patterns : list regex) (subject : string)
  : option Match :=
  match patterns with
  | [] => None
  | pattern :: rest =>
      match search pattern subject false with
      | Some m => Some m
      | None => first_match rest subject
      end
  end.

(** The fallback loop over ['add', 'create', 'remember', 'task'] with its
    [else] clause, which runs when the loop ends without [break]. *)
Fixpoint add_fallback (kws : list string) (user_input : string)
         (params : dict) : dict :=
  match kws with
  | [] => <["title" := VStr "Untitled task"]> params
  | keyword :: rest =>
      let pos := PyStr.find (PyStr.lower user_input) keyword in
      if negb (pos =? -1)%Z then
        let extracted_title :=
          PyStr.strip
            (PyStr.drop (Z.to_nat (pos + Z.of_nat (String.length keyword)))
                        user_input) in
        let params := <["title" := VStr extracted_title]> params in
        if PyStr.nonempty extracted_title then params
        else add_fallback rest user_input params
      else add_fallback rest user_input params
  end.

Definition fallback_keywords : list string :=
  ["add"; "create"; "remember"; "task"].

(** [match = re.search(r"\d+", user_input); if match: params["task_id"] =
    match.group()] *)
Definition with_task_id (user_input : string) (params : dict) : dict :=
  match search digits user_input false with
  | Some m => <["task_id" := VStr (group m 0)]> params
  | None => params
  end.

Definition _extract_parameters (intent : Intent) (user_input user_id : string)
  : dict :=
  let params : dict := {[ "user_id" := VStr user_id ]} in
  match intent with
  | ADD =>
      match first_match add_patterns (PyStr.strip (PyStr.lower user_input)) with
      | Some m => <["title" := VStr (PyStr.strip (group m 1))]> params
      | None => add_fallback fallback_keywords user_input params
      end
  | LIST =>
      <["include_completed" :=
          VBool (negb (PyStr.contains "completed" (PyStr.lower user_input)))]>
        params
  | COMPLETE =>
      let params := with_task_id user_input params in
      <["completed" :=
          VBool (negb (PyStr.contains "uncomplete" (PyStr.lower user_input)))]>
        params
  | DELETE => with_task_id user_input params
  | UPDATE =>
      match search update_pattern user_input false with
      | Some m =>
          <["title" := VStr (PyStr.strip (group m 2))]>
            (<["task_id" := VStr (group m 1)]> params)
      | None => params
      end
  | GET => with_task_id user_input params
  | UNKNOWN => params
  end.


(** [_invoke_tool]; it assigns [params["user_id"]] on the caller's dict,
    so the dict is returned next to the result. *)
Definition _invoke_tool (tool_name : string) (params : dict)
           (user_id : string) (conversation_id : UUID) : M (dict * dict) :=
  (* All task tools expect user_id in params *)
  let params := <["user_id" := VStr user_id]> params in
  if String.eqb tool_name "add_task" then
    r ← add_task params;
    match r with
    | inr result => mret (result, params)
    | inl e =>
        mret ({[ "error" := VStr ("Tool execution failed: " ++ exn_str e)%string;
                 "code" := VInt 500 ]}, params)
    end
  else if String.eqb tool_name "list_tasks" then
    result ← list_tasks params; mret (result, params)
  else if String.eqb tool_name "get_task" then
    result ← get_task params; mret (result, params)
  else if String.eqb tool_name "update_task" then
    result ← update_task params; mret (result, params)
  else if String.eqb tool_name "delete_task" then
    result ← delete_task params; mret (result, params)
  else if String.eqb tool_name "complete_task" then
    result ← complete_task params; mret (result, params)
  else
    mret ({[ "error" := VStr ("Unknown tool: " ++ tool_name)%string ]}, params).

Definition nl : string := String "010"%char EmptyString.

(** The literals of the templates, as the source file has them; their
    characters above U+00FF stand as their UTF-8 bytes and are only ever
    concatenated. *)
Definition mark_created : string := "âœ…".
Definition mark_done : string := "âœ“".
Definition mark_deleted : string := "ğŸ—‘ï¸".
Definition mark_updated : string := "âœï¸".
Definition mark_details : string := "ğŸ“‹".

Section Response.

Local Open Scope string_scope.

(** [str(v)] for a list or a dict, whose text depends on the order in
    which a dict was filled. *)
Variable container_str : pyval -> string.

(** [str(v)], as an f-string field formats [v]. *)
Definition py_str (v : pyval) : string :=
  match v with
  | VNone => "None"
  | VBool true => "True"
  | VBool false => "False"
  | VInt z => str_of_Z z
  | VStr s => s
  | VList _ | VDict _ => container_str v
  end.

(** One line of the task list; [t.get] needs a dict. *)
Definition task_line (t : pyval) : PyExn + string :=
  match t with
  | VDict d =>
      inr ("- [" ++ py_str (get d "id") ++ "] " ++ py_str (get d "title")
           ++ " " ++ (if truthy (get d "is_completed") then mark_done else ""))
  | _ => inl (AttributeError
                ("'" ++ type_name t ++ "' object has no attribute 'get'"))
  end.

(** The list comprehension over [tasks]. *)
Fixpoint task_lines (ts : list pyval) : PyExn + list string :=
  match ts with
  | [] => inr []
  | t :: ts' =>
      match task_line t with
      | inl e => inl e
      | inr line =>
          match task_lines ts' with
          | inl e => inl e
          | inr lines => inr (line :: lines)
          end
      end
  end.

(** ["\n".join(lines)] *)
Fixpoint join_lines (lines : list string) : string :=
  match lines with
  | [] => ""
  | [line] => line
  | line :: rest => line ++ nl ++ join_lines rest
  end.

(** The elements [for t in tasks] visits, for a truthy [tasks]. *)
Definition iterate (tasks : pyval) : PyExn + list pyval :=
  match tasks with
  | VList l => inr l
  | VStr s => inr (List.map (fun c => VStr (String c EmptyString))
                            (list_ascii_of_string s))
  | VDict d => inr (List.map (fun kv : string * pyval => VStr (fst kv))
                             (map_to_list d))
  | _ => inl (TypeError
                ("'" ++ type_name tasks ++ "' object is not iterable"))
  end.

Definition _generate_response (intent : Intent) (tool_result : dict)
           (user_input : string) (user_context : dict) : PyExn + string :=
  match intent with
  | ADD =>
      let title := get_default tool_result "title" (VStr "task") in
      inr (mark_created ++ " Created task: " ++ py_str title)
  | LIST =>
      let tasks := get_default tool_result "tasks" (VList []) in
      if negb (truthy tasks) then inr "You don't have any tasks yet."
      else
        match iterate tasks with
        | inl e => inl e
        | inr ts =>
            match task_lines ts with
            | inl e => inl e
            | inr lines => inr ("Here are your tasks:" ++ nl ++ join_lines lines)
            end
        end
  | COMPLETE =>
      inr (mark_created ++ " Marked task " ++ py_str (get tool_result "id")
           ++ " as done.")
  | DELETE =>
      inr (mark_deleted ++ " Deleted task " ++ py_str (get tool_result "id")
           ++ ".")
  | UPDATE =>
      inr (mark_updated ++ " Updated task: "
           ++ py_str (get_default tool_result "title" (VStr "task")))
  | GET =>
      let title := get_default tool_result "title" (VStr "Task") in
      inr (mark_details ++ " **" ++ py_str title ++ "**" ++ nl
           ++ py_str (get_default tool_result "description"
                                  (VStr "No description")))
  | UNKNOWN => inr "Operation completed."
  end.

(** The guard of Step 2, [intent == Intent.UNKNOWN or confidence < 0.5]. *)
Definition low_confidence (intent : Intent) (confidence : Q) : bool :=
  Intent_eqb intent UNKNOWN || negb (Qle_bool (1 # 2) confidence).

Definition clarification : string :=
  "I didn't understand your request. You can ask me to:" ++ nl ++
  "- Create a task (e.g., 'add buy groceries')" ++ nl ++
  "- List your tasks (e.g., 'show all tasks')" ++ nl ++
  "- Complete a task (e.g., 'mark task 1 done')" ++ nl ++
  "- Update a task (e.g., 'change task 1 to buy milk')" ++ nl ++
  "- Delete a task (e.g., 'delete task 1')".

(** The record appended to [tool_calls]. *)
Definition invocation_record (tool_name : string) (params tool_result : dict)
  : dict :=
  {[ "tool" := VStr tool_name;
     "parameters" := VDict params;
     "result" := VDict tool_result ]}.

Definition process_message (user_id : string) (conversation_id : UUID)
           (messages : list Message.t) (user_input : string)
           (include_context : bool)
  : M (PyExn + (string * list dict)) :=
  (* Step 1: Extract intent deterministically *)
  let '(intent, confidence) := extract_intent user_input in
  _ ← emit (AgentDecision user_id conversation_id (value intent) confidence
                          user_input);
  (* Step 2: Validate confidence *)
  if low_confidence intent confidence then
    mret (inr (clarification, []))
  else
    (* Step 3: Prepare tool invocation *)
    let tool_calls : list dict := [] in
    (* Step 4: Extract parameters based on intent *)
    let tool_name := get_tool_name intent in
    let params := _extract_parameters intent user_input user_id in
    (* Step 5: Invoke Tool (Task MCP) *)
    '(tool_result, params) ←
      _invoke_tool tool_name params user_id conversation_id;
    (* Step 6 & 7: Contact-7 and Context-7 enrichment (Phase 5) *)
    let user_context : dict :=
      if include_context && is_none (get tool_result "error") then
        {[ "name" := VStr "User";
           "preferences" := VDict {[ "timezone" := VStr "UTC" ]} ]}
      else ∅ in
    if truthy (get tool_result "error") then
      let response := get_fallback_response intent in
      _ ← emit (ToolExecutionFailed user_id conversation_id
                  (get tool_result "error") tool_name
                  (get_default tool_result "code" (VInt 500)));
      mret (inr (response, tool_calls))
    else
      (* Step 8: Generate natural language response *)
      match _generate_response intent tool_result user_input user_context with
      | inl e => mret (inl e)
      | inr response =>
          let tool_calls :=
            (tool_calls ++ [invocation_record tool_name params tool_result])%list in
          _ ← emit (ToolCallLogged user_id conversation_id tool_name
                                   params tool_result);
          (* Step 9: Return response and tool calls *)
          mret (inr (response, tool_calls))
      end.

End Response.
End AgentService.

(* ===================================================================== *)
(** ** app/services/conversation.py                                       *)
(* ===================================================================== *)

(** The session is the two tables as the database holds them ([durable])
    and as the open transaction sees them ([view]): [flush] writes to the
    view, [commit] makes the view durable.  Primary keys are enforced at
    [flush]; foreign keys are not checked.  The results of [uuid4()] and
    of [datetime.utcnow()] for the defaults of a new row are arguments. *)
Module ConversationService.

Record Tables : Type := mkTables {
  conversations : list Conversation.t;
  messages : list Message.t
}.

Record AsyncSession : Type := mkSession {
  durable : Tables;
  view : Tables
}.

(** A session opened on the database. *)
Definition open_session (db : Tables) : AsyncSession := mkSession db db.

(** Insertion into a list sorted by [created_at], earliest first; rows
    with equal times keep the order of the table. *)
Fixpoint insert_by_created_at (m : Message.t) (l : list Message.t)
  : list Message.t :=
  match l with
  | [] => [m]
  | y :: l' =>
      if (Message.created_at m <=? Message.created_at y)%Z
      then m :: l
      else y :: insert_by_created_at m l'
  end.

(** [order_by(Message.created_at)] *)
Definition order_by_created_at (l : list Message.t) : list Message.t :=
  fold_right insert_by_created_at [] l.

(** [select(Message).where(Message.conversation_id == conversation_id)] *)
Definition messages_of (conversation_id : UUID) (l : list Message.t)
  : list Message.t :=
  List.filter
    (fun m => String.eqb (Message.conversation_id m) conversation_id) l.

Definition load_conversation (session : AsyncSession)
           (conversation_id : UUID) (user_id : string)
  : PyExn + (Conversation.t * list Message.t) :=
  (* Load conversation *)
  match List.filter
          (fun c => String.eqb (Conversation.id c) conversation_id)
          (conversations (view session)) with
  | [] => inl (ValueError ("Conversation " ++ conversation_id ++ " not found"))
  | [conversation] =>
      (* Verify user ownership *)
      if negb (String.eqb (Conversation.user_id conversation) user_id) then
        inl (ValueError "Access denied: conversation does not belong to user")
      else
        (* Load all messages for this conversation, ordered by creation time *)
        inr (conversation,
             order_by_created_at
               (messages_of conversation_id (messages (view session))))
  | _ =>
      inl (DatabaseError
             "Multiple rows were found when one or none was required")
  end.

Definition create_conversation (session : AsyncSession) (new_id : UUID)
           (now_created now_updated : DateTime.t) (user_id : string)
  : PyExn + (Conversation.t * AsyncSession) :=
  let conversation :=
    Conversation.mk new_id user_id now_created now_updated in
  let v := view session in
  if existsb (fun c => String.eqb (Conversation.id c) new_id)
             (conversations v)
  then inl (DatabaseError "duplicate key in conversations")
  else inr (conversation,
            mkSession (durable session)
                      (mkTables (conversations v ++ [conversation])
                                (messages v))).

(** [session.add(message); await session.flush()] *)
Definition add_message (session : AsyncSession) (message : Message.t)
  : PyExn + (Message.t * AsyncSession) :=
  let v := view session in
  if existsb (fun m => String.eqb (Message.id m) (Message.id message))
             (messages v)
  then inl (DatabaseError "duplicate key in messages")
  else inr (message,
            mkSession (durable session)
                      (mkTables (conversations v) (messages v ++ [message]))).

Definition persist_user_message (session : AsyncSession) (new_id : UUID)
           (now : DateTime.t) (conversation_id : UUID)
           (user_id content : string)
  : PyExn + (Message.t * AsyncSession) :=
  let message :=
    Message.mk new_id conversation_id user_id "user" content None now in
  add_message session message.

Definition persist_assistant_message (session : AsyncSession) (new_id : UUID)
           (now : DateTime.t) (conversation_id : UUID)
           (user_id content : string) (tool_calls : option pyval)
  : PyExn + (Message.t * AsyncSession) :=
  let message :=
    Message.mk new_id conversation_id user_id "assistant" content
               tool_calls now in
  add_message session message.

(** [await session.commit()] *)
Definition save_conversation (session : AsyncSession) : AsyncSession :=
  mkSession (view session) (view session).

End ConversationService.

(* ===================================================================== *)
(** ** mcp_servers/task_mcp/main.py: the tool dispatcher                  *)
(* ===================================================================== *)

Module TaskMCPDispatch.
Import TaskMCPServer.

(** [call_tool], registered by [_register_tools]: an exception of a tool
    is not caught here. *)
Definition call_tool (name : string) (arguments : dict) : M (PyExn + dict) :=
  if String.eqb name "add_task" then add_task arguments
  else if String.eqb name "list_tasks" then
    result ← list_tasks arguments; mret (inr result)
  else if String.eqb name "get_task" then
    result ← get_task arguments; mret (inr result)
  else if String.eqb name "update_task" then
    result ← update_task arguments; mret (inr result)
  else if String.eqb name "delete_task" then
    result ← delete_task arguments; mret (inr result)
  else if String.eqb name "complete_task" then
    result ← complete_task arguments; mret (inr result)
  else
    mret (inr ({[ "error" := VStr ("Unknown tool: " ++ name)%string ]} : dict)).

End TaskMCPDispatch.

(* ===================================================================== *)
(** ** app/schemas/chat.py, app/core/database.py, app/api/routes/chat.py  *)
(* ===================================================================== *)

Module ChatRequest.
Record t : Type := mk {
  conversation_id : option UUID;
  message : string;
  include_context : bool
}.
End ChatRequest.

Module ToolCall.
Record t : Type := mk {
  tool : string;
  parameters : dict
}.
End ToolCall.

Module ChatResponse.
Record t : Type := mk {
  conversation_id : UUID;
  assistant_message : string;
  tool_calls : list ToolCall.t
}.
End ChatResponse.

Module HTTPException.
Record t : Type := mk {
  status_code : Z;
  detail : string
}.
End HTTPException.

Module ChatRoute.

Import ConversationService AgentService.

(** What the body of [chat] can raise: the exceptions of the services, the
    [KeyError] of a subscript, and pydantic's [ValidationError], which is
    a [ValueError]. *)
Inductive Raised : Type :=
| Py (e : PyExn)
| KeyError (key : string)
| ValidationError (text : string).

(** [isinstance(e, ValueError)] *)
Definition is_value_error (e : Raised) : bool :=
  match e with
  | Py (ValueError _) | ValidationError _ => true
  | _ => false
  end.

(** [str(e)] *)
Definition raised_str (e : Raised) : string :=
  match e with
  | Py e => exn_str e
  | KeyError key => ("'" ++ key ++ "'")%string
  | ValidationError text => text
  end.

(** The two [except] clauses of [chat]. *)
Definition http_error (e : Raised) : HTTPException.t :=
  if is_value_error e then HTTPException.mk 404 (raised_str e)
  else HTTPException.mk 500
         ("An unexpected error occurred processing your message: "
          ++ raised_str e)%string.

(** The values the calls of [uuid4()] return: for a new conversation, for
    the user message and for the assistant message. *)
Record Fresh : Type := mkFresh {
  conversation_uuid : UUID;
  user_message_uuid : UUID;
  assistant_message_uuid : UUID
}.

Section Chat.

Variable container_str : pyval -> string.

(** [str(e)] for the [ValidationError] of a field of [ToolCall], from the
    name of the field and the rejected value. *)
Variable validation_text : string -> pyval -> string.

(** [ToolCall(tool=tc["tool"], parameters=tc["parameters"])]: the two
    subscripts, then the validation of a [str] and of a [dict[str, Any]]. *)
Definition tool_call_of (tc : dict) : Raised + ToolCall.t :=
  match tc !! "tool" with
  | None => inl (KeyError "tool")
  | Some tool =>
      match tc !! "parameters" with
      | None => inl (KeyError "parameters")
      | Some parameters =>
          match tool, parameters with
          | VStr tool, VDict parameters => inr (ToolCall.mk tool parameters)
          | VStr _, _ =>
              inl (ValidationError (validation_text "parameters" parameters))
          | _, _ => inl (ValidationError (validation_text "tool" tool))
          end
      end
  end.

(** The list comprehension of the response. *)
Fixpoint tool_calls_of (tool_calls : list dict)
  : Raised + list ToolCall.t :=
  match tool_calls with
  | [] => inr []
  | tc :: rest =>
      match tool_call_of tc with
      | inl e => inl e
      | inr call =>
          match tool_calls_of rest with
          | inl e => inl e
          | inr calls => inr (call :: calls)
          end
      end
  end.

(** An exception caught by one of the two [except] clauses. *)
Definition raised (e : Raised) (session : AsyncSession)
  : M ((HTTPException.t + ChatResponse.t) * AsyncSession) :=
  mret (inl (http_error e), session).

(** The first block of the [try]: "Load or create conversation". *)
Definition open_conversation (fresh : Fresh) (user_id : string)
           (request : ChatRequest.t) (session : AsyncSession)
  : M (PyExn + (Conversation.t * list Message.t * AsyncSession)) :=
  match ChatRequest.conversation_id request with
  | Some conversation_id =>
      mret (match load_conversation session conversation_id user_id with
            | inl e => inl e
            | inr (conversation, messages) =>
                inr (conversation, messages, session)
            end)
  | None =>
      created ← utcnow;
      updated ← utcnow;
      mret (match create_conversation session (conversation_uuid fresh)
                                      created updated user_id with
            | inl e => inl e
            | inr (conversation, session) => inr (conversation, [], session)
            end)
  end.

(** The rest of the [try], from "Persist user message" to the
    response. *)
Definition chat_turn (fresh : Fresh) (user_id : string)
           (request : ChatRequest.t) (conversation : Conversation.t)
           (messages : list Message.t) (session : AsyncSession)
  : M ((HTTPException.t + ChatResponse.t) * AsyncSession) :=
  (* Persist user message *)
  now ← utcnow;
  match persist_user_message session (user_message_uuid fresh) now
                             (Conversation.id conversation) user_id
                             (ChatRequest.message request) with
  | inl e => raised (Py e) session
  | inr (user_message, session) =>
      (* Step 1: Load full conversation history for agent context *)
      let full_history := (messages ++ [user_message])%list in
      (* Step 2: Process through Agent Decision Hierarchy *)
      outcome ←
        process_message container_str user_id
                        (Conversation.id conversation) full_history
                        (ChatRequest.message request)
                        (ChatRequest.include_context request);
      match outcome with
      | inl e => raised (Py e) session
      | inr (agent_response, tool_calls) =>
          (* Step 3: Persist assistant response with tool calls metadata *)
          let tool_calls_json :=
            match tool_calls with
            | [] => None
            | _ => Some (VDict {[ "tools" :=
                                    VList (List.map VDict tool_calls) ]})
            end in
          now ← utcnow;
          match persist_assistant_message
                  session (assistant_message_uuid fresh) now
                  (Conversation.id conversation) user_id agent_response
                  tool_calls_json with
          | inl e => raised (Py e) session
          | inr (assistant_message, session) =>
              (* Step 4: Commit all changes atomically *)
              let session := save_conversation session in
              match tool_calls_of tool_calls with
              | inl e => raised e session
              | inr calls =>
                  mret (inr (ChatResponse.mk
                               (Conversation.id conversation)
                               (Message.content assistant_message)
                               calls),
                        session)
              end
          end
      end
  end.

(** The endpoint.  The session is the one [get_session] yields; it is
    returned with the outcome, an [HTTPException] standing for the
    exception the endpoint raises.  The two plain log lines of the
    endpoint are left out, as are the ones of [_invoke_tool]. *)
Definition chat (fresh : Fresh) (user_id : string) (request : ChatRequest.t)
           (session : AsyncSession)
  : M ((HTTPException.t + ChatResponse.t) * AsyncSession) :=
  opened ← open_conversation fresh user_id request session;
  match opened with
  | inl e => raised (Py e) session
  | inr (conversation, messages, session) =>
      chat_turn fresh user_id request conversation messages session
  end.

(** [get_session] around the endpoint: a session on the database, a
    commit when the endpoint returns and a rollback when it raises.  The
    result is the outcome and the database the request leaves. *)
Definition chat_request (db : Tables) (fresh : Fresh) (user_id : string)
           (request : ChatRequest.t)
  : M ((HTTPException.t + ChatResponse.t) * Tables) :=
  '(outcome, session) ← chat fresh user_id request (open_session db);
  match outcome with
  | inr _ => mret (outcome, durable (save_conversation session))
  | inl _ => mret (outcome, durable session)
  end.

End Chat.

End ChatRoute.

(* ===================================================================== *)
(** * Vocabulary of the properties                                        *)
(* ===================================================================== *)

Module Spec.
Import PyStr IntentMapper TaskMCPServer AgentService ConversationService.

(** [sub] occurs in [s]. *)
Definition is_substring (sub s : string) : Prop :=
  exists pre post, s = (pre ++ sub ++ post)%string.

(** Some pattern of [intent] matches [message]. *)
Definition matches_pattern (intent : Intent) (message : string) : Prop :=
  exists config pattern,
    In (intent, config) INTENT_PATTERNS /\ In pattern (patterns config)
    /\ Re.search pattern message true <> None.

(** Some keyword of [intent] occurs in [message]. *)
Definition has_keyword (intent : Intent) (message : string) : Prop :=
  exists config keyword,
    In (intent, config) INTENT_PATTERNS /\ In keyword (keywords config)
    /\ is_substring keyword message.

(** The messages [extract_intent] works on. *)
Definition normalize (user_message : string) : string :=
  lower (strip user_message).

(** The trimmed text after the first occurrence of [keyword], looked for
    in the lower-cased input and cut from the input itself; [None] when
    the keyword does not occur. *)
Definition suffix_after (keyword user_input : string) : option string :=
  let pos := find (lower user_input) keyword in
  if (pos =? -1)%Z then None
  else Some (strip (drop (Z.to_nat (pos + Z.of_nat (String.length keyword)))
                         user_input)).

(** The keyword gives nothing: it does not occur or nothing follows it. *)
Definition barren (keyword user_input : string) : Prop :=
  suffix_after keyword user_input = None
  \/ suffix_after keyword user_input = Some "".

(** The title the fallback loop ends with. *)
Fixpoint fallback_title (kws : list string) (user_input : string) : string :=
  match kws with
  | [] => "Untitled task"
  | keyword :: rest =>
      match suffix_after keyword user_input with
      | Some t => if nonempty t then t else fallback_title rest user_input
      | None => fallback_title rest user_input
      end
  end.

(** The world after one more log event. *)
Definition logged (e : LogEvent) (w : World) : World := snd (emit e w).

(** A computation that writes nothing to the log. *)
Definition keeps_log {A : Type} (m : M A) : Prop :=
  forall w, log (snd (m w)) = log w.

(** Not later than, on creation times. *)
Definition not_later (a b : Message.t) : Prop :=
  (Message.created_at a <= Message.created_at b)%Z.

(** Persisting a user message and then an assistant message, and loading
    the conversation again, gives the earlier turns followed by the two
    messages, for every reading of the clock. *)
Definition round_trip_in_persistence_order : Prop :=
  forall (session : AsyncSession) (conversation_id : UUID) (user_id : string)
         (conversation : Conversation.t) (earlier : list Message.t)
         (id1 id2 : UUID) (t1 t2 : DateTime.t) (content1 content2 : string)
         (tool_calls : option pyval) (m1 m2 : Message.t)
         (s1 s2 : AsyncSession),
    load_conversation session conversation_id user_id
    = inr (conversation, earlier) ->
    persist_user_message session id1 t1 conversation_id user_id content1
    = inr (m1, s1) ->
    persist_assistant_message s1 id2 t2 conversation_id user_id content2
                              tool_calls
    = inr (m2, s2) ->
    load_conversation (open_session (durable (save_conversation s2)))
                      conversation_id user_id
    = inr (conversation, earlier ++ [m1; m2]).

End Spec.

(** Sample worlds for the examples below. *)
Module Samples.

Definition groceries : Task.t :=
  Task.mk "alice" "buy groceries" None false None None 100%Z 100%Z.

Definition report : Task.t :=
  Task.mk "bob" "write report" (Some "quarterly") false (Some "high") None
          200%Z 250%Z.

(** Two users with one task each; the clock reads 1000, 1001, ... *)
Definition world : World :=
  mkWorld (<[1%Z := groceries]> (<[2%Z := report]> ∅)) 2%Z
          (fun n => (1000 + Z.of_nat n)%Z) 0 [] [].

Definition plain (v : pyval) : string := "".

(** A request that names a task by a number of 4301 digits. *)
Fixpoint ones (n : nat) : string :=
  match n with
  | O => ""
  | S n' => String "1" (ones n')
  end.

Definition long_request : string := "delete task " ++ ones 4301.

End Samples.

(** A database with one conversation of alice and one earlier turn. *)
Module ChatSamples.

Definition talk : Conversation.t := Conversation.mk "c-1" "alice" 10%Z 10%Z.

Definition hello : Message.t :=
  Message.mk "m-0" "c-1" "alice" "user" "hello" None 20%Z.

Definition db : ConversationService.Tables :=
  ConversationService.mkTables [talk] [hello].

End ChatSamples.

(** Further vocabulary: what a match can capture, runs of digits, and
    strings of white space. *)
Module TextSpec.
Import PyStr Re.

(** The numbers of the capturing groups of a pattern. *)
Fixpoint group_ids (r : regex) : list nat :=
  match r with
  | Seq r1 r2 | Alt r1 r2 => group_ids r1 ++ group_ids r2
  | Opt r1 => group_ids r1
  | Group n r1 => n :: group_ids r1
  | _ => []
  end.

(** Every character of [s] satisfies [p]. *)
Fixpoint all_chars (p : ascii -> bool) (s : string) : bool :=
  match s with
  | EmptyString => true
  | String c s' => p c && all_chars p s'
  end.

(** No character of [s] is a decimal digit. *)
Definition digit_free (s : string) : bool :=
  all_chars (fun c => negb (is_digit c)) s.

(** [ds] is the first run of decimal digits of [s], taken whole. *)
Definition first_digit_run (s ds : string) : Prop :=
  exists pre rest,
    s = (pre ++ ds ++ rest)%string
    /\ digit_free pre = true
    /\ ds <> EmptyString /\ all_chars is_digit ds = true
    /\ match rest with
       | EmptyString => True
       | String c _ => is_digit c = false
       end.

(** The first run of digits, computed. *)
Fixpoint leading_digits (s : string) : option string :=
  match s with
  | EmptyString => None
  | String c s' =>
      if is_digit c then Some (take (span digit s) s) else leading_digits s'
  end.

End TextSpec.

(** Further vocabulary: the tasks table. *)
Module TaskSpec.
Import PyStr.

(** A stored text: not empty, trimmed, at most [bound] characters. *)
Definition tidy (bound : nat) (s : string) : Prop :=
  s <> EmptyString /\ strip s = s /\ String.length s <= bound.

(** A row as the tools write it. *)
Definition row_ok (t : Task.t) : Prop :=
  tidy 200 (Task.title t)
  /\ match Task.description t with
     | Some d => tidy 2000 d
     | None => True
     end.

(** Every row is as the tools write it and its id has been given out by
    the sequence. *)
Definition table_ok (w : World) : Prop :=
  forall id t, tasks w !! id = Some t -> (id <= task_seq w)%Z /\ row_ok t.

(** What one tool call, made for [user], may do to the table: nothing;
    insert one row of the user under the next id; rewrite one row of the
    user in place, keeping its owner and creation time; delete one row
    of the user; or use up an id that is taken. *)
Inductive table_step (user : pyval) (w w' : World) : Prop :=
| step_none :
    tasks w' = tasks w -> task_seq w' = task_seq w -> table_step user w w'
| step_insert (t : Task.t) :
    tasks w !! (task_seq w + 1)%Z = None ->
    tasks w' = <[(task_seq w + 1)%Z := t]> (tasks w) ->
    task_seq w' = (task_seq w + 1)%Z ->
    user = VStr (Task.user_id t) -> row_ok t -> Task.is_completed t = false ->
    table_step user w w'
| step_rewrite (id : Z) (t t' : Task.t) :
    tasks w !! id = Some t ->
    tasks w' = <[id := t']> (tasks w) ->
    task_seq w' = task_seq w ->
    user = VStr (Task.user_id t) ->
    Task.user_id t' = Task.user_id t ->
    Task.created_at t' = Task.created_at t ->
    (row_ok t -> row_ok t') ->
    table_step user w w'
| step_delete (id : Z) (t : Task.t) :
    tasks w !! id = Some t ->
    tasks w' = delete id (tasks w) ->
    task_seq w' = task_seq w ->
    user = VStr (Task.user_id t) ->
    table_step user w w'
| step_taken :
    tasks w !! (task_seq w + 1)%Z <> None ->
    tasks w' = tasks w -> task_seq w' = (task_seq w + 1)%Z ->
    table_step user w w'.

End TaskSpec.

(** Arguments [add_task] accepts: a string as user, a title that has
    something in it once trimmed and then at most 200 characters, and a
    description of at most 2000 characters once trimmed; [title] and
    [description] are what is stored. *)
Definition new_task_args (args : dict) (owner title : string)
           (description : option string) : Prop :=
  exists s d,
    get args "user_id" = VStr owner
    /\ get_default args "title" (VStr "") = VStr s
    /\ title = PyStr.strip s /\ title <> EmptyString
    /\ String.length title <= 200
    /\ get_default args "description" (VStr "") = VStr d
    /\ description = TaskMCPServer.or_none (PyStr.strip d)
    /\ String.length (PyStr.strip d) <= 2000.


Module ListSpec.

(** Latest first: no row was created before a row that follows it. *)
Definition latest_first (rows : list (Z * Task.t)) : Prop :=
  StronglySorted
    (fun a b : Z * Task.t =>
       (Task.created_at (snd b) <= Task.created_at (snd a))%Z)
    rows.

(** The rows a listing shows: those of the user, and with
    [include_completed] false only the ones not completed. *)
Definition listed (args : dict) (w : World) (id : Z) (task : Task.t) : Prop :=
  tasks w !! id = Some task
  /\ get args "user_id" = VStr (Task.user_id task)
  /\ (truthy (get_default args "include_completed" (VBool true)) = false ->
      Task.is_completed task = false).

(** The reply of a listing with the given rows. *)
Definition listing (rows : list (Z * Task.t)) : dict :=
  {[ "tasks" :=
       VList (List.map (fun r : Z * Task.t =>
                          VDict (TaskMCPServer.task_reply (fst r) (snd r)))
                       rows) ]}.

(** The line of the answer that shows a row. *)
Definition line_of (r : Z * Task.t) : string :=
  ("- [" ++ str_of_Z (fst r) ++ "] " ++ Task.title (snd r) ++ " "
   ++ (if Task.is_completed (snd r) then AgentService.mark_done else ""))%string.

(** The answer to a listing. *)
Definition listing_text (rows : list (Z * Task.t)) : string :=
  match rows with
  | [] => "You don't have any tasks yet."
  | _ => ("Here are your tasks:" ++ AgentService.nl
          ++ AgentService.join_lines (List.map line_of rows))%string
  end.

End ListSpec.


Module UpdateSpec.

(** What an update never touches. *)
Definition same_but_text (old new : Task.t) : Prop :=
  Task.user_id new = Task.user_id old
  /\ Task.is_completed new = Task.is_completed old
  /\ Task.priority new = Task.priority old
  /\ Task.due_date new = Task.due_date old
  /\ Task.created_at new = Task.created_at old.

(** A text field after an update: kept when the argument is missing or
    [None], and otherwise the stripped argument. *)
Definition text_after {A : Type} (argument : pyval) (old new : A)
           (of_stripped : string -> A) : Prop :=
  match argument with
  | VNone => new = old
  | _ => exists s, py_strip argument = inr s /\ new = of_stripped s
  end.

End UpdateSpec.


Module FlowSpec.

(** A computation that enters no tool of the Task MCP. *)
Definition keeps_served {A : Type} (m : M A) : Prop :=
  forall w, served (snd (m w)) = served w.

(** The world in which the body of a tool runs. *)
Definition entering (tool : string) (args : dict) (w : World) : World :=
  snd (entered tool args w).

End FlowSpec.


Module PatternSpec.
Import Re.

(** A pattern that begins with [^]. *)
Definition anchored (r : regex) : bool :=
  match r with
  | Seq Bol _ => true
  | _ => false
  end.

End PatternSpec.


Module ChatSpec.
Import ConversationService ChatRoute.

(** The two rows of one turn of a conversation: the message of the
    user, then the answer. *)
Definition turn_of (fresh : Fresh) (user_id : string) (request : ChatRequest.t)
           (conversation_id : UUID) (answer : string) (m1 m2 : Message.t)
  : Prop :=
  Message.id m1 = user_message_uuid fresh
  /\ Message.id m2 = assistant_message_uuid fresh
  /\ Message.conversation_id m1 = conversation_id
  /\ Message.conversation_id m2 = conversation_id
  /\ Message.user_id m1 = user_id
  /\ Message.user_id m2 = user_id
  /\ Message.sender m1 = "user"
  /\ Message.sender m2 = "assistant"
  /\ Message.content m1 = ChatRequest.message request
  /\ Message.content m2 = answer
  /\ Message.tool_calls m1 = None.

(** No row of the table has one of the two identifiers a turn will
    use, and the two differ. *)
Definition fresh_messages (fresh : Fresh) (rows : list Message.t) : Prop :=
  user_message_uuid fresh <> assistant_message_uuid fresh
  /\ forall m, In m rows ->
               Message.id m <> user_message_uuid fresh
               /\ Message.id m <> assistant_message_uuid fresh.

(** The tool calls of a response against the records
    [process_message] returns: none for none, and for one record its
    tool and its parameters, without the result. *)
Definition shown_as (records : list dict) (calls : list ToolCall.t) : Prop :=
  (records = [] /\ calls = [])
  \/ exists tool_name params tool_result,
       records
       = [AgentService.invocation_record tool_name params tool_result]
       /\ calls = [ToolCall.mk tool_name params].

End ChatSpec.


Module OutcomeSpec.
Import ConversationService ChatRoute.

(** What a chat request leaves in the database: nothing new when it
    raises, and then the status is 404 or 500; otherwise the two rows of
    the turn after the messages the session saw, the answer being the
    content of the second. *)
Definition all_or_nothing (before : Tables) (seen : Tables)
           (outcome : HTTPException.t + ChatResponse.t) (after : Tables)
  : Prop :=
  match outcome with
  | inl e =>
      after = before
      /\ (HTTPException.status_code e = 404%Z
          \/ HTTPException.status_code e = 500%Z)
  | inr response =>
      exists m1 m2,
        after = mkTables (conversations seen) (messages seen ++ [m1; m2])
        /\ Message.conversation_id m1 = ChatResponse.conversation_id response
        /\ Message.conversation_id m2 = ChatResponse.conversation_id response
        /\ Message.sender m1 = "user"
        /\ Message.sender m2 = "assistant"
        /\ Message.content m2 = ChatResponse.assistant_message response
  end.

End OutcomeSpec.


Module CommandSpec.
Import PyStr TextSpec.

(** White space, at least one character of it. *)
Definition blank (s : string) : Prop :=
  s <> EmptyString /\ all_chars is_space s = true.

(** A text that stands as a title after a command: not empty, with no
    white space at either end and no line feed. *)
Definition title_text (t : string) : Prop :=
  t <> EmptyString /\ strip t = t
  /\ all_chars (fun c => negb (Ascii.eqb c "010"%char)) t = true.

End CommandSpec.


(* ===================================================================== *)
(** * Properties                                                          *)
(* ===================================================================== *)

(** ** Strings *)

Module PyStrFacts.
Import PyStr Spec.

Lemma startswith_spec (p s : string) :
  startswith p s = true <-> exists post, s = (p ++ post)%string.
Proof.
  revert s; induction p as [|a p IH]; intros s; simpl.
  - split; [intros _; exists s; reflexivity | reflexivity].
  - destruct s as [|b s].
    + split; [discriminate | intros [post H]; discriminate].
    + rewrite andb_true_iff, IH, Ascii.eqb_eq. split.
      * intros [-> [post ->]]. exists post. reflexivity.
      * intros [post H]. injection H as -> ->. split; [reflexivity | eauto].
  Qed.

Lemma find_from_spec (sub s : string) (i : Z) :
  (0 <= i)%Z ->
  (find_from sub s i = (-1)%Z /\ ~ is_substring sub s)
  \/ ((i <= find_from sub s i)%Z /\ is_substring sub s).
Proof.
  revert i; induction s as [|c s IH]; intros i Hi; simpl.
  - destruct (startswith sub "") eqn:E.
    + right. split; [lia |]. apply startswith_spec in E as [post E].
      exists "", post. exact E.
    + left. split; [reflexivity |]. intros [pre [post H]].
      destruct pre; [| discriminate]. simpl in H.
      assert (startswith sub "" = true) by (apply startswith_spec; eauto).
      congruence.
  - destruct (startswith sub (String c s)) eqn:E.
    + right. split; [lia |]. apply startswith_spec in E as [post E].
      exists "", post. exact E.
    + destruct (IH (i + 1)%Z ltac:(lia)) as [[H1 H2] | [H1 H2]].
      * left. split; [exact H1 |]. intros [pre [post H]].
        destruct pre as [|c' pre]; simpl in H.
        -- assert (startswith sub (String c s) = true)
             by (apply startswith_spec; eauto).
           congruence.
        -- injection H as _ H. apply H2. exists pre, post. exact H.
      * right. split; [lia |]. destruct H2 as [pre [post H]].
        exists (String c pre), post. simpl. rewrite H. reflexivity.
Qed.

Lemma contains_spec (sub s : string) :
  contains sub s = true <-> is_substring sub s.
Proof.
  unfold contains, find.
  destruct (find_from_spec sub s 0 ltac:(lia)) as [[H1 H2] | [H1 H2]].
  - rewrite H1. simpl. split; [discriminate | contradiction].
  - split; [intros _; exact H2 | intros _].
    apply negb_true_iff, Z.eqb_neq. lia.
Qed.

Lemma lower_char_idem (c : ascii) : lower_char (lower_char c) = lower_char c.
Proof. destruct c as [[] [] [] [] [] [] [] []]; reflexivity. Qed.

Lemma lower_idem (s : string) : lower (lower s) = lower s.
Proof.
  induction s as [|c s IH]; simpl; [reflexivity |].
  rewrite lower_char_idem, IH. reflexivity.
Qed.

Lemma length_lower (s : string) : String.length (lower s) = String.length s.
Proof. induction s as [|c s IH]; simpl; congruence. Qed.

End PyStrFacts.

(** ** The intent matcher *)

Module IntentFacts.
Import PyStr PyStrFacts IntentMapper Spec.

Lemma pattern_hit_spec (config : Config) (message : string) :
  pattern_hit config message = true
  <-> exists pattern, In pattern (patterns config)
                      /\ Re.search pattern message true <> None.
Proof.
  unfold pattern_hit. rewrite existsb_exists.
  split; intros [p [Hin H]]; exists p; split; try exact Hin.
  - destruct (Re.search p message true); [discriminate | discriminate H].
  - destruct (Re.search p message true); [reflexivity | contradiction].
Qed.

Lemma keywords_lower :
  Forall (fun entry : Intent * Config =>
            Forall (fun keyword => lower keyword = keyword)
                   (keywords (snd entry)))
         INTENT_PATTERNS.
Proof. repeat constructor. Qed.

Lemma keyword_hit_spec (intent : Intent) (config : Config)
      (user_message : string) :
  In (intent, config) INTENT_PATTERNS ->
  keyword_hit config (normalize user_message) = true
  <-> exists keyword, In keyword (keywords config)
                      /\ is_substring keyword (normalize user_message).
Proof.
  intros Hin. unfold keyword_hit, normalize. rewrite existsb_exists.
  pose proof keywords_lower as Hlow.
  rewrite List.Forall_forall in Hlow. specialize (Hlow _ Hin). simpl in Hlow.
  rewrite List.Forall_forall in Hlow.
  split; intros [k [Hk H]]; exists k; split; try exact Hk.
  - rewrite lower_idem, (Hlow _ Hk) in H. apply contains_spec. exact H.
  - rewrite lower_idem, (Hlow _ Hk). apply contains_spec. exact H.
Qed.

Section FirstHit.
Variable hit : Config -> string -> bool.
Variable message : string.

Lemma first_hit_none (table : list (Intent * Config)) :
  first_hit hit table message = None
  <-> forall intent config,
        In (intent, config) table -> hit config message = false.
Proof.
  induction table as [|[j c] table IH]; simpl.
  - split; [intros _ ? ? [] | reflexivity].
  - destruct (hit c message) eqn:E.
    + split; [discriminate |]. intros H.
      specialize (H j c (or_introl eq_refl)). congruence.
    + rewrite IH. split.
      * intros H i cfg [Heq | Hin]; [congruence | eauto].
      * intros H i cfg Hin. eauto.
Qed.

Lemma first_hit_some (table : list (Intent * Config)) (intent : Intent) :
  first_hit hit table message = Some intent ->
  exists pre config post,
    table = pre ++ (intent, config) :: post
    /\ hit config message = true
    /\ forall j c, In (j, c) pre -> hit c message = false.
Proof.
  induction table as [|[j c] table IH]; simpl; [discriminate |].
  destruct (hit c message) eqn:E.
  - intros [= ->]. exists [], c, table. repeat split; [exact E |].
    intros ? ? [].
  - intros H. destruct (IH H) as (pre & cfg & post & -> & Hc & Hpre).
    exists ((j, c) :: pre), cfg, post. repeat split; [exact Hc |].
    intros j' c' [[= -> ->] | Hin]; [exact E | eauto].
Qed.


Lemma first_hit_in (table : list (Intent * Config)) (intent : Intent) :
  first_hit hit table message = Some intent ->
  exists config, In (intent, config) table /\ hit config message = true.
Proof.
  intros H. destruct (first_hit_some _ _ H) as (pre & c & post & -> & Hc & _).
  exists c. split; [| exact Hc]. apply in_elt.
Qed.
End FirstHit.

Lemma no_pattern_spec (message : string) :
  first_hit pattern_hit INTENT_PATTERNS message = None
  <-> ~ exists intent, matches_pattern intent message.
Proof.
  rewrite first_hit_none. split.
  - intros H [i (c & p & Hin & Hp & Hm)].
    specialize (H i c Hin).
    assert (pattern_hit c message = true) by (apply pattern_hit_spec; eauto).
    congruence.
  - intros H i c Hin. destruct (pattern_hit c message) eqn:E; [| reflexivity].
    exfalso. apply H. exists i. apply pattern_hit_spec in E as (p & Hp & Hm).
    exists c, p. auto.
Qed.

Lemma no_keyword_spec (user_message : string) :
  first_hit keyword_hit INTENT_PATTERNS (normalize user_message) = None
  <-> ~ exists intent, has_keyword intent (normalize user_message).
Proof.
  rewrite first_hit_none. split.
  - intros H [i (c & k & Hin & Hk & Hs)].
    specialize (H i c Hin).
    assert (keyword_hit c (normalize user_message) = true)
      by (apply (keyword_hit_spec i); eauto).
    congruence.
  - intros H i c Hin.
    destruct (keyword_hit c (normalize user_message)) eqn:E; [| reflexivity].
    exfalso. apply H. exists i.
    apply (keyword_hit_spec i c _ Hin) in E as (k & Hk & Hs).
    exists c, k. auto.
Qed.

Lemma extract_intent_cases (user_message : string) :
  let message := normalize user_message in
  (exists intent,
      first_hit pattern_hit INTENT_PATTERNS message = Some intent
      /\ extract_intent user_message = (intent, 1%Q))
  \/ (exists intent,
         first_hit pattern_hit INTENT_PATTERNS message = None
         /\ first_hit keyword_hit INTENT_PATTERNS message = Some intent
         /\ extract_intent user_message = (intent, (7 # 10)%Q))
  \/ (first_hit pattern_hit INTENT_PATTERNS message = None
      /\ first_hit keyword_hit INTENT_PATTERNS message = None
      /\ extract_intent user_message = (UNKNOWN, 0%Q)).
Proof.
  unfold extract_intent, normalize; cbv zeta.
  destruct (first_hit pattern_hit INTENT_PATTERNS _) as [i|]; [left; eauto |].
  destruct (first_hit keyword_hit INTENT_PATTERNS _) as [i|];
    [right; left; eauto |].
  right; right; auto.
Qed.

Lemma table_has_no_unknown (config : Config) :
  ~ In (UNKNOWN, config) INTENT_PATTERNS.
Proof.
  intros H. apply (in_map fst) in H. simpl in H.
  repeat (destruct H as [H | H]; [discriminate |]). exact H.
Qed.

End IntentFacts.

Import PyStr PyStrFacts IntentMapper IntentFacts Spec.

(** C1.  [extract_intent] works on the stripped, lower-cased message.  If
    a pattern of some intent matches it, the result is an intent with a
    matching pattern, at confidence 1.0; otherwise, if a keyword of some
    intent occurs in it, the result is an intent with such a keyword, at
    confidence 0.7; otherwise the result is (UNKNOWN, 0.0).  The
    confidence is one of 1.0, 0.7 and 0.0, and 0.7 is returned only when
    no pattern of any intent matched. *)
Theorem extract_intent_tiers (user_message : string) :
  let message := lower (strip user_message) in
  let result := extract_intent user_message in
  ((exists intent, matches_pattern intent message) ->
     snd result = 1%Q /\ matches_pattern (fst result) message)
  /\ (~ (exists intent, matches_pattern intent message) ->
      (exists intent, has_keyword intent message) ->
      snd result = (7 # 10)%Q /\ has_keyword (fst result) message)
  /\ (~ (exists intent, matches_pattern intent message) ->
      ~ (exists intent, has_keyword intent message) ->
      result = (UNKNOWN, 0%Q))
  /\ (snd result = 1%Q \/ snd result = (7 # 10)%Q \/ snd result = 0%Q)
  /\ (snd result = (7 # 10)%Q ->
      ~ exists intent, matches_pattern intent message).
Proof.
  intros message result. subst message result.
  fold (normalize user_message).
  pose proof (no_pattern_spec (normalize user_message)) as Hnp.
  pose proof (no_keyword_spec user_message) as Hnk.
  destruct (extract_intent_cases user_message)
    as [(i & Hp & ->) | [(i & Hp & Hk & ->) | (Hp & Hk & ->)]]; simpl.
  - assert (Hm : matches_pattern i (normalize user_message)).
    { apply first_hit_in in Hp as (c & Hin & Hc).
      apply pattern_hit_spec in Hc as (p & Hpin & Hs). exists c, p. auto. }
    split; [auto | split; [| split; [| split; [auto | discriminate]]]].
    + intros Hno. exfalso. apply Hno. eauto.
    + intros Hno. exfalso. apply Hno. eauto.
  - apply Hnp in Hp.
    assert (Hm : has_keyword i (normalize user_message)).
    { apply first_hit_in in Hk as (c & Hin & Hc).
      apply (keyword_hit_spec i c _ Hin) in Hc as (k & Hkin & Hs).
      exists c, k. auto. }
    split; [contradiction | split; [auto | split; [| split; [auto | auto]]]].
    intros _ Hno. exfalso. apply Hno. eauto.
  - apply Hnp in Hp. apply Hnk in Hk.
    split; [contradiction | split; [contradiction |]].
    split; [auto | split; [auto | discriminate]].
Qed.

Lemma extract_intent_tiers_witness :
  snd (extract_intent "  Add buy milk ") = 1%Q
  /\ matches_pattern (fst (extract_intent "  Add buy milk ")) "add buy milk".
Proof.
  apply (proj1 (extract_intent_tiers "  Add buy milk ")).
  exists ADD. eexists. eexists. split; [left; reflexivity |].
  split; [left; reflexivity | vm_compute; discriminate].
Defined.



Import AgentService.

(** C9.  A known intent comes with confidence 0.7 or 1.0, hence at least
    0.5; UNKNOWN comes with 0.0 only; so the guard of the rejection
    branch, [intent == UNKNOWN or confidence < 0.5], holds exactly when
    the intent is UNKNOWN. *)
Theorem rejection_iff_unknown (user_message : string) :
  let intent := fst (extract_intent user_message) in
  let confidence := snd (extract_intent user_message) in
  (intent <> UNKNOWN ->
     (confidence = (7 # 10)%Q \/ confidence = 1%Q)
     /\ (1 # 2 <= confidence)%Q)
  /\ (intent = UNKNOWN -> confidence = 0%Q)
  /\ (low_confidence intent confidence = true <-> intent = UNKNOWN).
Proof.
  intros intent confidence. subst intent confidence.
  assert (Hknown : forall hit i,
             first_hit hit INTENT_PATTERNS (normalize user_message) = Some i ->
             i <> UNKNOWN).
  { intros hit i H ->. apply first_hit_in in H as (c & Hin & _).
    exact (table_has_no_unknown c Hin). }
  destruct (extract_intent_cases user_message)
    as [(i & Hp & ->) | [(i & _ & Hk & ->) | (_ & _ & ->)]]; simpl.
  - apply Hknown in Hp. split; [| split; [contradiction |]].
    + intros _. split; [auto | unfold Qle; simpl; lia].
    + unfold low_confidence. simpl. rewrite orb_false_r.
      destruct i; simpl; split; congruence.
  - apply Hknown in Hk. split; [| split; [contradiction |]].
    + intros _. split; [auto | unfold Qle; simpl; lia].
    + unfold low_confidence. simpl. rewrite orb_false_r.
      destruct i; simpl; split; congruence.
  - split; [contradiction | split; [reflexivity |]].
    split; reflexivity.
Qed.

Lemma rejection_iff_unknown_witness :
  snd (extract_intent "what's the weather") = 0%Q.
Proof.
  apply (proj1 (proj2 (rejection_iff_unknown "what's the weather"))).
  vm_compute. reflexivity.
Defined.

(** ** Parameter extraction for ADD *)

Module AddFacts.
Import Spec.

Lemma add_fallback_title (kws : list string) (user_input : string)
      (params : dict) :
  add_fallback kws user_input params
  = <["title" := VStr (fallback_title kws user_input)]> params.
Proof.
  revert params; induction kws as [|k kws IH]; intros params; simpl.
  - reflexivity.
  - unfold suffix_after.
    destruct (find (lower user_input) k =? -1)%Z; simpl; [apply IH |].
    destruct (nonempty _); [reflexivity |].
    rewrite IH. apply insert_insert_eq.
Qed.

Lemma fallback_title_first (pre post : list string) (keyword t : string)
      (user_input : string) :
  (forall k, In k pre -> barren k user_input) ->
  suffix_after keyword user_input = Some t -> t <> "" ->
  fallback_title (pre ++ keyword :: post) user_input = t.
Proof.
  intros Hpre Hk Ht. induction pre as [|k pre IH]; simpl.
  - rewrite Hk. destruct t; [contradiction | reflexivity].
  - destruct (Hpre k (or_introl eq_refl)) as [-> | ->]; simpl;
      apply IH; intros k' Hin; apply Hpre; right; exact Hin.
Qed.

Lemma fallback_title_default (kws : list string) (user_input : string) :
  (forall k, In k kws -> barren k user_input) ->
  fallback_title kws user_input = "Untitled task".
Proof.
  induction kws as [|k kws IH]; simpl; intros H; [reflexivity |].
  destruct (H k (or_introl eq_refl)) as [-> | ->]; simpl;
    apply IH; intros k' Hin; apply H; right; exact Hin.
Qed.

Lemma first_match_none (patterns : list Re.regex) (subject : string) :
  (forall p, In p patterns -> Re.search p subject false = None) ->
  first_match patterns subject = None.
Proof.
  induction patterns as [|p ps IH]; simpl; intros H; [reflexivity |].
  rewrite (H p (or_introl eq_refl)). apply IH.
  intros q Hq. apply H. right. exact Hq.
Qed.

Lemma first_match_first (pre post : list Re.regex) (pattern : Re.regex)
      (subject : string) (m : Re.Match) :
  (forall p, In p pre -> Re.search p subject false = None) ->
  Re.search pattern subject false = Some m ->
  first_match (pre ++ pattern :: post) subject = Some m.
Proof.
  intros Hpre Hm. induction pre as [|p pre IH]; simpl.
  - rewrite Hm. reflexivity.
  - rewrite (Hpre p (or_introl eq_refl)). apply IH.
    intros q Hq. apply Hpre. right. exact Hq.
Qed.

End AddFacts.

Import AddFacts.

(** ** The orchestrator *)

Module AgentFacts.
Import TaskMCPServer Spec.

(** The rendering of a reply of [list_tasks] never raises. *)
Lemma task_lines_rows (container_str : pyval -> string)
      (rows : list (Z * Task.t)) :
  exists lines,
    task_lines container_str
      (List.map (fun r : Z * Task.t => VDict (task_reply (fst r) (snd r)))
                rows)
    = inr lines.
Proof.
  induction rows as [|r rows [lines IH]]; simpl.
  - eexists; reflexivity.
  - rewrite IH. eexists; reflexivity.
Qed.

Lemma generate_after_invoke (container_str : pyval -> string)
      (intent : Intent) (params : dict) (user_id : string)
      (conversation_id : UUID) (user_input : string) (user_context : dict)
      (w : World) :
  exists response,
    _generate_response container_str intent
      (fst (fst (_invoke_tool (get_tool_name intent) params user_id
                              conversation_id w)))
      user_input user_context
    = inr response.
Proof.
  destruct intent; try (eexists; reflexivity).
  unfold _invoke_tool, get_tool_name, list_tasks; simpl.
  unfold mbind, M_bind, mret, M_ret, entered, read_tasks; simpl.
  match goal with
  | |- context [order_desc ?l] => generalize (order_desc l)
  end.
  intros rows. unfold _generate_response, get_default.
  rewrite lookup_singleton_eq.
  destruct rows as [|r rows]; [eexists; reflexivity |].
  cbn [truthy negb List.map iterate].
  destruct (task_lines_rows container_str (r :: rows)) as [lines Hl].
  cbn [List.map] in Hl. rewrite Hl. eexists; reflexivity.
Qed.

(** The two ways through [process_message]. *)
Lemma process_message_rejected (container_str : pyval -> string)
      (user_id : string) (conversation_id : UUID)
      (messages : list Message.t) (user_input : string)
      (include_context : bool) (w : World) (intent : Intent)
      (confidence : Q) :
  extract_intent user_input = (intent, confidence) ->
  low_confidence intent confidence = true ->
  process_message container_str user_id conversation_id messages user_input
                  include_context w
  = (inr (clarification, []),
     logged (AgentDecision user_id conversation_id (value intent) confidence
                           user_input) w).
Proof.
  intros He Hlow. unfold process_message. rewrite He.
  unfold mbind, M_bind. simpl. rewrite Hlow. reflexivity.
Qed.

Lemma process_message_invoked (container_str : pyval -> string)
      (user_id : string) (conversation_id : UUID)
      (messages : list Message.t) (user_input : string)
      (include_context : bool) (w : World) (intent : Intent)
      (confidence : Q) (tool_result params : dict) (w1 : World) :
  extract_intent user_input = (intent, confidence) ->
  low_confidence intent confidence = false ->
  _invoke_tool (get_tool_name intent)
               (_extract_parameters intent user_input user_id)
               user_id conversation_id
               (logged (AgentDecision user_id conversation_id (value intent)
                                      confidence user_input) w)
  = ((tool_result, params), w1) ->
  (truthy (get tool_result "error") = true ->
   process_message container_str user_id conversation_id messages user_input
                   include_context w
   = (inr (get_fallback_response intent, []),
      logged (ToolExecutionFailed user_id conversation_id
                (get tool_result "error") (get_tool_name intent)
                (get_default tool_result "code" (VInt 500))) w1))
  /\ (truthy (get tool_result "error") = false ->
      exists response,
        process_message container_str user_id conversation_id messages
                        user_input include_context w
        = (inr (response,
                [invocation_record (get_tool_name intent) params tool_result]),
           logged (ToolCallLogged user_id conversation_id
                     (get_tool_name intent) params tool_result) w1)).
Proof.
  intros He Hlow Hinv.
  pose proof (generate_after_invoke container_str intent
                (_extract_parameters intent user_input user_id) user_id
                conversation_id user_input) as Hgen.
  unfold process_message. rewrite He.
  unfold mbind, M_bind. simpl. rewrite Hlow.
  unfold logged in Hinv. simpl in Hinv. rewrite Hinv.
  split; intros Herr; rewrite Herr.
  - reflexivity.
  - match goal with
    | |- context [_generate_response _ _ _ _ ?ctx] =>
        destruct (Hgen ctx
                    (logged (AgentDecision user_id conversation_id
                               (value intent) confidence user_input) w))
          as [response Hr]
    end.
    unfold logged in Hr. simpl in Hr. rewrite Hinv in Hr. simpl in Hr.
    rewrite Hr. exists response. reflexivity.
Qed.

End AgentFacts.

(** ** What the Task MCP tools leave alone *)

Module Frame.
Import TaskMCPServer Spec.

Lemma keeps_log_ret {A : Type} (a : A) : keeps_log (mret a).
Proof. intros w. reflexivity. Qed.

Lemma keeps_log_bind {A B : Type} (m : M A) (f : A -> M B) :
  keeps_log m -> (forall a, keeps_log (f a)) -> keeps_log (mbind f m).
Proof.
  intros Hm Hf w. unfold mbind, M_bind.
  specialize (Hm w). destruct (m w) as [a w']. simpl in Hm.
  rewrite Hf. exact Hm.
Qed.

Lemma keeps_log_utcnow : keeps_log utcnow.
Proof. intros w. reflexivity. Qed.

Lemma keeps_log_entered (tool : string) (args : dict) :
  keeps_log (entered tool args).
Proof. intros w. reflexivity. Qed.

Lemma keeps_log_read_tasks : keeps_log read_tasks.
Proof. intros w. reflexivity. Qed.

Lemma keeps_log_write_task (id : Z) (task : Task.t) :
  keeps_log (write_task id task).
Proof. intros w. reflexivity. Qed.

Lemma keeps_log_remove_task (id : Z) : keeps_log (remove_task id).
Proof. intros w. reflexivity. Qed.

Lemma keeps_log_next_task_id : keeps_log next_task_id.
Proof. intros w. reflexivity. Qed.

Create HintDb frame.
#[export] Hint Resolve keeps_log_ret keeps_log_utcnow keeps_log_entered
  keeps_log_read_tasks keeps_log_write_task keeps_log_remove_task
  keeps_log_next_task_id : frame.

Lemma keeps_log_with_task (what : string) (args : dict)
      (k : Z -> Task.t -> M dict) :
  (forall id task, keeps_log (k id task)) ->
  keeps_log (with_task what args k).
Proof.
  intros Hk. unfold with_task.
  destruct (py_int _) as [[]|id]; try apply keeps_log_ret.
  apply keeps_log_bind; [apply keeps_log_read_tasks | intros table].
  destruct (select_task _ _ _); [apply Hk | apply keeps_log_ret].
Qed.

Ltac frame :=
  repeat first
    [ progress auto with frame
    | progress cbv beta zeta
    | apply keeps_log_bind; [| intros ?]
    | apply keeps_log_with_task; intros ? ?
    | match goal with
      | |- keeps_log (match ?x with _ => _ end) => destruct x
      | |- keeps_log (if ?b then _ else _) => destruct b
      | |- keeps_log (let '(_, _) := ?p in _) => destruct p
      end ].

Lemma keeps_log_add_task (args : dict) : keeps_log (add_task args).
Proof. unfold add_task. frame. Qed.

Lemma keeps_log_list_tasks (args : dict) : keeps_log (list_tasks args).
Proof. unfold list_tasks. frame. Qed.

Lemma keeps_log_get_task (args : dict) : keeps_log (get_task args).
Proof. unfold get_task. frame. Qed.

Lemma keeps_log_update_task (args : dict) : keeps_log (update_task args).
Proof. unfold update_task. frame. Qed.

Lemma keeps_log_delete_task (args : dict) : keeps_log (delete_task args).
Proof. unfold delete_task. frame. Qed.

Lemma keeps_log_complete_task (args : dict) : keeps_log (complete_task args).
Proof. unfold complete_task. frame. Qed.

#[export] Hint Resolve keeps_log_add_task keeps_log_list_tasks
  keeps_log_get_task keeps_log_update_task keeps_log_delete_task
  keeps_log_complete_task : frame.

Lemma keeps_log_invoke_tool (tool_name : string) (params : dict)
      (user_id : string) (conversation_id : UUID) :
  keeps_log (_invoke_tool tool_name params user_id conversation_id).
Proof. unfold _invoke_tool. frame. Qed.

End Frame.

Import TaskMCPServer.

Lemma error_reply_error (message : string) (code : Z) :
  error_reply message code !! "error" = Some (VStr message).
Proof. unfold error_reply. apply lookup_insert_eq. Qed.

Ltac no_error H :=
  cbn [fst] in H;
  match type of H with
  | error_reply ?m ?c !! "error" = None =>
      rewrite (error_reply_error m c) in H; discriminate H
  end.

(** C10.  A [complete_task] that succeeds was given the id of a task of
    the given user; it stores that row again with [is_completed] set to
    the given value and [updated_at] to the current time, the other
    columns as they were, and replies with that row.  Whatever the
    outcome, a row with another id or of another user stays as it is, and
    the reply depends on the table through the row of the given id alone. *)
Theorem complete_task_frame (args : dict) (w : World) :
  let reply := fst (complete_task args w) in
  let w' := snd (complete_task args w) in
  (reply !! "error" = None ->
   exists id task flag task',
     py_int (get args "task_id") = inr id
     /\ tasks w !! id = Some task
     /\ get args "user_id" = VStr (Task.user_id task)
     /\ as_boolean (get_default args "completed" (VBool true)) = Some flag
     /\ tasks w' = <[id := task']> (tasks w)
     /\ reply = task_reply id task'
     /\ Task.is_completed task' = flag
     /\ Task.updated_at task' = clock w (ticks w)
     /\ Task.user_id task' = Task.user_id task
     /\ Task.title task' = Task.title task
     /\ Task.description task' = Task.description task
     /\ Task.created_at task' = Task.created_at task
     /\ Task.priority task' = Task.priority task
     /\ Task.due_date task' = Task.due_date task)
  /\ (forall id' other,
         tasks w !! id' = Some other ->
         py_int (get args "task_id") <> inr id'
         \/ get args "user_id" <> VStr (Task.user_id other) ->
         tasks w' !! id' = Some other)
  /\ (forall w2,
         (forall id, py_int (get args "task_id") = inr id ->
                     tasks w2 !! id = tasks w !! id) ->
         clock w2 (ticks w2) = clock w (ticks w) ->
         fst (complete_task args w2) = reply).
Proof.
  unfold complete_task, with_task.
  unfold mbind, M_bind, mret, M_ret, entered, read_tasks, utcnow, write_task.
  cbn [fst snd tasks clock ticks].
  destruct (py_int (get args "task_id")) as [e | id] eqn:Hid.
  - (* int(task_id) raised *)
    split; [| split].
    + destruct e; intros H; no_error H.
    + destruct e; intros; assumption.
    + destruct e; intros; reflexivity.
  - unfold select_task. cbn [fst snd tasks clock ticks].
    destruct (tasks w !! id) as [task |] eqn:Hrow.
    2:{ split; [intros H; no_error H | split; [intros; assumption |]].
        intros w2 Hsame _. cbn [fst snd tasks clock ticks]. rewrite (Hsame id eq_refl), Hrow. reflexivity. }
    unfold owned_by.
    destruct (get args "user_id") as [| | | u | |] eqn:Huser;
      try (split; [intros H; no_error H | split; [intros; assumption |]];
           intros w2 Hsame _; cbn [fst snd tasks clock ticks]; rewrite (Hsame id eq_refl), Hrow; reflexivity).
    destruct (String.eqb (Task.user_id task) u) eqn:Hown.
    2:{ split; [intros H; no_error H | split; [intros; assumption |]].
        intros w2 Hsame _. cbn [fst snd tasks clock ticks]. rewrite (Hsame id eq_refl), Hrow, Hown.
        reflexivity. }
    apply String.eqb_eq in Hown. subst u.
    destruct (as_boolean (get_default args "completed" (VBool true)))
      as [flag |] eqn:Hflag; cbn [fst snd tasks].
    + split; [| split].
      * intros _. do 4 eexists.
        repeat (split; [reflexivity || eassumption |]); reflexivity.
      * intros id' other Hother [Hne | Hne].
        -- rewrite lookup_insert_ne; [exact Hother | congruence].
        -- destruct (decide (id = id')) as [<- | Hd].
           ++ rewrite Hrow in Hother. congruence.
           ++ rewrite lookup_insert_ne; [exact Hother | exact Hd].
      * intros w2 Hsame Hclock. cbn [fst snd tasks clock ticks].
        rewrite (Hsame id eq_refl), Hrow, String.eqb_refl.
        cbn [fst snd tasks clock ticks]. rewrite Hclock. reflexivity.
    + split; [intros H; no_error H | split; [intros; assumption |]].
      intros w2 Hsame _. cbn [fst snd tasks clock ticks].
      rewrite (Hsame id eq_refl), Hrow, String.eqb_refl. reflexivity.
Qed.

Lemma complete_task_frame_witness :
  let args : dict :=
    {[ "user_id" := VStr "alice"; "task_id" := VStr "1";
       "completed" := VBool true ]} in
  tasks (snd (complete_task args Samples.world)) !! 2%Z
  = Some Samples.report.
Proof.
  intros args.
  apply (proj1 (proj2 (complete_task_frame args Samples.world)) 2%Z).
  - vm_compute. reflexivity.
  - left. vm_compute. discriminate.
Defined.

Import AgentFacts Frame.

(** C5.  When the extracted intent is UNKNOWN or the confidence is below
    0.5, [process_message] returns the clarification text with an empty
    tool-call list; no Task MCP tool is entered and the tasks table is
    as it was. *)
Theorem low_confidence_rejected (container_str : pyval -> string)
        (user_id : string) (conversation_id : UUID)
        (messages : list Message.t) (user_input : string)
        (include_context : bool) (w : World) :
  let intent := fst (extract_intent user_input) in
  let confidence := snd (extract_intent user_input) in
  let outcome :=
    process_message container_str user_id conversation_id messages
                    user_input include_context w in
  intent = UNKNOWN \/ (confidence < 1 # 2)%Q ->
  fst outcome = inr (clarification, [])
  /\ served (snd outcome) = served w
  /\ tasks (snd outcome) = tasks w
  /\ task_seq (snd outcome) = task_seq w.
Proof.
  intros intent confidence outcome Hlow. subst outcome.
  assert (Hguard : low_confidence intent confidence = true).
  { unfold low_confidence. destruct Hlow as [-> | Hlt]; [reflexivity |].
    apply orb_true_iff. right. apply negb_true_iff.
    destruct (Qle_bool (1 # 2) confidence) eqn:E; [| reflexivity].
    apply Qle_bool_iff in E. exfalso. exact (Qlt_not_le _ _ Hlt E). }
  rewrite (process_message_rejected container_str user_id conversation_id
             messages user_input include_context w intent confidence);
    [| apply surjective_pairing | exact Hguard].
  repeat split.
Qed.

Lemma low_confidence_rejected_witness :
  fst (process_message Samples.plain "alice" "c-1" [] "tell me a joke" true
                       Samples.world)
  = inr (clarification, []).
Proof.
  apply (low_confidence_rejected Samples.plain "alice" "c-1" []
                                 "tell me a joke" true Samples.world).
  left. vm_compute. reflexivity.
Defined.

(** C6.  For a message that is not rejected, let [tool_result] be what
    the tool invocation returns.  If its "error" entry is truthy,
    [process_message] returns the fallback text of the intent and an
    empty tool-call list; otherwise it returns a response and exactly one
    record, made of the tool name, the parameters and the result.  In
    every case [process_message] returns a response and at most one
    record. *)
Theorem tool_outcome_contract (container_str : pyval -> string)
        (user_id : string) (conversation_id : UUID)
        (messages : list Message.t) (user_input : string)
        (include_context : bool) (w : World) :
  let outcome :=
    fst (process_message container_str user_id conversation_id messages
                         user_input include_context w) in
  (forall intent confidence tool_result params w1,
      extract_intent user_input = (intent, confidence) ->
      low_confidence intent confidence = false ->
      _invoke_tool (get_tool_name intent)
                   (_extract_parameters intent user_input user_id)
                   user_id conversation_id
                   (logged (AgentDecision user_id conversation_id
                                          (value intent) confidence
                                          user_input) w)
      = ((tool_result, params), w1) ->
      (truthy (get tool_result "error") = true ->
       outcome = inr (get_fallback_response intent, []))
      /\ (truthy (get tool_result "error") = false ->
          exists response,
            outcome
            = inr (response,
                   [invocation_record (get_tool_name intent) params
                                      tool_result])))
  /\ (exists response tool_calls,
         outcome = inr (response, tool_calls) /\ length tool_calls <= 1).
Proof.
  intros outcome. subst outcome. split.
  - intros intent confidence tool_result params w1 He Hlow Hinv.
    destruct (process_message_invoked container_str user_id conversation_id
                messages user_input include_context w intent confidence
                tool_result params w1 He Hlow Hinv) as [Herr Hok].
    split; intros H.
    + rewrite (Herr H). reflexivity.
    + destruct (Hok H) as [response ->]. exists response. reflexivity.
  - destruct (extract_intent user_input) as [intent confidence] eqn:He.
    destruct (low_confidence intent confidence) eqn:Hlow.
    + rewrite (process_message_rejected container_str user_id conversation_id
                 messages user_input include_context w intent confidence
                 He Hlow).
      exists clarification, []. split; [reflexivity | simpl; lia].
    + destruct (_invoke_tool (get_tool_name intent)
                  (_extract_parameters intent user_input user_id)
                  user_id conversation_id
                  (logged (AgentDecision user_id conversation_id
                             (value intent) confidence user_input) w))
        as [[tool_result params] w1] eqn:Hinv.
      destruct (process_message_invoked container_str user_id conversation_id
                  messages user_input include_context w intent confidence
                  tool_result params w1 He Hlow Hinv) as [Herr Hok].
      destruct (truthy (get tool_result "error")) eqn:Ht.
      * rewrite (Herr eq_refl). eexists _, []. split; [reflexivity | simpl; lia].
      * destruct (Hok eq_refl) as [response ->].
        eexists response, [_]. split; [reflexivity | simpl; lia].
Qed.

(** A task of somebody else cannot be completed: the store answers with
    an error and the turn ends with the fallback text. *)
Lemma tool_outcome_contract_witness :
  fst (process_message Samples.plain "alice" "c-1" [] "complete task 2" false
                       Samples.world)
  = inr (get_fallback_response COMPLETE, []).
Proof.
  refine (proj1 (proj1 (tool_outcome_contract Samples.plain "alice" "c-1" []
                          "complete task 2" false Samples.world)
                       COMPLETE 1%Q
                       (error_reply "Task not found" 404) _ _ _ _ _) _).
  - vm_compute. reflexivity.
  - vm_compute. reflexivity.
  - vm_compute. reflexivity.
  - vm_compute. reflexivity.
Defined.

(** ** Conversations *)

Module ConversationFacts.
Import ConversationService Spec.

Lemma insert_by_created_at_perm (m : Message.t) (l : list Message.t) :
  Permutation (insert_by_created_at m l) (m :: l).
Proof.
  induction l as [|y l IH]; simpl; [reflexivity |].
  destruct (Message.created_at m <=? Message.created_at y)%Z.
  - reflexivity.
  - rewrite IH. apply perm_swap.
Qed.

Lemma order_by_created_at_perm (l : list Message.t) :
  Permutation (order_by_created_at l) l.
Proof.
  induction l as [|m l IH]; simpl; [reflexivity |].
  rewrite insert_by_created_at_perm, IH. reflexivity.
Qed.

Lemma insert_by_created_at_sorted (m : Message.t) (l : list Message.t) :
  StronglySorted not_later l ->
  StronglySorted not_later (insert_by_created_at m l).
Proof.
  induction l as [|y l IH]; simpl; intros Hs.
  - repeat constructor.
  - inversion Hs as [|? ? Hl Hy]; subst.
    destruct (Message.created_at m <=? Message.created_at y)%Z eqn:E.
    + apply Z.leb_le in E. constructor; [exact Hs |].
      constructor; [exact E |].
      eapply List.Forall_impl; [| exact Hy].
      intros a Ha. unfold not_later in *. lia.
    + apply Z.leb_gt in E. constructor; [apply IH; exact Hl |].
      eapply Permutation_Forall;
        [symmetry; apply insert_by_created_at_perm |].
      constructor; [unfold not_later; lia | exact Hy].
Qed.

Lemma order_by_created_at_sorted (l : list Message.t) :
  StronglySorted not_later (order_by_created_at l).
Proof.
  induction l as [|m l IH]; simpl; [constructor |].
  apply insert_by_created_at_sorted. exact IH.
Qed.

(** A row that is not earlier than any other goes last. *)
Lemma insert_by_created_at_last (a x : Message.t) (l : list Message.t) :
  not_later a x ->
  insert_by_created_at a (l ++ [x]) = insert_by_created_at a l ++ [x].
Proof.
  intros Hax. induction l as [|y l IH]; simpl.
  - unfold not_later in Hax. apply Z.leb_le in Hax. rewrite Hax. reflexivity.
  - destruct (Message.created_at a <=? Message.created_at y)%Z;
      [reflexivity |].
    rewrite IH. reflexivity.
Qed.

Lemma order_by_created_at_last (l : list Message.t) (x : Message.t) :
  Forall (fun a => not_later a x) l ->
  order_by_created_at (l ++ [x]) = order_by_created_at l ++ [x].
Proof.
  induction l as [|a l IH]; simpl; intros H; [reflexivity |].
  inversion H; subst. rewrite IH by assumption.
  apply insert_by_created_at_last. assumption.
Qed.

Lemma messages_of_app (conversation_id : UUID) (l1 l2 : list Message.t) :
  messages_of conversation_id (l1 ++ l2)
  = messages_of conversation_id l1 ++ messages_of conversation_id l2.
Proof. apply List.filter_app. Qed.

Lemma filter_absent (rows : list Conversation.t) (conversation_id : UUID) :
  (forall r, In r rows -> Conversation.id r <> conversation_id) ->
  List.filter (fun r => String.eqb (Conversation.id r) conversation_id) rows
  = [].
Proof.
  induction rows as [|r rows IH]; simpl; intros H; [reflexivity |].
  destruct (String.eqb (Conversation.id r) conversation_id) eqn:E.
  - apply String.eqb_eq in E. exfalso. exact (H r (or_introl eq_refl) E).
  - apply IH. intros x Hx. apply H. right. exact Hx.
Qed.

(** Under the primary key the row with a given id is the only one the
    query finds. *)
Lemma filter_primary_key (rows : list Conversation.t) (c : Conversation.t) :
  List.NoDup (List.map Conversation.id rows) -> In c rows ->
  List.filter
    (fun r => String.eqb (Conversation.id r) (Conversation.id c)) rows
  = [c].
Proof.
  induction rows as [|r rows IH]; simpl; intros Hnd Hin; [contradiction |].
  apply List.NoDup_cons_iff in Hnd as [Hnot Hnd].
  destruct Hin as [-> | Hin].
  - rewrite String.eqb_refl. f_equal. apply filter_absent.
    intros x Hx Heq. apply Hnot. rewrite <- Heq.
    apply List.in_map. exact Hx.
  - destruct (String.eqb (Conversation.id r) (Conversation.id c)) eqn:E.
    + apply String.eqb_eq in E. exfalso. apply Hnot. rewrite E.
      apply List.in_map. exact Hin.
    + apply IH; assumption.
Qed.

End ConversationFacts.

Import ConversationService ConversationFacts.

(** C7.  In a table that respects the primary key, [load_conversation]
    raises "Conversation ... not found" when no row has the identifier,
    raises "Access denied" -- the same value whatever the conversation
    holds -- when the row belongs to another user, and otherwise returns
    the row with the messages of the conversation, earliest first: the
    rows of the messages table whose [conversation_id] is the given
    one, each as often as the table has it, and no other row. *)
Theorem load_conversation_guarded (session : AsyncSession)
        (conversation_id : UUID) (user_id : string) :
  List.NoDup (List.map Conversation.id (conversations (view session))) ->
  ((forall r, In r (conversations (view session)) ->
              Conversation.id r <> conversation_id) ->
   load_conversation session conversation_id user_id
   = inl (ValueError ("Conversation " ++ conversation_id ++ " not found")))
  /\ (forall conversation,
         In conversation (conversations (view session)) ->
         Conversation.id conversation = conversation_id ->
         (Conversation.user_id conversation <> user_id ->
          load_conversation session conversation_id user_id
          = inl (ValueError
                   "Access denied: conversation does not belong to user"))
         /\ (Conversation.user_id conversation = user_id ->
             exists history,
               load_conversation session conversation_id user_id
               = inr (conversation, history)
               /\ Permutation history
                    (List.filter
                       (fun m => String.eqb (Message.conversation_id m)
                                            conversation_id)
                       (messages (view session)))
               /\ (forall m,
                      In m history
                      <-> In m (messages (view session))
                          /\ Message.conversation_id m = conversation_id)
               /\ StronglySorted not_later history)).
Proof.
  intros Hkey. split.
  - intros Habsent. unfold load_conversation.
    rewrite filter_absent by exact Habsent. reflexivity.
  - intros conversation Hin <-. unfold load_conversation.
    rewrite (filter_primary_key _ _ Hkey Hin). split.
    + intros Hne. apply String.eqb_neq in Hne. rewrite Hne. reflexivity.
    + intros <-. rewrite String.eqb_refl. simpl.
      eexists. split; [reflexivity |].
      assert (Hperm :
                Permutation
                  (order_by_created_at
                     (messages_of (Conversation.id conversation)
                                  (messages (view session))))
                  (List.filter
                     (fun m => String.eqb (Message.conversation_id m)
                                          (Conversation.id conversation))
                     (messages (view session))))
        by apply order_by_created_at_perm.
      split; [exact Hperm |]. split.
      * intros m. split.
        -- intros Hm. apply (Permutation_in _ Hperm) in Hm.
           apply List.filter_In in Hm as [Hm Heq].
           apply String.eqb_eq in Heq. auto.
        -- intros [Hm Heq].
           apply (Permutation_in _ (Permutation_sym Hperm)).
           apply List.filter_In. split; [exact Hm |].
           apply String.eqb_eq. exact Heq.
      * apply order_by_created_at_sorted.
Qed.

Lemma load_conversation_guarded_witness :
  load_conversation (open_session ChatSamples.db) "c-1" "bob"
  = inl (ValueError "Access denied: conversation does not belong to user").
Proof.
  refine (proj1 (proj2 (load_conversation_guarded
                          (open_session ChatSamples.db) "c-1" "bob" _)
                       ChatSamples.talk _ _) _).
  - repeat constructor. simpl. intros [].
  - left. reflexivity.
  - reflexivity.
  - discriminate.
Defined.

(** C8, counterexample.  When the clock read for the assistant message
    is earlier than the one read for the user message, the reload puts
    the assistant message first. *)
Lemma round_trip_clock_counterexample : ~ round_trip_in_persistence_order.
Proof.
  intros H.
  specialize (H (open_session ChatSamples.db) "c-1" "alice" ChatSamples.talk
                [ChatSamples.hello] "m-1" "m-2" 40%Z 30%Z
                "add buy milk" "done" None).
  specialize (H _ _ _ _ eq_refl eq_refl eq_refl).
  vm_compute in H. discriminate H.
Qed.

(** C8, amended.  After a user message and then an assistant message
    are persisted and committed, a session opened on the database loads
    the earlier turns followed by the two messages, with their contents,
    provided the creation time of the user message is later than those
    of the earlier turns and earlier than that of the assistant
    message. *)
Theorem round_trip_under_increasing_clock
        (session : AsyncSession) (conversation_id : UUID) (user_id : string)
        (conversation : Conversation.t) (earlier : list Message.t)
        (id1 id2 : UUID) (t1 t2 : DateTime.t) (content1 content2 : string)
        (tool_calls : option pyval) (m1 m2 : Message.t)
        (s1 s2 : AsyncSession) :
  load_conversation session conversation_id user_id
  = inr (conversation, earlier) ->
  persist_user_message session id1 t1 conversation_id user_id content1
  = inr (m1, s1) ->
  persist_assistant_message s1 id2 t2 conversation_id user_id content2
                            tool_calls
  = inr (m2, s2) ->
  Forall (fun m => (Message.created_at m < t1)%Z) earlier ->
  (t1 < t2)%Z ->
  load_conversation (open_session (durable (save_conversation s2)))
                    conversation_id user_id
  = inr (conversation, earlier ++ [m1; m2])
  /\ m1 = Message.mk id1 conversation_id user_id "user" content1 None t1
  /\ m2 = Message.mk id2 conversation_id user_id "assistant" content2
                     tool_calls t2.
Proof.
  intros Hload Hp1 Hp2 Hearlier Ht.
  unfold persist_user_message, add_message in Hp1.
  destruct (existsb _ (messages (view session))); [discriminate |].
  injection Hp1 as <- <-.
  unfold persist_assistant_message, add_message in Hp2. simpl in Hp2.
  destruct (existsb _ _); [discriminate |].
  injection Hp2 as <- <-.
  split; [| split; reflexivity].
  unfold load_conversation in *. simpl.
  destruct (List.filter _ (conversations (view session)))
    as [|c [|c' rest]]; try discriminate.
  destruct (negb _); [discriminate |].
  injection Hload as <- <-.
  f_equal. f_equal.
  set (old := messages_of conversation_id (messages (view session))) in *.
  assert (Hsorted_old : Forall (fun m => (Message.created_at m < t1)%Z) old).
  { eapply Permutation_Forall; [apply order_by_created_at_perm | exact Hearlier]. }
  rewrite <- app_assoc. simpl.
  change (?l ++ [?a; ?b]) with (l ++ [a] ++ [b]).
  rewrite app_assoc, !messages_of_app.
  unfold messages_of at 2 3. simpl. rewrite !String.eqb_refl.
  fold (messages_of conversation_id (messages (view session))). fold old.
  rewrite order_by_created_at_last.
  - rewrite order_by_created_at_last.
    + rewrite <- app_assoc. reflexivity.
    + eapply List.Forall_impl; [| exact Hsorted_old].
      intros a Ha. unfold not_later. cbn in *. lia.
  - apply Forall_app. split.
    + eapply List.Forall_impl; [| exact Hsorted_old].
      intros a Ha. unfold not_later. cbn in *. lia.
    + constructor; [| constructor]. unfold not_later. cbn. lia.
Qed.

Lemma round_trip_under_increasing_clock_witness :
  let m1 := Message.mk "m-1" "c-1" "alice" "user" "add buy milk" None 30%Z in
  let m2 := Message.mk "m-2" "c-1" "alice" "assistant" "done" None 40%Z in
  load_conversation
    (open_session (mkTables [ChatSamples.talk] [ChatSamples.hello; m1; m2]))
    "c-1" "alice"
  = inr (ChatSamples.talk, [ChatSamples.hello; m1; m2]).
Proof.
  intros m1 m2.
  refine (proj1 (round_trip_under_increasing_clock
                   (open_session ChatSamples.db) "c-1" "alice"
                   ChatSamples.talk [ChatSamples.hello] "m-1" "m-2" 30%Z 40%Z
                   "add buy milk" "done" None m1 m2
                   (mkSession ChatSamples.db
                              (mkTables [ChatSamples.talk]
                                        [ChatSamples.hello; m1]))
                   (mkSession ChatSamples.db
                              (mkTables [ChatSamples.talk]
                                        [ChatSamples.hello; m1; m2]))
                   eq_refl eq_refl eq_refl _ _)).
  - repeat constructor.
  - reflexivity.
Defined.

(** The end-to-end scenario: "add buy groceries" creates task 3 for
    alice and the turn reports it with one record naming [add_task]. *)
Example add_buy_groceries :
  let run :=
    process_message Samples.plain "alice" "c-1" [] "add buy groceries" false
                    Samples.world in
  exists result,
    fst run
    = inr ((mark_created ++ " Created task: buy groceries")%string,
           [invocation_record "add_task"
              {[ "title" := VStr "buy groceries"; "user_id" := VStr "alice" ]}
              result])
    /\ get result "id" = VInt 3
    /\ served (snd run)
       = [("add_task",
           {[ "title" := VStr "buy groceries"; "user_id" := VStr "alice" ]})]
    /\ option_map Task.title (tasks (snd run) !! 3%Z) = Some "buy groceries".
Proof.
  eexists. split; [vm_compute; reflexivity |].
  split; [vm_compute; reflexivity |].
  split; vm_compute; reflexivity.
Qed.

(* ===================================================================== *)
(** * Further properties                                                  *)
(* ===================================================================== *)

(** ** Trimming and case *)

Module StripFacts.
Import PyStr.

Lemma is_space_lower_char (c : ascii) : is_space (lower_char c) = is_space c.
Proof. destruct c as [[] [] [] [] [] [] [] []]; reflexivity. Qed.

Lemma lstrip_lower (s : string) : lstrip (lower s) = lower (lstrip s).
Proof.
  unfold lstrip. induction s as [|c s IH]; simpl; [reflexivity |].
  rewrite is_space_lower_char. destruct (is_space c); [exact IH | reflexivity].
Qed.

Lemma rstrip_lower (s : string) : rstrip (lower s) = lower (rstrip s).
Proof.
  unfold rstrip. induction s as [|c s IH]; simpl; [reflexivity |].
  rewrite IH, is_space_lower_char.
  destruct (rstrip_by is_space s); simpl; [| reflexivity].
  destruct (is_space c); reflexivity.
Qed.

Lemma strip_lower (s : string) : strip (lower s) = lower (strip s).
Proof. unfold strip. rewrite lstrip_lower, rstrip_lower. reflexivity. Qed.

Section By.
Variable p : ascii -> bool.

Lemma rstrip_by_idem (s : string) :
  rstrip_by p (rstrip_by p s) = rstrip_by p s.
Proof.
  induction s as [|c s IH]; simpl; [reflexivity |].
  destruct (rstrip_by p s) as [|d r] eqn:E.
  - destruct (p c) eqn:Ec; simpl; [reflexivity |]. rewrite Ec. reflexivity.
  - simpl in *. rewrite IH. reflexivity.
Qed.

(** What [lstrip_by] returns is empty or starts outside [p]. *)
Lemma lstrip_by_head (s : string) :
  match lstrip_by p s with
  | EmptyString => True
  | String c _ => p c = false
  end.
Proof.
  induction s as [|c s IH]; simpl; [exact I |].
  destruct (p c) eqn:E; [exact IH | exact E].
Qed.

Lemma rstrip_by_keeps_head (c : ascii) (s : string) :
  p c = false -> exists r, rstrip_by p (String c s) = String c r.
Proof.
  intros Hc. simpl. destruct (rstrip_by p s); [| eauto].
  rewrite Hc. eauto.
Qed.

Lemma lstrip_rstrip_lstrip (s : string) :
  lstrip_by p (rstrip_by p (lstrip_by p s)) = rstrip_by p (lstrip_by p s).
Proof.
  pose proof (lstrip_by_head s) as H.
  destruct (lstrip_by p s) as [|c t]; [reflexivity |].
  destruct (rstrip_by_keeps_head c t H) as [r ->]. simpl. rewrite H.
  reflexivity.
Qed.

(** What [rstrip_by] returns is empty or ends outside [p]. *)
Lemma rstrip_by_last (s : string) (r : string) (c : ascii) :
  rstrip_by p s = (r ++ String c EmptyString)%string -> p c = false.
Proof.
  revert r; induction s as [|d s IH]; intros r; simpl.
  - destruct r; discriminate.
  - destruct (rstrip_by p s) as [|e t] eqn:E.
    + destruct (p d) eqn:Ed; [destruct r; discriminate |].
      destruct r as [|x r]; simpl; [intros [= <-]; exact Ed |].
      destruct r; discriminate.
    + destruct r as [|x r]; simpl; [discriminate |].
      intros [= _ H]. exact (IH r H).
Qed.

End By.

Lemma strip_idem (s : string) : strip (strip s) = strip s.
Proof.
  unfold strip, lstrip, rstrip.
  rewrite lstrip_rstrip_lstrip, rstrip_by_idem. reflexivity.
Qed.

(** A non-empty trimmed string starts and ends with something that is
    not white space. *)
Lemma strip_head (s : string) :
  match strip s with
  | EmptyString => True
  | String c _ => is_space c = false
  end.
Proof.
  unfold strip, lstrip, rstrip.
  pose proof (lstrip_by_head is_space s) as H.
  destruct (lstrip_by is_space s) as [|c t]; [exact I |].
  destruct (rstrip_by_keeps_head is_space c t H) as [r ->]. exact H.
Qed.

Lemma strip_last (s r : string) (c : ascii) :
  strip s = (r ++ String c EmptyString)%string -> is_space c = false.
Proof. unfold strip, rstrip. apply rstrip_by_last. Qed.

End StripFacts.

Import StripFacts.

(** X1.  [extract_intent] is blind to letter case and to white space
    around the message: two messages with the same lower-casing, or with
    the same trimming, get the same intent and confidence. *)
Theorem extract_intent_case_and_margin_blind (m1 m2 : string) :
  lower m1 = lower m2 \/ strip m1 = strip m2 ->
  extract_intent m1 = extract_intent m2.
Proof.
  intros H. unfold extract_intent.
  assert (Hn : lower (strip m1) = lower (strip m2)).
  { destruct H as [H | H]; [| rewrite H; reflexivity].
    rewrite <- !strip_lower, H. reflexivity. }
  rewrite Hn. reflexivity.
Qed.

Lemma extract_intent_case_and_margin_blind_witness :
  extract_intent "LIST Tasks" = extract_intent "list tasks".
Proof.
  apply extract_intent_case_and_margin_blind. left. reflexivity.
Defined.

(** ** The matcher *)

Module ReFacts.
Import PyStr Re TextSpec.

Lemma drop_nil (n : nat) : drop n EmptyString = EmptyString.
Proof. destruct n; reflexivity. Qed.

Lemma drop_drop (a b : nat) (s : string) : drop a (drop b s) = drop (b + a) s.
Proof.
  revert s; induction b as [|b IH]; intros s; simpl; [reflexivity |].
  destruct s as [|c s]; [apply drop_nil | apply IH].
Qed.

Lemma length_drop (n : nat) (s : string) :
  String.length (drop n s) = String.length s - n.
Proof.
  revert s; induction n as [|n IH]; intros s; simpl; [lia |].
  destruct s as [|c s]; simpl; [reflexivity | apply IH].
Qed.

Lemma take_drop (n : nat) (s : string) : (take n s ++ drop n s)%string = s.
Proof.
  revert s; induction n as [|n IH]; intros s; simpl.
  - destruct s; reflexivity.
  - destruct s as [|c s]; [reflexivity |].
    change (String c (take n s ++ drop n s)%string = String c s).
    rewrite IH. reflexivity.
Qed.

Lemma take_all (n : nat) (s : string) : drop n s = EmptyString -> take n s = s.
Proof.
  revert s; induction n as [|n IH]; intros s; simpl.
  - intros ->. reflexivity.
  - destruct s as [|c s]; [reflexivity |]. intros H. rewrite IH by exact H.
    reflexivity.
Qed.

Lemma span_le_length (cl : charclass) (s : string) :
  span cl s <= String.length s.
Proof.
  induction s as [|c s IH]; simpl; [lia |].
  destruct (in_class cl c); lia.
Qed.

Lemma all_chars_take_span (cl : charclass) (s : string) :
  all_chars (in_class cl) (take (span cl s) s) = true.
Proof.
  induction s as [|c s IH]; simpl; [reflexivity |].
  destruct (in_class cl c) eqn:E; simpl; [| reflexivity].
  rewrite E. exact IH.
Qed.

Lemma drop_span_head (cl : charclass) (s : string) :
  match drop (span cl s) s with
  | EmptyString => True
  | String c _ => in_class cl c = false
  end.
Proof.
  induction s as [|c s IH]; simpl; [exact I |].
  destruct (in_class cl c) eqn:E; simpl; [exact IH | exact E].
Qed.

Section Inversion.
Context {R : Type}.
Variable ic : bool.

Lemma try_down_inv (pos : nat) (s : string) (k : nat -> string -> option R)
      (j : nat) (res : R) :
  try_down pos s k j = Some res ->
  exists i, 1 <= i <= j /\ k (pos + i) (drop i s) = Some res.
Proof.
  induction j as [|j IH]; simpl; [discriminate |].
  destruct (k (pos + S j) _) as [x|] eqn:E.
  - intros [= <-]. exists (S j). split; [lia | exact E].
  - intros H. destruct (IH H) as (i & Hi & Hk). exists i. split; [lia | exact Hk].
Qed.

(** A successful run hands its result over from the continuation, called
    further along the subject with captures added for groups of the
    pattern only. *)
Lemma run_inv (r : regex) :
  forall (pos : nat) (s : string) (caps : captures)
         (k : nat -> string -> captures -> option R) (res : R),
    run ic r pos s caps k = Some res ->
    exists n added,
      n <= String.length s
      /\ List.Forall (fun kv : nat * string => In (fst kv) (group_ids r)) added
      /\ k (pos + n) (drop n s) (added ++ caps) = Some res.
Proof.
  induction r as [| p | cl | r1 IH1 r2 IH2 | r1 IH1 r2 IH2 | r1 IH1
                 | g r1 IH1 | |]; intros pos s caps k res; simpl.
  - intros H. exists 0, []. rewrite Nat.add_0_r.
    split; [lia | split; [constructor | exact H]].
  - destruct s as [|c s]; [discriminate |].
    destruct (chr_eq ic p c); [| discriminate].
    intros H. exists 1, []. rewrite Nat.add_1_r. simpl.
    split; [lia | split; [constructor | exact H]].
  - intros H. apply try_down_inv in H as (i & Hi & Hk).
    exists i, []. pose proof (span_le_length cl s).
    split; [lia | split; [constructor | exact Hk]].
  - intros H. apply IH1 in H as (n1 & a1 & Hn1 & Ha1 & H).
    apply IH2 in H as (n2 & a2 & Hn2 & Ha2 & H).
    rewrite length_drop in Hn2.
    exists (n1 + n2), (a2 ++ a1).
    rewrite drop_drop, <- Nat.add_assoc, app_assoc in H.
    split; [lia | split; [| exact H]].
    apply List.Forall_app. split.
    + eapply List.Forall_impl; [| exact Ha2].
      intros kv Hin. apply in_or_app. right. exact Hin.
    + eapply List.Forall_impl; [| exact Ha1].
      intros kv Hin. apply in_or_app. left. exact Hin.
  - destruct (run ic r1 pos s caps k) as [x|] eqn:E.
    + intros [= <-]. apply IH1 in E as (n & a & Hn & Ha & H).
      exists n, a. split; [exact Hn | split; [| exact H]].
      eapply List.Forall_impl; [| exact Ha].
      intros kv Hin. apply in_or_app. left. exact Hin.
    + intros H. apply IH2 in H as (n & a & Hn & Ha & H).
      exists n, a. split; [exact Hn | split; [| exact H]].
      eapply List.Forall_impl; [| exact Ha].
      intros kv Hin. apply in_or_app. right. exact Hin.
  - destruct (run ic r1 pos s caps k) as [x|] eqn:E.
    + intros [= <-]. apply IH1 in E. exact E.
    + intros H. exists 0, []. rewrite Nat.add_0_r.
      split; [lia | split; [constructor | exact H]].
  - intros H. apply IH1 in H as (n & a & Hn & Ha & H).
    exists n, ((g, take (pos + n - pos) s) :: a).
    split; [exact Hn | split; [| exact H]].
    constructor; [left; reflexivity |].
    eapply List.Forall_impl; [| exact Ha].
    intros kv Hin. right. exact Hin.
  - destruct (pos =? 0); [| discriminate].
    intros H. exists 0, []. rewrite Nat.add_0_r.
    split; [lia | split; [constructor | exact H]].
  - intros H. exists 0, []. rewrite Nat.add_0_r. simpl.
    split; [lia | split; [constructor |]].
    destruct s as [|c [|d s]]; try discriminate; [exact H |].
    destruct (Ascii.eqb c "010"); [exact H | discriminate].
Qed.

End Inversion.

(** A search that succeeds is a match at some position of the subject. *)
Lemma search_from_inv (ic : bool) (r : regex) (s : string) :
  forall (pos : nat) (m : Match),
    search_from ic r pos s = Some m ->
    exists n, n <= String.length s
              /\ match_at ic r (pos + n) (drop n s) = Some m.
Proof.
  induction s as [|c s IH]; intros pos m; simpl.
  - destruct (match_at ic r pos "") eqn:E; [| discriminate].
    intros [= <-]. exists 0. rewrite Nat.add_0_r. split; [lia | exact E].
  - destruct (match_at ic r pos (String c s)) eqn:E.
    + intros [= <-]. exists 0. rewrite Nat.add_0_r. split; [lia | exact E].
    + intros H. apply IH in H as (n & Hn & H).
      exists (S n). rewrite Nat.add_succ_r. simpl. split; [lia | exact H].
Qed.

(** [\d+] finds the first run of digits and takes all of it. *)
Lemma search_digits (s : string) :
  forall pos,
    search_from false (Plus digit) pos s
    = option_map (fun ds => {| whole := ds; groups := [] |})
                 (leading_digits s).
Proof.
  induction s as [|c s IH]; intros pos; [reflexivity |].
  cbn [search_from leading_digits].
  unfold match_at. cbn [run span in_class].
  destruct (is_digit c) eqn:E.
  - cbn [try_down]. rewrite Nat.add_comm, Nat.add_sub. reflexivity.
  - cbn [try_down]. apply IH.
Qed.

Lemma leading_digits_spec (s : string) :
  match leading_digits s with
  | Some ds => first_digit_run s ds
  | None => digit_free s = true
  end.
Proof.
  induction s as [|c s IH]; [reflexivity |].
  cbn [leading_digits]. destruct (is_digit c) eqn:E.
  - exists EmptyString, (drop (span digit (String c s)) (String c s)).
    split; [symmetry; apply (take_drop (span digit (String c s))) |].
    split; [reflexivity |]. split.
    + simpl. rewrite E. discriminate.
    + split; [apply (all_chars_take_span digit) |].
      apply (drop_span_head digit).
  - destruct (leading_digits s) as [ds|].
    + destruct IH as (pre & rest & -> & Hpre & Hne & Hds & Hrest).
      exists (String c pre), rest. split; [reflexivity |].
      split; [| auto]. unfold digit_free in *. simpl. rewrite E, Hpre.
      reflexivity.
    + unfold digit_free in *. simpl. rewrite E, IH. reflexivity.
Qed.

End ReFacts.

(** ** Parameter extraction *)

Module ParamFacts.
Import PyStr Re TextSpec ReFacts AgentService Spec.

Section AllChars.
Variable p : ascii -> bool.

Lemma all_chars_app (s t : string) :
  all_chars p (s ++ t)%string = all_chars p s && all_chars p t.
Proof.
  induction s as [|c s IH]; simpl; [reflexivity |].
  rewrite IH, andb_assoc. reflexivity.
Qed.

Lemma rstrip_by_empty (s : string) :
  rstrip_by p s = EmptyString -> all_chars p s = true.
Proof.
  induction s as [|c s IH]; simpl; [reflexivity |].
  destruct (rstrip_by p s); [| discriminate].
  destruct (p c); [intros _; apply IH; reflexivity | discriminate].
Qed.

Lemma lstrip_by_all (s : string) :
  all_chars p (lstrip_by p s) = true -> all_chars p s = true.
Proof.
  induction s as [|c s IH]; simpl; [reflexivity |].
  destruct (p c) eqn:E; simpl; [exact IH |]. rewrite E. discriminate.
Qed.

(** Nothing is trimmed from a string that has no character in [p]. *)
Lemma strip_by_none (s : string) :
  all_chars (fun c => negb (p c)) s = true ->
  rstrip_by p (lstrip_by p s) = s.
Proof.
  intros H.
  assert (Hl : lstrip_by p s = s).
  { destruct s as [|c s]; [reflexivity |]. simpl in *.
    destruct (p c); [discriminate | reflexivity]. }
  rewrite Hl. clear Hl.
  induction s as [|c s IH]; simpl in *; [reflexivity |].
  apply andb_true_iff in H as [Hc Hs]. rewrite (IH Hs).
  destruct s; [| reflexivity].
  destruct (p c); [discriminate | reflexivity].
Qed.

End AllChars.

Lemma snoc_string (s : string) :
  s <> EmptyString -> exists r c, s = (r ++ String c EmptyString)%string.
Proof.
  induction s as [|c s IH]; [contradiction |]. intros _.
  destruct s as [|d s].
  - exists EmptyString, c. reflexivity.
  - destruct (IH ltac:(discriminate)) as (r & e & H).
    exists (String c r), e. rewrite H. reflexivity.
Qed.

Lemma strip_empty (s : string) :
  strip s = EmptyString -> all_chars is_space s = true.
Proof.
  unfold strip, rstrip, lstrip. intros H.
  apply lstrip_by_all, rstrip_by_empty. exact H.
Qed.

Lemma append_assoc (a b c : string) :
  ((a ++ b) ++ c)%string = (a ++ b ++ c)%string.
Proof.
  induction a as [|x a IH]; [reflexivity |].
  change (String x ((a ++ b) ++ c)%string = String x (a ++ b ++ c)%string).
  rewrite IH. reflexivity.
Qed.

(** No tail of a trimmed string is made of white space only. *)
Lemma strip_tail_nonblank (x : string) (n : nat) :
  drop n (strip x) <> EmptyString ->
  strip (drop n (strip x)) <> EmptyString.
Proof.
  intros Hne Hblank. apply strip_empty in Hblank.
  destruct (snoc_string _ Hne) as (r & c & Hr).
  rewrite Hr, all_chars_app in Hblank. simpl in Hblank.
  apply andb_true_iff in Hblank as [_ Hc]. rewrite andb_true_r in Hc.
  assert (Hx : strip x
               = ((take n (strip x) ++ r) ++ String c EmptyString)%string).
  { rewrite append_assoc, <- Hr. symmetry. apply take_drop. }
  apply StripFacts.strip_last in Hx. congruence.
Qed.

Lemma run_eol {R : Type} (ic : bool) (pos : nat) (s : string)
      (caps : captures) (k : nat -> string -> captures -> option R)
      (res : R) :
  run ic Eol pos s caps k = Some res ->
  (s = EmptyString \/ s = String "010" EmptyString)
  /\ k pos s caps = Some res.
Proof.
  simpl. destruct s as [|c [|d s]]; try discriminate; [auto |].
  destruct (Ascii.eqb c "010") eqn:E; [| discriminate].
  apply Ascii.eqb_eq in E. subst c. auto.
Qed.

Lemma no_groups_added (r : regex) (added : captures) :
  group_ids r = [] ->
  List.Forall (fun kv : nat * string => In (fst kv) (group_ids r)) added ->
  added = [].
Proof.
  intros Hr H. rewrite Hr in H. destruct added as [|kv added]; [reflexivity |].
  inversion H as [|? ? Hin _]. destruct Hin.
Qed.

(** A pattern [... (.+)$] whose head has no group: what group 1 takes
    reaches to the end of the subject, or to its final newline. *)
Lemma match_tail_group (ic : bool) (cl : charclass) (head : list regex) :
  List.Forall (fun r => group_ids r = []) head ->
  forall (pos : nat) (s : string) (caps : captures)
         (whole_of : nat -> string) (m : Match),
    run ic (cat (head ++ [Group 1 (Plus cl); Eol])) pos s caps
        (fun pos' _ caps' =>
           Some {| whole := whole_of pos'; groups := caps' |})
    = Some m ->
    exists n i,
      1 <= i /\ n + i <= String.length s
      /\ groups m = (1, take i (drop n s)) :: caps
      /\ (drop i (drop n s) = EmptyString
          \/ drop i (drop n s) = String "010" EmptyString).
Proof.
  intros Hhead. induction Hhead as [|r head Hr _ IH];
    intros pos s caps whole_of m H.
  - cbn [app cat run] in H.
    apply try_down_inv in H as (i & Hi & H).
    pose proof (span_le_length cl s).
    exists 0, i. cbn [drop Nat.add].
    rewrite Nat.add_comm, Nat.add_sub in H.
    destruct (drop i s) as [|c [|d t]] eqn:Hd; try discriminate.
    + injection H as <-.
      split; [lia | split; [lia | split; [reflexivity | left; reflexivity]]].
    + destruct (Ascii.eqb c "010") eqn:Ec; [| discriminate].
      apply Ascii.eqb_eq in Ec. subst c. injection H as <-.
      split; [lia | split; [lia | split; [reflexivity | right; reflexivity]]].
  - cbn [app cat run] in H.
    apply run_inv in H as (n1 & added & Hn1 & Hadded & H).
    apply (no_groups_added r added Hr) in Hadded. subst added.
    apply IH in H as (n & i & Hi & Hlen & Hg & Hend).
    rewrite length_drop in Hlen. rewrite (drop_drop n n1) in Hg, Hend.
    exists (n1 + n), i.
    split; [exact Hi | split; [lia | split; [exact Hg | exact Hend]]].
Qed.

Lemma add_pattern_heads :
  List.Forall
    (fun pattern =>
       exists head,
         pattern = cat (head ++ [Group 1 (Plus anychar); Eol])
         /\ List.Forall (fun r => group_ids r = []) head)
    add_patterns.
Proof.
  repeat constructor.
  - exists [Bol; words "add" ["create"; "remember"]; ws].
    split; [reflexivity | repeat constructor].
  - exists [Bol; words "add" ["create"; "remember"]; ws; lit "task"; ws].
    split; [reflexivity | repeat constructor].
  - exists [Bol; lit "new"; ws; lit "task"; ws].
    split; [reflexivity | repeat constructor].
  - exists [Bol; lit "task"; ws; lit "to"; ws].
    split; [reflexivity | repeat constructor].
Qed.

(** On a trimmed subject the first extraction pattern that matches
    captures a tail of the subject, which has something in it. *)
Lemma first_match_title (x : string) (m : Match) :
  first_match add_patterns (strip x) = Some m ->
  strip (group m 1) <> EmptyString.
Proof.
  pose proof add_pattern_heads as Hheads.
  induction Hheads as [|pattern rest (head & -> & Hhead) _ IH];
    cbn [first_match]; [discriminate |].
  destruct (search _ (strip x) false) as [m'|] eqn:E; [| exact IH].
  intros [= ->]. unfold search in E.
  apply search_from_inv in E as (n0 & Hn0 & E). unfold match_at in E.
  apply (match_tail_group false anychar head Hhead) in E
    as (n & i & Hi & Hlen & Hg & Hend).
  rewrite length_drop in Hlen. rewrite (drop_drop n n0) in Hg, Hend.
  unfold group. rewrite Hg. cbn [lookup_group Nat.eqb].
  destruct Hend as [Hend | Hend].
  - rewrite (take_all i _) by exact Hend.
    apply strip_tail_nonblank. intros Hnil.
    apply (f_equal String.length) in Hnil. rewrite length_drop in Hnil.
    simpl in Hnil. lia.
  - exfalso.
    assert (Hx : strip x = (take (n0 + n + i) (strip x)
                            ++ String "010" EmptyString)%string).
    { rewrite <- Hend, drop_drop. symmetry. apply take_drop. }
    apply StripFacts.strip_last in Hx. discriminate Hx.
Qed.

Lemma fallback_title_trimmed (kws : list string) (user_input : string) :
  fallback_title kws user_input <> EmptyString
  /\ strip (fallback_title kws user_input) = fallback_title kws user_input.
Proof.
  induction kws as [|k kws IH]; simpl.
  - split; [discriminate | reflexivity].
  - unfold suffix_after.
    destruct (find (lower user_input) k =? -1)%Z; [exact IH |].
    destruct (nonempty _) eqn:E; [| exact IH].
    split; [| apply StripFacts.strip_idem].
    intros H. rewrite H in E. discriminate.
Qed.

End ParamFacts.

Import TextSpec ReFacts ParamFacts.

(** The parameters of ADD: the user and a title. *)
Lemma add_parameters (user_input user_id : string) :
  exists title,
    _extract_parameters ADD user_input user_id
    = {[ "title" := VStr title; "user_id" := VStr user_id ]}
    /\ title <> EmptyString
    /\ strip title = title.
Proof.
  unfold _extract_parameters.
  destruct (first_match add_patterns (strip (lower user_input)))
    as [m|] eqn:E.
  - exists (strip (Re.group m 1)). split; [reflexivity |].
    split; [exact (first_match_title _ _ E) | apply strip_idem].
  - exists (fallback_title fallback_keywords user_input).
    split; [apply add_fallback_title | apply fallback_title_trimmed].
Qed.

(** X2.  For ADD the extracted title is never empty and has no white
    space around it, whatever the message. *)
Theorem add_title_is_trimmed_and_not_empty (user_input user_id : string) :
  exists title,
    _extract_parameters ADD user_input user_id
    = {[ "title" := VStr title; "user_id" := VStr user_id ]}
    /\ title <> EmptyString
    /\ strip title = title.
Proof.
  unfold _extract_parameters.
  destruct (first_match add_patterns (strip (lower user_input)))
    as [m|] eqn:E.
  - exists (strip (Re.group m 1)). split; [reflexivity |].
    split; [exact (first_match_title _ _ E) | apply strip_idem].
  - exists (fallback_title fallback_keywords user_input).
    split; [apply add_fallback_title | apply fallback_title_trimmed].
Qed.

Module IdFacts.
Import PyStr Re TextSpec ReFacts ParamFacts AgentService.

Lemma with_task_id_spec (user_input : string) (params : dict) :
  with_task_id user_input params
  = match leading_digits user_input with
    | Some ds => <["task_id" := VStr ds]> params
    | None => params
    end.
Proof.
  unfold with_task_id, search, digits. rewrite search_digits.
  destruct (leading_digits user_input); reflexivity.
Qed.

Lemma all_chars_take_le (cl : charclass) (s : string) (i : nat) :
  i <= span cl s -> all_chars (in_class cl) (take i s) = true.
Proof.
  revert i; induction s as [|c s IH]; intros i; simpl.
  - destruct i; reflexivity.
  - destruct i as [|i]; [reflexivity |].
    destruct (in_class cl c) eqn:E; [| lia].
    intros H. simpl. rewrite E. apply IH. lia.
Qed.

Lemma take_nonempty (s : string) (i : nat) :
  1 <= i -> i <= String.length s -> take i s <> EmptyString.
Proof.
  destruct i as [|i]; [lia |]. destruct s as [|c s]; simpl; [lia |].
  discriminate.
Qed.

Lemma lookup_group_skip (n : nat) (added rest : captures) :
  List.Forall (fun kv : nat * string => fst kv <> n) added ->
  lookup_group n (added ++ rest) = lookup_group n rest.
Proof.
  induction added as [|[i v] added IH]; simpl; intros H; [reflexivity |].
  inversion H as [|? ? Hi Hrest]; subst. simpl in Hi.
  apply Nat.eqb_neq in Hi. rewrite Hi. apply IH. exact Hrest.
Qed.

(** What group 1 of the UPDATE pattern captures. *)
Lemma update_pattern_id (user_input : string) (m : Match) :
  search update_pattern user_input false = Some m ->
  group m 1 <> EmptyString /\ all_chars is_digit (group m 1) = true.
Proof.
  unfold search. intros H.
  apply search_from_inv in H as (n0 & _ & H). unfold match_at in H.
  unfold update_pattern in H.
  change (cat [?a; ?b; ?c; ?d; ?e]) with (Seq a (Seq b (cat [c; d; e]))) in H.
  change (run false (Seq ?a ?b) ?p ?s ?c ?k)
    with (run false a p s c (fun p' s' c' => run false b p' s' c' k)) in H.
  apply run_inv in H as (n1 & added1 & _ & Ha1 & H).
  apply (no_groups_added (Opt (cat [lit "task"; ws])) _ eq_refl) in Ha1.
  subst added1.
  change (run false (Seq (Group 1 (Plus digit)) ?b) ?p ?s ?c ?k)
    with (try_down p s
            (fun p' s' =>
               run false b p' s' ((1, take (p' - p) s) :: c) k)
            (span digit s)) in H.
  apply try_down_inv in H as (i & Hi & H).
  rewrite Nat.add_comm, Nat.add_sub in H.
  apply run_inv in H as (n2 & added2 & _ & Ha2 & H).
  injection H as <-. unfold group. cbn [groups].
  rewrite lookup_group_skip.
  - cbn [lookup_group Nat.eqb].
    pose proof (span_le_length digit (drop n1 (drop n0 user_input))).
    split; [apply take_nonempty; lia |].
    apply (all_chars_take_le digit). lia.
  - eapply List.Forall_impl; [| exact Ha2].
    intros kv Hin. simpl in Hin.
    destruct Hin as [<- | []]. discriminate.
Qed.

Lemma digit_not_int_space (c : ascii) :
  is_digit c = true -> is_int_space c = false.
Proof. destruct c as [[] [] [] [] [] [] [] []]; vm_compute; congruence. Qed.

Lemma parse_digits_total (ds : string) :
  all_chars is_digit ds = true ->
  forall acc seen,
    (0 <= acc)%Z -> (ds <> EmptyString \/ seen = true) ->
    exists n, parse_digits ds acc seen = Some n /\ (0 <= n)%Z.
Proof.
  induction ds as [|c ds IH]; simpl; intros Hall acc seen Hacc Hne.
  - destruct Hne as [Hne | ->]; [contradiction | eauto].
  - apply andb_true_iff in Hall as [Hc Hall]. rewrite Hc.
    apply IH; [exact Hall | | right; reflexivity].
    assert (48 <= nat_of_ascii c)%nat.
    { unfold is_digit in Hc. apply andb_true_iff in Hc as [Hc _].
      apply Nat.leb_le in Hc. exact Hc. }
    lia.
Qed.

(** Blanks and signs apart, a string of digits is its own literal. *)
Lemma int_literal_digits (ds : string) :
  all_chars is_digit ds = true ->
  rstrip_by is_int_space (lstrip_by is_int_space ds) = ds
  /\ int_literal ds = ds
  /\ int_of_str ds = parse_digits ds 0%Z false.
Proof.
  intros Hall.
  assert (Hs : rstrip_by is_int_space (lstrip_by is_int_space ds) = ds).
  { apply strip_by_none.
    induction ds as [|c ds IH]; simpl in *; [reflexivity |].
    apply andb_true_iff in Hall as [Hc Hall].
    rewrite (digit_not_int_space c Hc), IH by exact Hall. reflexivity. }
  unfold int_literal, int_of_str. rewrite Hs.
  split; [reflexivity |].
  destruct ds as [|c ds]; [auto |].
  assert (Hc : is_digit c = true)
    by (simpl in Hall; apply andb_true_iff in Hall as [Hc _]; exact Hc).
  destruct c as [[] [] [] [] [] [] [] []]; try (split; reflexivity);
    discriminate Hc.
Qed.

(** The digits [int] counts in a string of digits are all of them. *)
Lemma scan_digits_all (ds : string) :
  all_chars is_digit ds = true ->
  forall prev_digit digits,
    prev_digit = true \/ digits = 0 ->
    scan_digits ds prev_digit digits = Some (digits + String.length ds).
Proof.
  induction ds as [|c ds IH]; simpl; intros Hall prev_digit digits Hstart.
  - rewrite Nat.add_0_r.
    destruct Hstart as [-> | ->]; [reflexivity |].
    rewrite orb_true_r. reflexivity.
  - apply andb_true_iff in Hall as [Hc Hall]. rewrite Hc.
    rewrite (IH Hall true (S digits)) by (left; reflexivity).
    f_equal. lia.
Qed.

(** [int] accepts a non-empty string of digits up to its limit on their
    number, and refuses a longer one with a [ValueError]. *)
Lemma int_of_digits (ds : string) :
  ds <> EmptyString -> all_chars is_digit ds = true ->
  ((Z.of_nat (String.length ds) <= int_max_str_digits)%Z ->
   exists n, py_int (VStr ds) = inr n /\ (0 <= n)%Z)
  /\ ((int_max_str_digits < Z.of_nat (String.length ds))%Z ->
      exists text, py_int (VStr ds) = inl (ValueError text)).
Proof.
  intros Hne Hall.
  destruct (int_literal_digits ds Hall) as (_ & Hlit & Hint).
  unfold py_int. rewrite Hlit, Hint.
  rewrite (scan_digits_all ds Hall false 0) by (right; reflexivity).
  cbn [Nat.add].
  split; intros Hlen.
  - apply Z.ltb_ge in Hlen. rewrite Hlen.
    destruct (parse_digits_total ds Hall 0%Z false
                ltac:(lia) ltac:(left; exact Hne)) as (n & -> & Hpos).
    eauto.
  - apply Z.ltb_lt in Hlen. rewrite Hlen. eauto.
Qed.

End IdFacts.

Import IdFacts.

(** X3.  For GET, DELETE and COMPLETE the parameters carry the user and,
    as [task_id], the first run of decimal digits of the message, taken
    whole; [task_id] is absent exactly when the message has no digit. *)
Theorem task_id_is_first_digit_run (intent : Intent)
        (user_input user_id : string) :
  intent = GET \/ intent = DELETE \/ intent = COMPLETE ->
  let params := _extract_parameters intent user_input user_id in
  params !! "user_id" = Some (VStr user_id)
  /\ match params !! "task_id" with
     | Some v => exists ds, v = VStr ds /\ first_digit_run user_input ds
     | None => digit_free user_input = true
     end.
Proof.
  intros Hi params. subst params.
  pose proof (leading_digits_spec user_input) as Hspec.
  destruct Hi as [-> | [-> | ->]]; unfold _extract_parameters;
    rewrite with_task_id_spec;
    destruct (leading_digits user_input) as [ds|];
    repeat rewrite lookup_insert_ne by discriminate;
    try rewrite lookup_insert_eq; try rewrite lookup_singleton_eq;
    try rewrite lookup_singleton_ne by discriminate;
    (split; [reflexivity | eauto]).
Qed.

Lemma task_id_is_first_digit_run_witness :
  _extract_parameters DELETE "delete task 12 and 7" "alice" !! "user_id"
  = Some (VStr "alice").
Proof.
  apply (task_id_is_first_digit_run DELETE "delete task 12 and 7" "alice").
  right. left. reflexivity.
Defined.

(** X4.  For UPDATE the parameters have [task_id] and [title] together
    or neither, and an extracted [task_id] is a non-empty string of
    decimal digits.  [int] reads it as a number that is not negative
    when it has at most 4300 digits, the limit of CPython on a decimal
    literal, and raises a [ValueError] when it has more. *)
Theorem update_parameters_come_together (user_input user_id : string) :
  let params := _extract_parameters UPDATE user_input user_id in
  params = {[ "user_id" := VStr user_id ]}
  \/ exists ds title,
       params = {[ "title" := VStr title; "task_id" := VStr ds;
                   "user_id" := VStr user_id ]}
       /\ ds <> EmptyString /\ all_chars is_digit ds = true
       /\ ((Z.of_nat (String.length ds) <= 4300)%Z ->
           exists n, py_int (VStr ds) = inr n /\ (0 <= n)%Z)
       /\ ((4300 < Z.of_nat (String.length ds))%Z ->
           exists text, py_int (VStr ds) = inl (ValueError text)).
Proof.
  unfold _extract_parameters.
  destruct (Re.search update_pattern user_input false) as [m|] eqn:E;
    [right | left; reflexivity].
  destruct (update_pattern_id _ _ E) as [Hne Hall].
  destruct (int_of_digits _ Hne Hall) as [Hshort Hlong].
  exists (Re.group m 1), (strip (Re.group m 2)).
  split; [reflexivity |]. split; [exact Hne |]. split; [exact Hall |].
  split; [exact Hshort | exact Hlong].
Qed.

(** ** The Task MCP tools *)

Module TaskFacts.
Import PyStr TaskSpec TaskMCPServer TaskMCPDispatch StripFacts.

(** The world after a tool was entered. *)
Lemma entered_world (tool : string) (args : dict) (w : World) :
  tasks (snd (entered tool args w)) = tasks w
  /\ task_seq (snd (entered tool args w)) = task_seq w
  /\ clock (snd (entered tool args w)) = clock w
  /\ ticks (snd (entered tool args w)) = ticks w.
Proof. repeat split. Qed.

(** The three ways through the opening of a tool that works on one
    task: a bad id, no such task of the user, or the task. *)
Lemma with_task_cases (what : string) (args : dict)
      (k : Z -> Task.t -> M dict) (w : World) :
  (exists message code,
      with_task what args k w = (error_reply message code, w)
      /\ message <> EmptyString
      /\ (code = 400 \/ code = 404 \/ code = 500)%Z)
  \/ (exists id task,
         py_int (get args "task_id") = inr id
         /\ tasks w !! id = Some task
         /\ get args "user_id" = VStr (Task.user_id task)
         /\ with_task what args k w = k id task w).
Proof.
  unfold with_task.
  destruct (py_int (get args "task_id")) as [e | id] eqn:Hid.
  - left. destruct e; eexists _, _;
      (split; [reflexivity | split; [discriminate | auto]]).
  - unfold mbind, M_bind, read_tasks, select_task. cbn [fst snd].
    destruct (tasks w !! id) as [task|] eqn:Hrow.
    + unfold owned_by.
      destruct (get args "user_id") as [| | | u | |] eqn:Hu;
        try (left; eexists _, _;
             split; [reflexivity | split; [discriminate | auto]]).
      destruct (String.eqb (Task.user_id task) u) eqn:Hown.
      * apply String.eqb_eq in Hown. subst u. right. exists id, task.
        repeat split; first [assumption | reflexivity].
      * left. eexists _, _.
        split; [reflexivity | split; [discriminate | auto]].
    + left. eexists _, _.
      split; [reflexivity | split; [discriminate | auto]].
Qed.

Lemma tidy_strip (bound : nat) (s : string) :
  nonempty (strip s) = true ->
  (bound <? String.length (strip s)) = false ->
  tidy bound (strip s).
Proof.
  intros Hne Hlen. split; [| split].
  - intros H. rewrite H in Hne. discriminate.
  - apply strip_idem.
  - apply Nat.ltb_ge. exact Hlen.
Qed.

Lemma description_ok (s : string) :
  match or_none (strip s) with
  | Some d => (2000 <? String.length d)
  | None => false
  end = false ->
  match or_none (strip s) with
  | Some d => tidy 2000 d
  | None => True
  end.
Proof.
  unfold or_none. destruct (nonempty (strip s)) eqn:E; [| trivial].
  intros H. apply tidy_strip; assumption.
Qed.

Lemma add_task_step (args : dict) (w : World) :
  table_step (get args "user_id") w (snd (add_task args w)).
Proof.
  unfold add_task, mbind, M_bind. cbn [entered fst snd].
  destruct (py_strip (get_default args "title" (VStr ""))) as [e | title]
    eqn:Ht; [apply step_none; reflexivity |].
  destruct (py_strip (get_default args "description" (VStr "")))
    as [e | description] eqn:Hd; [apply step_none; reflexivity |].
  destruct (negb (nonempty title)) eqn:Hne; [apply step_none; reflexivity |].
  destruct (200 <? String.length title) eqn:Hlen;
    [apply step_none; reflexivity |].
  destruct (match or_none description with
            | Some d => 2000 <? String.length d
            | None => false
            end) eqn:Hdesc; [apply step_none; reflexivity |].
  cbn [utcnow fst snd clock ticks tasks task_seq served log].
  destruct (as_string (get args "user_id")) as [owner|] eqn:Hu;
    [| apply step_none; reflexivity].
  cbn [next_task_id read_tasks fst snd clock ticks tasks task_seq].
  destruct (tasks w !! (task_seq w + 1)%Z) eqn:Hrow.
  - apply step_taken; [rewrite Hrow; discriminate | reflexivity | reflexivity].
  - eapply step_insert; try reflexivity; [exact Hrow | | ].
    + destruct (get args "user_id"); try discriminate.
      injection Hu as ->. reflexivity.
    + assert (Hst : exists s, title = strip s).
      { unfold py_strip in Ht. destruct (get_default args "title" (VStr ""));
          try discriminate. injection Ht as <-. eauto. }
      assert (Hsd : exists s, description = strip s).
      { unfold py_strip in Hd.
        destruct (get_default args "description" (VStr ""));
          try discriminate. injection Hd as <-. eauto. }
      destruct Hst as [s ->]. destruct Hsd as [d ->].
      split; cbn [Task.title Task.description].
      * apply tidy_strip; [| exact Hlen].
        apply negb_false_iff in Hne. exact Hne.
      * apply description_ok. exact Hdesc.
Qed.

Lemma list_tasks_step (args : dict) (w : World) :
  table_step (get args "user_id") w (snd (list_tasks args w)).
Proof. apply step_none; reflexivity. Qed.

Lemma get_task_step (args : dict) (w : World) :
  table_step (get args "user_id") w (snd (get_task args w)).
Proof.
  unfold get_task, mbind, M_bind. cbn [entered fst snd].
  match goal with
  | |- context [with_task ?what ?a ?k ?w0] =>
      destruct (with_task_cases what a k w0)
        as [(m & c & -> & _) | (id & task & _ & _ & _ & ->)]
  end; apply step_none; reflexivity.
Qed.

Lemma delete_task_step (args : dict) (w : World) :
  table_step (get args "user_id") w (snd (delete_task args w)).
Proof.
  unfold delete_task, mbind, M_bind. cbn [entered fst snd].
  match goal with
  | |- context [with_task ?what ?a ?k ?w0] =>
      destruct (with_task_cases what a k w0)
        as [(m & c & -> & _) | (id & task & _ & Hrow & Hu & ->)]
  end; [apply step_none; reflexivity |].
  cbn [tasks] in Hrow.
  eapply step_delete; [exact Hrow | reflexivity | reflexivity | exact Hu].
Qed.

Lemma complete_task_step (args : dict) (w : World) :
  table_step (get args "user_id") w (snd (complete_task args w)).
Proof.
  unfold complete_task, mbind, M_bind. cbn [entered fst snd].
  match goal with
  | |- context [with_task ?what ?a ?k ?w0] =>
      destruct (with_task_cases what a k w0)
        as [(m & c & -> & _) | (id & task & _ & Hrow & Hu & ->)]
  end; [apply step_none; reflexivity |].
  cbn [utcnow fst snd].
  destruct (as_boolean _); [| apply step_none; reflexivity].
  cbn [tasks] in Hrow.
  eapply step_rewrite;
    [exact Hrow | reflexivity | reflexivity | exact Hu | reflexivity
    | reflexivity |].
  intros H. exact H.
Qed.

Lemma update_task_step (args : dict) (w : World) :
  table_step (get args "user_id") w (snd (update_task args w)).
Proof.
  unfold update_task, mbind, M_bind. cbn [entered fst snd].
  match goal with
  | |- context [with_task ?what ?a ?k ?w0] =>
      destruct (with_task_cases what a k w0)
        as [(m & c & -> & _) | (id & task & _ & Hrow & Hu & ->)]
  end; [apply step_none; reflexivity |].
  cbn [tasks] in Hrow. cbv zeta.
  assert (Hafter : forall new_title new_description w0,
             tasks w0 = tasks w -> task_seq w0 = task_seq w ->
             (row_ok task ->
              tidy 200 new_title
              /\ match new_description with
                 | Some d => tidy 2000 d
                 | None => True
                 end) ->
             table_step (get args "user_id") w
               (snd ((now ← utcnow;
                      _ ← write_task id
                            (Task.mk (Task.user_id task) new_title
                                     new_description (Task.is_completed task)
                                     (Task.priority task) (Task.due_date task)
                                     (Task.created_at task) now);
                      mret (task_reply id
                              (Task.mk (Task.user_id task) new_title
                                       new_description
                                       (Task.is_completed task)
                                       (Task.priority task)
                                       (Task.due_date task)
                                       (Task.created_at task) now))) w0))).
  { intros new_title new_description w0 Ht Hs Hok.
    unfold mbind, M_bind. cbn [utcnow write_task fst snd tasks task_seq].
    eapply step_rewrite;
      [exact Hrow | rewrite Ht; reflexivity | exact Hs | exact Hu
      | reflexivity | reflexivity | exact Hok]. }
  assert (Hdesc : forall new_title w0,
             tasks w0 = tasks w -> task_seq w0 = task_seq w ->
             (row_ok task -> tidy 200 new_title) ->
             table_step (get args "user_id") w
               (snd (match get args "description" with
                     | VNone =>
                         (now ← utcnow;
                          _ ← write_task id
                                (Task.mk (Task.user_id task) new_title
                                   (Task.description task)
                                   (Task.is_completed task)
                                   (Task.priority task) (Task.due_date task)
                                   (Task.created_at task) now);
                          mret (task_reply id
                                  (Task.mk (Task.user_id task) new_title
                                     (Task.description task)
                                     (Task.is_completed task)
                                     (Task.priority task)
                                     (Task.due_date task)
                                     (Task.created_at task) now)))
                     | _ =>
                         match py_strip (get args "description") with
                         | inl e =>
                             mret (error_reply
                                     ("Failed to update task: " ++ exn_str e)
                                     500)
                         | inr d =>
                             if match or_none d with
                                | Some d' => 2000 <? String.length d'
                                | None => false
                                end
                             then mret (error_reply
                                          "Task description cannot exceed 2000 characters"
                                          400)
                             else
                               (now ← utcnow;
                                _ ← write_task id
                                      (Task.mk (Task.user_id task) new_title
                                         (or_none d)
                                         (Task.is_completed task)
                                         (Task.priority task)
                                         (Task.due_date task)
                                         (Task.created_at task) now);
                                mret (task_reply id
                                        (Task.mk (Task.user_id task) new_title
                                           (or_none d)
                                           (Task.is_completed task)
                                           (Task.priority task)
                                           (Task.due_date task)
                                           (Task.created_at task) now)))
                         end
                     end w0))).
  { intros new_title w0 Ht Hs Hok.
    assert (Hstep_none : forall r : dict,
               table_step (get args "user_id") w
                 (snd ((mret r : M dict) w0)))
      by (intros r; apply step_none; assumption).
    destruct (get args "description") as [| b | z | s | l | d] eqn:Hd;
      try (cbn [py_strip]; apply Hstep_none).
    - apply Hafter; try assumption. intros Hrow_ok.
      split; [auto | apply Hrow_ok].
    - cbn [py_strip].
      destruct (match or_none (strip s) with
                | Some d' => 2000 <? String.length d'
                | None => false
                end) eqn:Hlen; [apply Hstep_none |].
      apply Hafter; try assumption. intros Hrow_ok.
      split; [auto | apply description_ok; exact Hlen]. }
  assert (Hstep_none : forall r : dict,
             table_step (get args "user_id") w
               (snd ((mret r : M dict) (snd (entered "update_task" args w)))))
    by (intros r; apply step_none; reflexivity).
  destruct (get args "title") as [| b | z | s | l | d] eqn:Htitle;
    try (cbn [py_strip]; apply Hstep_none).
  - apply Hdesc; try reflexivity. intros Hrow_ok. apply Hrow_ok.
  - cbn [py_strip].
    destruct (negb (nonempty (strip s))) eqn:Hne; [apply Hstep_none |].
    destruct (200 <? String.length (strip s)) eqn:Hlen; [apply Hstep_none |].
    apply Hdesc; try reflexivity. intros _.
    apply tidy_strip; [| exact Hlen]. apply negb_false_iff in Hne. exact Hne.
Qed.

End TaskFacts.

Module StepFacts.
Import TaskSpec TaskMCPServer TaskMCPDispatch TaskFacts.

Lemma call_tool_step (name : string) (arguments : dict) (w : World) :
  table_step (get arguments "user_id") w (snd (call_tool name arguments w)).
Proof.
  unfold call_tool.
  repeat match goal with
         | |- context [if String.eqb ?a ?b then _ else _] =>
             destruct (String.eqb a b)
         end;
    unfold mbind, M_bind;
    try match goal with
        | |- context [let '(a, w') := ?m in _] =>
            match type of m with
            | (_ * World)%type =>
                let H := fresh in
                pose proof (surjective_pairing m) as H;
                destruct m; simpl in H; injection H as -> ->
            end
        end.
  - apply add_task_step.
  - apply list_tasks_step.
  - pose proof (get_task_step arguments w) as H.
    destruct (get_task arguments w). exact H.
  - pose proof (update_task_step arguments w) as H.
    destruct (update_task arguments w). exact H.
  - pose proof (delete_task_step arguments w) as H.
    destruct (delete_task arguments w). exact H.
  - pose proof (complete_task_step arguments w) as H.
    destruct (complete_task arguments w). exact H.
  - apply step_none; reflexivity.
Qed.

Lemma table_step_ok (user : pyval) (w w' : World) :
  table_step user w w' -> table_ok w -> table_ok w'.
Proof.
  intros Hstep Hok id x Hx.
  destruct Hstep as [Ht Hs | t Hfree Ht Hs Hu Hrow _
                    | id0 t t' Hrow Ht Hs Hu _ _ Hkeep
                    | id0 t Hrow Ht Hs Hu | Htaken Ht Hs];
    rewrite Ht in Hx; rewrite Hs.
  - exact (Hok id x Hx).
  - destruct (decide (task_seq w + 1 = id)%Z) as [<- | Hne].
    + rewrite lookup_insert_eq in Hx. injection Hx as <-.
      split; [lia | exact Hrow].
    + rewrite lookup_insert_ne in Hx by exact Hne.
      destruct (Hok id x Hx). split; [lia | assumption].
  - destruct (decide (id0 = id)) as [<- | Hne].
    + rewrite lookup_insert_eq in Hx. injection Hx as <-.
      destruct (Hok id0 t Hrow). split; [assumption | auto].
    + rewrite lookup_insert_ne in Hx by exact Hne. exact (Hok id x Hx).
  - apply lookup_delete_Some in Hx as [_ Hx]. exact (Hok id x Hx).
  - destruct (Hok id x Hx). split; [lia | assumption].
Qed.

Lemma table_ok_next_free (w : World) :
  table_ok w -> tasks w !! (task_seq w + 1)%Z = None.
Proof.
  intros Hok. destruct (tasks w !! (task_seq w + 1)%Z) as [t|] eqn:E;
    [| reflexivity].
  destruct (Hok _ _ E). lia.
Qed.

Lemma table_step_isolated (user : pyval) (w w' : World) :
  table_step user w w' ->
  forall id other,
    VStr (Task.user_id other) <> user ->
    (tasks w !! id = Some other <-> tasks w' !! id = Some other).
Proof.
  intros Hstep id other Hother.
  destruct Hstep as [Ht Hs | t Hfree Ht Hs Hu Hrow _
                    | id0 t t' Hrow Ht Hs Hu Hsame _ _
                    | id0 t Hrow Ht Hs Hu | Htaken Ht Hs];
    rewrite Ht; try reflexivity.
  - destruct (decide (task_seq w + 1 = id)%Z) as [<- | Hne].
    + rewrite lookup_insert_eq, Hfree. split; [discriminate |].
      intros [= <-]. congruence.
    + rewrite lookup_insert_ne by exact Hne. reflexivity.
  - destruct (decide (id0 = id)) as [<- | Hne].
    + rewrite lookup_insert_eq, Hrow.
      split; intros [= <-]; exfalso; apply Hother; congruence.
    + rewrite lookup_insert_ne by exact Hne. reflexivity.
  - destruct (decide (id0 = id)) as [<- | Hne].
    + rewrite lookup_delete_eq, Hrow. split; [| discriminate].
      intros [= <-]. congruence.
    + rewrite lookup_delete_ne by exact Hne. reflexivity.
Qed.

Lemma table_step_one_row (user : pyval) (w w' : World) :
  table_step user w w' ->
  forall id1 id2,
    tasks w' !! id1 <> tasks w !! id1 ->
    tasks w' !! id2 <> tasks w !! id2 ->
    id1 = id2.
Proof.
  intros Hstep id1 id2.
  destruct Hstep as [Ht Hs | t Hfree Ht Hs Hu Hrow _
                    | id0 t t' Hrow Ht Hs Hu Hsame _ _
                    | id0 t Hrow Ht Hs Hu | Htaken Ht Hs];
    rewrite Ht; try contradiction; intros H1 H2.
  - destruct (decide (task_seq w + 1 = id1)%Z) as [<- | Hne1];
      [| rewrite lookup_insert_ne in H1 by exact Hne1; contradiction].
    destruct (decide (task_seq w + 1 = id2)%Z) as [<- | Hne2];
      [reflexivity |].
    rewrite lookup_insert_ne in H2 by exact Hne2. contradiction.
  - destruct (decide (id0 = id1)) as [<- | Hne1];
      [| rewrite lookup_insert_ne in H1 by exact Hne1; contradiction].
    destruct (decide (id0 = id2)) as [<- | Hne2]; [reflexivity |].
    rewrite lookup_insert_ne in H2 by exact Hne2. contradiction.
  - destruct (decide (id0 = id1)) as [<- | Hne1];
      [| rewrite lookup_delete_ne in H1 by exact Hne1; contradiction].
    destruct (decide (id0 = id2)) as [<- | Hne2]; [reflexivity |].
    rewrite lookup_delete_ne in H2 by exact Hne2. contradiction.
Qed.

End StepFacts.

Import TaskSpec TaskMCPDispatch TaskFacts StepFacts.

(** X5.  Whatever tool is called through the dispatcher and with
    whatever arguments, the rows of the other users are what they were
    (none changed, none deleted, none created), and at most one row of
    the table changes. *)
Theorem call_tool_touches_one_row_of_the_caller
        (name : string) (arguments : dict) (w : World) :
  let w' := snd (call_tool name arguments w) in
  (forall id other,
      VStr (Task.user_id other) <> get arguments "user_id" ->
      (tasks w !! id = Some other <-> tasks w' !! id = Some other))
  /\ (forall id1 id2,
         tasks w' !! id1 <> tasks w !! id1 ->
         tasks w' !! id2 <> tasks w !! id2 ->
         id1 = id2).
Proof.
  intros w'. pose proof (call_tool_step name arguments w) as Hstep.
  split.
  - apply (table_step_isolated _ _ _ Hstep).
  - apply (table_step_one_row _ _ _ Hstep).
Qed.

Lemma call_tool_touches_one_row_of_the_caller_witness :
  let arguments : dict := {[ "user_id" := VStr "alice"; "task_id" := VStr "2" ]} in
  tasks (snd (call_tool "delete_task" arguments Samples.world)) !! 2%Z
  = Some Samples.report.
Proof.
  intros arguments.
  apply (proj1 (call_tool_touches_one_row_of_the_caller
                  "delete_task" arguments Samples.world) 2%Z Samples.report).
  - vm_compute. discriminate.
  - vm_compute. reflexivity.
Defined.

(** X6.  The tools keep the table well formed: if every row has a
    trimmed, non-empty title of at most 200 characters, a description
    that is absent or trimmed, non-empty and of at most 2000 characters,
    and an id the sequence has given out, the same holds after any tool
    call; and in such a table the id the next [add_task] takes is free. *)
Theorem call_tool_keeps_table_ok
        (name : string) (arguments : dict) (w : World) :
  table_ok w ->
  table_ok (snd (call_tool name arguments w))
  /\ tasks w !! (task_seq w + 1)%Z = None.
Proof.
  intros Hok. split.
  - exact (table_step_ok _ _ _ (call_tool_step name arguments w) Hok).
  - apply table_ok_next_free. exact Hok.
Qed.

Lemma samples_world_ok : table_ok Samples.world.
Proof.
  intros id t H. unfold Samples.world in *. cbn [tasks task_seq] in *.
  destruct (decide (id = 1%Z)) as [-> | H1].
  - rewrite lookup_insert_eq in H. injection H as <-.
    split; [lia |]. repeat split; simpl; try discriminate; lia.
  - rewrite lookup_insert_ne in H by congruence.
    destruct (decide (id = 2%Z)) as [-> | H2].
    + rewrite lookup_insert_eq in H. injection H as <-.
      split; [lia |]. repeat split; simpl; try discriminate; lia.
    + rewrite lookup_insert_ne in H by congruence.
      rewrite lookup_empty in H. discriminate.
Qed.

Lemma call_tool_keeps_table_ok_witness :
  table_ok
    (snd (call_tool "add_task"
            {[ "user_id" := VStr "alice"; "title" := VStr "  call mom " ]}
            Samples.world)).
Proof.
  apply (call_tool_keeps_table_ok "add_task"
           {[ "user_id" := VStr "alice"; "title" := VStr "  call mom " ]}
           Samples.world).
  exact samples_world_ok.
Defined.

Module AddTaskFacts.
Import PyStr TaskMCPServer.

Lemma task_reply_id (id : Z) (task : Task.t) :
  get (task_reply id task) "id" = VInt id.
Proof. unfold get, task_reply. rewrite lookup_insert_eq. reflexivity. Qed.

Lemma task_reply_no_error (id : Z) (task : Task.t) :
  task_reply id task !! "error" = None.
Proof.
  unfold task_reply.
  repeat rewrite lookup_insert_ne by discriminate.
  apply lookup_singleton_ne. discriminate.
Qed.

Lemma error_reply_has_error (message : string) (code : Z) :
  error_reply message code !! "error" <> None.
Proof. rewrite error_reply_error. discriminate. Qed.

Lemma ltb_le_false (a b : nat) : (a <? b) = false <-> b <= a.
Proof. apply Nat.ltb_ge. Qed.

Ltac unchanged :=
  repeat split;
  first [exact I | reflexivity | apply error_reply_has_error].

(** The run of [add_task], branch by branch. *)
Lemma add_task_cases (args : dict) (w : World) :
  tasks w !! (task_seq w + 1)%Z = None ->
  (exists owner title description,
      new_task_args args owner title description
      /\ let id := (task_seq w + 1)%Z in
         let task :=
           Task.mk owner title description false None None
                   (clock w (ticks w)) (clock w (S (ticks w))) in
         fst (add_task args w) = inr (task_reply id task)
         /\ tasks (snd (add_task args w)) = <[id := task]> (tasks w)
         /\ task_seq (snd (add_task args w)) = id)
  \/ ((forall owner title description,
          ~ new_task_args args owner title description)
      /\ tasks (snd (add_task args w)) = tasks w
      /\ task_seq (snd (add_task args w)) = task_seq w
      /\ match fst (add_task args w) with
         | inl _ => True
         | inr reply => reply !! "error" <> None
         end).
Proof.
  intros Hfree.
  unfold add_task, mbind, M_bind. cbn [entered fst snd].
  destruct (get_default args "title" (VStr "")) as [| | | s | |] eqn:Ht;
    cbn [py_strip];
    try (right; split;
         [intros o1 t1 x1 (s1 & x2 & _ & H & _); congruence
         | unchanged]).
  destruct (get_default args "description" (VStr "")) as [| | | d | |]
    eqn:Hd; cbn [py_strip];
    try (right; split;
         [intros o1 t1 x1 (s1 & x2 & _ & _ & _ & _ & _ & H & _); congruence
         | unchanged]).
  destruct (negb (nonempty (strip s))) eqn:Hne.
  { right. split; [| unchanged].
    intros o t d0 (s' & d' & _ & Hs & -> & Hn & _).
    rewrite Ht in Hs. injection Hs as <-.
    destruct (strip s); [contradiction | discriminate]. }
  destruct (200 <? String.length (strip s)) eqn:Hlen.
  { right. split; [| unchanged].
    intros o t d0 (s' & d' & _ & Hs & -> & _ & Hl & _).
    rewrite Ht in Hs. injection Hs as <-.
    apply Nat.ltb_lt in Hlen. lia. }
  destruct (match or_none (strip d) with
            | Some d0 => 2000 <? String.length d0
            | None => false
            end) eqn:Hdesc.
  { right. split; [| unchanged].
    intros o t d0 (s' & d' & _ & _ & _ & _ & _ & Hs & _ & Hl).
    rewrite Hd in Hs. injection Hs as <-.
    unfold or_none in Hdesc. destruct (nonempty (strip d)); [| discriminate].
    apply Nat.ltb_lt in Hdesc. lia. }
  cbn [utcnow fst snd clock ticks tasks task_seq served log].
  destruct (get args "user_id") as [| | | owner | |] eqn:Hu;
    cbn [as_string];
    try (right; split;
         [intros o1 t1 d1 (s1 & d2 & H & _); congruence
         | unchanged]).
  cbn [next_task_id read_tasks fst snd clock ticks tasks task_seq].
  rewrite Hfree. left. exists owner, (strip s), (or_none (strip d)).
  split; [| cbv zeta; split; [reflexivity | split; reflexivity]].
  exists s, d.
  split; [exact Hu | split; [exact Ht | split; [reflexivity |]]].
  split; [| split; [| split; [exact Hd | split; [reflexivity |]]]].
  - intros H. rewrite H in Hne. discriminate.
  - apply ltb_le_false. exact Hlen.
  - unfold or_none in Hdesc.
    destruct (nonempty (strip d)) eqn:E.
    + apply ltb_le_false. exact Hdesc.
    + destruct (strip d); [simpl; lia | discriminate].
Qed.

End AddTaskFacts.

Import AddTaskFacts.

(** X7.  In a well-formed table [add_task] succeeds exactly on the
    arguments it accepts: it then stores, under the next id, a row of
    the user with the trimmed title and description, not completed, with
    the two times it read from the clock, and replies with that row.
    Otherwise it raises or replies an error, and the table and the
    sequence are as they were. *)
Theorem add_task_contract (args : dict) (w : World) :
  table_ok w ->
  let out := fst (add_task args w) in
  let w' := snd (add_task args w) in
  (forall owner title description,
      new_task_args args owner title description ->
      let id := (task_seq w + 1)%Z in
      let task :=
        Task.mk owner title description false None None
                (clock w (ticks w)) (clock w (S (ticks w))) in
      out = inr (task_reply id task)
      /\ tasks w' = <[id := task]> (tasks w)
      /\ tasks w !! id = None
      /\ task_seq w' = id)
  /\ (forall reply,
         out = inr reply -> reply !! "error" = None ->
         exists owner title description,
           new_task_args args owner title description)
  /\ ((forall reply, out = inr reply -> reply !! "error" <> None) ->
      tasks w' = tasks w /\ task_seq w' = task_seq w).
Proof.
  intros Hok out w'. subst out w'.
  pose proof (table_ok_next_free w Hok) as Hfree.
  destruct (add_task_cases args w Hfree)
    as [(owner & title & description & Hargs & Hout & Ht & Hs)
       | (Hnot & Ht & Hs & Hout)].
  - split; [| split].
    + intros o t d (s' & d' & Hu' & Ht' & -> & _ & _ & Hd' & -> & _).
      destruct Hargs as (s & d & Hu & Htt & -> & _ & _ & Hd & -> & _).
      assert (o = owner) by congruence.
      assert (s' = s) by congruence. assert (d' = d) by congruence.
      subst. auto.
    + intros reply _ _. eauto.
    + intros Herr. exfalso. apply (Herr _ Hout). apply task_reply_no_error.
  - split; [| split].
    + intros o t d Hargs. exfalso. exact (Hnot o t d Hargs).
    + intros reply Hr Hno. rewrite Hr in Hout. contradiction.
    + intros _. auto.
Qed.

Lemma add_task_contract_witness :
  let args : dict :=
    {[ "user_id" := VStr "alice"; "title" := VStr "  call mom " ]} in
  fst (add_task args Samples.world)
  = inr (task_reply 3 (Task.mk "alice" "call mom" None false None None
                               1000%Z 1001%Z)).
Proof.
  intros args.
  refine (proj1 (proj1 (add_task_contract args Samples.world samples_world_ok)
                       "alice" "call mom" None _)).
  exists "  call mom ", "".
  repeat split; try (vm_compute; reflexivity); try discriminate;
    vm_compute; lia.
Defined.

(** X8.  A task that [add_task] has created is what [get_task] returns
    for the same user and the id of the reply. *)
Theorem get_task_after_add_task (args : dict) (w : World) (reply : dict) :
  table_ok w ->
  fst (add_task args w) = inr reply ->
  reply !! "error" = None ->
  fst (get_task {[ "user_id" := get args "user_id";
                   "task_id" := get reply "id" ]}
                (snd (add_task args w)))
  = reply.
Proof.
  intros Hok Hout Hno.
  destruct (add_task_cases args w (table_ok_next_free w Hok))
    as [(owner & title & description & Hargs & Hr & Ht & _)
       | (_ & _ & _ & Herr)];
    [| rewrite Hout in Herr; contradiction].
  rewrite Hr in Hout. injection Hout as <-.
  destruct Hargs as (s & d & Hu & _).
  unfold get_task, with_task, mbind, M_bind. cbn [entered fst snd].
  rewrite task_reply_id.
  replace (get _ "task_id") with (VInt (task_seq w + 1))
    by (unfold get; rewrite lookup_insert_ne by discriminate;
        rewrite lookup_singleton_eq; reflexivity).
  replace (get _ "user_id") with (VStr owner)
    by (unfold get at 1; rewrite lookup_insert_eq; symmetry; exact Hu).
  cbn [py_int read_tasks fst snd tasks]. unfold select_task.
  rewrite Ht, lookup_insert_eq. cbn [owned_by Task.user_id].
  rewrite String.eqb_refl. reflexivity.
Qed.

Lemma get_task_after_add_task_witness :
  let args : dict :=
    {[ "user_id" := VStr "alice"; "title" := VStr "  call mom " ]} in
  let reply :=
    task_reply 3 (Task.mk "alice" "call mom" None false None None
                          1000%Z 1001%Z) in
  fst (get_task {[ "user_id" := get args "user_id";
                   "task_id" := get reply "id" ]}
                (snd (add_task args Samples.world)))
  = reply.
Proof.
  intros args reply.
  apply (get_task_after_add_task args Samples.world reply samples_world_ok).
  - vm_compute. reflexivity.
  - vm_compute. reflexivity.
Defined.

Module OneTaskFacts.
Import PyStr TaskMCPServer TaskFacts AddTaskFacts.

(** With a task of the user under the given id, the opening hands over
    to the body of the tool. *)
Lemma with_task_found (what : string) (args : dict)
      (k : Z -> Task.t -> M dict) (w : World) (id : Z) (task : Task.t) :
  py_int (get args "task_id") = inr id ->
  tasks w !! id = Some task ->
  get args "user_id" = VStr (Task.user_id task) ->
  with_task what args k w = k id task w.
Proof.
  intros Hid Hrow Hu. unfold with_task. rewrite Hid.
  unfold mbind, M_bind, read_tasks, select_task. cbn [fst snd].
  rewrite Hrow, Hu. cbn [owned_by]. rewrite String.eqb_refl. reflexivity.
Qed.

(** Otherwise the reply is an error and the world is as it was. *)
Lemma with_task_outcome (what : string) (args : dict)
      (k : Z -> Task.t -> M dict) (w : World) :
  (exists message code,
      with_task what args k w = (error_reply message code, w))
  \/ (exists id task,
         py_int (get args "task_id") = inr id
         /\ tasks w !! id = Some task
         /\ get args "user_id" = VStr (Task.user_id task)
         /\ with_task what args k w = k id task w).
Proof.
  destruct (with_task_cases what args k w)
    as [(m & c & H & _) | H]; [left; eauto | right; exact H].
Qed.

End OneTaskFacts.

Import OneTaskFacts.

(** X9.  [get_task] never changes the table, and what it returns without
    an error is the row stored under the given id, which belongs to the
    given user; it returns that row whenever there is one. *)
Theorem get_task_contract (args : dict) (w : World) :
  let reply := fst (get_task args w) in
  let w' := snd (get_task args w) in
  tasks w' = tasks w /\ task_seq w' = task_seq w
  /\ (reply !! "error" = None ->
      exists id task,
        py_int (get args "task_id") = inr id
        /\ tasks w !! id = Some task
        /\ get args "user_id" = VStr (Task.user_id task)
        /\ reply = task_reply id task)
  /\ (forall id task,
         py_int (get args "task_id") = inr id ->
         tasks w !! id = Some task ->
         get args "user_id" = VStr (Task.user_id task) ->
         reply = task_reply id task).
Proof.
  unfold get_task, mbind, M_bind. cbn [entered fst snd].
  match goal with
  | |- context [with_task ?what ?a ?k ?w0] =>
      set (w0' := w0);
      pose proof (with_task_outcome what a k w0') as Hcases;
      pose proof (with_task_found what a k w0') as Hfound
  end.
  split; [| split; [| split]].
  - destruct Hcases as [(m & c & ->) | (id & task & _ & _ & _ & ->)];
      reflexivity.
  - destruct Hcases as [(m & c & ->) | (id & task & _ & _ & _ & ->)];
      reflexivity.
  - destruct Hcases as [(m & c & ->) | (id & task & Hid & Hrow & Hu & ->)].
    + intros H. exfalso. exact (error_reply_has_error _ _ H).
    + intros _. exists id, task. auto.
  - intros id task Hid Hrow Hu.
    rewrite (Hfound id task Hid Hrow Hu). reflexivity.
Qed.

Lemma get_task_contract_witness :
  fst (get_task {[ "user_id" := VStr "bob"; "task_id" := VStr " 2 " ]}
                Samples.world)
  = task_reply 2 Samples.report.
Proof.
  apply (proj2 (proj2 (proj2 (get_task_contract
                                {[ "user_id" := VStr "bob";
                                   "task_id" := VStr " 2 " ]}
                                Samples.world)))).
  - vm_compute. reflexivity.
  - vm_compute. reflexivity.
  - vm_compute. reflexivity.
Defined.

(** X10.  [delete_task] succeeds exactly when a task of the given user
    is stored under the given id: it removes that row and no other, and
    [get_task] then answers "Task not found" for the same arguments.  A
    [delete_task] that replies an error leaves the table as it was. *)
Theorem delete_task_contract (args : dict) (w : World) :
  let reply := fst (delete_task args w) in
  let w' := snd (delete_task args w) in
  (forall id task,
      py_int (get args "task_id") = inr id ->
      tasks w !! id = Some task ->
      get args "user_id" = VStr (Task.user_id task) ->
      reply !! "error" = None
      /\ get reply "task_id" = get args "task_id"
      /\ tasks w' = delete id (tasks w)
      /\ fst (get_task args w') = error_reply "Task not found" 404)
  /\ (reply !! "error" = None ->
      exists id task,
        py_int (get args "task_id") = inr id
        /\ tasks w !! id = Some task
        /\ get args "user_id" = VStr (Task.user_id task))
  /\ (reply !! "error" <> None -> tasks w' = tasks w).
Proof.
  unfold delete_task, mbind, M_bind. cbn [entered fst snd].
  match goal with
  | |- context [with_task ?what ?a ?k ?w0] =>
      set (w0' := w0);
      pose proof (with_task_outcome what a k w0') as Hcases;
      pose proof (with_task_found what a k w0') as Hfound
  end.
  split; [| split].
  - intros id task Hid Hrow Hu.
    rewrite (Hfound id task Hid Hrow Hu).
    cbn [remove_task fst snd tasks]. unfold mret, M_ret.
    cbn [fst snd tasks]. subst w0'. cbn [tasks].
    split; [| split; [| split]].
    + repeat rewrite lookup_insert_ne by discriminate.
      apply lookup_singleton_ne. discriminate.
    + unfold get at 1.
      repeat rewrite lookup_insert_ne by discriminate.
      rewrite lookup_singleton_eq. reflexivity.
    + reflexivity.
    + unfold get_task, with_task, mbind, M_bind.
      cbn [entered fst snd]. rewrite Hid.
      cbn [read_tasks fst snd tasks]. unfold select_task.
      rewrite lookup_delete_eq. reflexivity.
  - destruct Hcases as [(m & c & ->) | (id & task & Hid & Hrow & Hu & _)].
    + intros H. exfalso. exact (error_reply_has_error _ _ H).
    + intros _. exists id, task. auto.
  - destruct Hcases as [(m & c & ->) | (id & task & Hid & Hrow & Hu & ->)].
    + reflexivity.
    + cbn [remove_task fst snd tasks]. unfold mret, M_ret.
      cbn [fst snd]. intros H. exfalso. apply H.
      repeat rewrite lookup_insert_ne by discriminate.
      apply lookup_singleton_ne. discriminate.
Qed.

Lemma delete_task_contract_witness :
  let args : dict := {[ "user_id" := VStr "bob"; "task_id" := VStr "2" ]} in
  tasks (snd (delete_task args Samples.world))
  = delete 2%Z (tasks Samples.world).
Proof.
  intros args.
  refine (proj1 (proj2 (proj2 (proj1 (delete_task_contract args Samples.world)
                                     2%Z Samples.report _ _ _)))).
  - vm_compute. reflexivity.
  - vm_compute. reflexivity.
  - vm_compute. reflexivity.
Defined.

Module ListFacts.
Import TaskMCPServer ListSpec.

Lemma insert_desc_perm (x : Z * Task.t) (l : list (Z * Task.t)) :
  Permutation (x :: l) (insert_desc x l).
Proof.
  induction l as [| y l IH]; cbn [insert_desc]; [reflexivity |].
  destruct (Task.created_at (snd y) <? Task.created_at (snd x))%Z;
    [reflexivity |].
  etransitivity; [apply perm_swap |]. apply perm_skip. exact IH.
Qed.

Lemma order_desc_perm (l : list (Z * Task.t)) :
  Permutation l (order_desc l).
Proof.
  induction l as [| x l IH]; cbn [order_desc fold_right]; [reflexivity |].
  etransitivity; [apply perm_skip; exact IH |]. apply insert_desc_perm.
Qed.

Lemma insert_desc_sorted (x : Z * Task.t) (l : list (Z * Task.t)) :
  latest_first l -> latest_first (insert_desc x l).
Proof.
  unfold latest_first.
  induction l as [| y l IH]; intros Hs; cbn [insert_desc].
  - constructor; constructor.
  - apply StronglySorted_inv in Hs. destruct Hs as [Hl Hy].
    destruct (Task.created_at (snd y) <? Task.created_at (snd x))%Z eqn:E.
    + apply Z.ltb_lt in E. constructor.
      * constructor; assumption.
      * constructor; [lia |].
        eapply List.Forall_impl; [| exact Hy]. cbn. intros a Ha. lia.
    + apply Z.ltb_ge in E. constructor; [apply IH; exact Hl |].
      eapply Permutation_Forall; [apply insert_desc_perm |].
      constructor; assumption.
Qed.

Lemma order_desc_sorted (l : list (Z * Task.t)) :
  latest_first (order_desc l).
Proof.
  induction l as [| x l IH]; cbn [order_desc fold_right].
  - constructor.
  - apply insert_desc_sorted. exact IH.
Qed.

Lemma owned_by_spec (user_id : pyval) (task : Task.t) :
  owned_by user_id task = true <-> user_id = VStr (Task.user_id task).
Proof.
  unfold owned_by. split.
  - destruct user_id; try discriminate.
    intros H. apply String.eqb_eq in H. congruence.
  - intros ->. apply String.eqb_refl.
Qed.

End ListFacts.

Import ListFacts.

(** The rows of a listing. *)
Lemma list_tasks_rows (args : dict) (w : World) :
  exists rows : list (Z * Task.t),
    fst (TaskMCPServer.list_tasks args w) = ListSpec.listing rows
    /\ (forall id task, In (id, task) rows <-> ListSpec.listed args w id task)
    /\ List.NoDup rows
    /\ ListSpec.latest_first rows
    /\ tasks (snd (TaskMCPServer.list_tasks args w)) = tasks w.
Proof.
  unfold TaskMCPServer.list_tasks, mbind, M_bind, mret, M_ret.
  cbn [entered read_tasks fst snd tasks].
  match goal with
  | |- context [TaskMCPServer.order_desc ?shown] => set (rows := shown)
  end.
  exists (TaskMCPServer.order_desc rows).
  split; [reflexivity |]. split; [| split; [| split]].
  - intros id task.
    rewrite <- (Permutation_in' (eq_refl (id, task)) (order_desc_perm rows)).
    unfold ListSpec.listed. subst rows.
    destruct (truthy (get_default args "include_completed" (VBool true)));
      cbn [negb]; repeat rewrite List.filter_In; cbn [fst snd];
      rewrite <- list_elem_of_In, elem_of_map_to_list, owned_by_spec.
    + intuition congruence.
    + rewrite negb_true_iff. intuition congruence.
  - eapply Permutation_NoDup; [apply order_desc_perm |]. subst rows.
    assert (Hall : List.NoDup (map_to_list (tasks w)))
      by (apply NoDup_ListNoDup, NoDup_map_to_list).
    destruct (negb _); repeat apply List.NoDup_filter; exact Hall.
  - apply order_desc_sorted.
  - reflexivity.
Qed.

(** X11.  [list_tasks] replies with the tasks of the given user, each
    once and the latest created first, without the completed ones when
    [include_completed] is given and false in Python's sense; it never
    replies an error and never changes the table. *)
Theorem list_tasks_contract (args : dict) (w : World) :
  exists rows : list (Z * Task.t),
    fst (TaskMCPServer.list_tasks args w) = ListSpec.listing rows
    /\ (forall id task, In (id, task) rows <-> ListSpec.listed args w id task)
    /\ List.NoDup rows
    /\ ListSpec.latest_first rows
    /\ tasks (snd (TaskMCPServer.list_tasks args w)) = tasks w.
Proof.
  unfold TaskMCPServer.list_tasks, mbind, M_bind, mret, M_ret.
  cbn [entered read_tasks fst snd tasks].
  match goal with
  | |- context [TaskMCPServer.order_desc ?shown] => set (rows := shown)
  end.
  exists (TaskMCPServer.order_desc rows).
  split; [reflexivity |]. split; [| split; [| split]].
  - intros id task.
    rewrite <- (Permutation_in' (eq_refl (id, task)) (order_desc_perm rows)).
    unfold ListSpec.listed. subst rows.
    destruct (truthy (get_default args "include_completed" (VBool true)));
      cbn [negb]; repeat rewrite List.filter_In; cbn [fst snd];
      rewrite <- list_elem_of_In, elem_of_map_to_list, owned_by_spec.
    + intuition congruence.
    + rewrite negb_true_iff. intuition congruence.
  - eapply Permutation_NoDup; [apply order_desc_perm |]. subst rows.
    assert (Hall : List.NoDup (map_to_list (tasks w)))
      by (apply NoDup_ListNoDup, NoDup_map_to_list).
    destruct (negb _); repeat apply List.NoDup_filter; exact Hall.
  - apply order_desc_sorted.
  - reflexivity.
Qed.

Ltac solve_field :=
  first [ eassumption
        | reflexivity
        | solve [repeat split; reflexivity]
        | eexists; split; [reflexivity | cbn; congruence] ].

(** X12.  An [update_task] that replies no error found a task of the
    given user under the given id and rewrote that row: the title and
    the description are kept where the argument is missing or [None] and
    are the stripped argument otherwise (an empty description becoming
    [None]), [updated_at] is the time of the call, and nothing else of
    the row changes.  An [update_task] that replies an error leaves the
    table as it was. *)
Theorem update_task_contract (args : dict) (w : World) :
  let reply := fst (update_task args w) in
  let w' := snd (update_task args w) in
  (reply !! "error" = None ->
   exists id old new,
     py_int (get args "task_id") = inr id
     /\ tasks w !! id = Some old
     /\ get args "user_id" = VStr (Task.user_id old)
     /\ tasks w' = <[id := new]> (tasks w)
     /\ reply = task_reply id new
     /\ UpdateSpec.same_but_text old new
     /\ Task.updated_at new = clock w (ticks w)
     /\ UpdateSpec.text_after (get args "title")
          (Task.title old) (Task.title new) (fun s => s)
     /\ UpdateSpec.text_after (get args "description")
          (Task.description old) (Task.description new) or_none)
  /\ (reply !! "error" <> None -> tasks w' = tasks w).
Proof.
  unfold update_task, mbind, M_bind. cbn [entered fst snd].
  match goal with
  | |- context [with_task ?what ?a ?k ?w0] =>
      destruct (with_task_outcome what a k w0)
        as [(m & c & ->) | (id & task & Hid & Hrow & Hu & ->)]
  end.
  { cbn [fst snd tasks]. split; [| reflexivity].
    intros H. exfalso. exact (error_reply_has_error _ _ H). }
  cbn [tasks] in Hrow. cbv zeta.
  unfold UpdateSpec.text_after, UpdateSpec.same_but_text.
  destruct (get args "title") as [| b | z | t | l | d] eqn:Ht;
    cbn [py_strip];
    try (unfold mret, M_ret; cbn [fst snd tasks]; split; [| reflexivity];
         intros H; exfalso; exact (error_reply_has_error _ _ H)).
  all: try (destruct (negb (PyStr.nonempty (PyStr.strip t)));
            [unfold mret, M_ret; cbn [fst snd tasks]; split; [| reflexivity];
             intros H; exfalso; exact (error_reply_has_error _ _ H) |];
            destruct (200 <? String.length (PyStr.strip t));
            [unfold mret, M_ret; cbn [fst snd tasks]; split; [| reflexivity];
             intros H; exfalso; exact (error_reply_has_error _ _ H) |]).
  all: destruct (get args "description") as [| b' | z' | s | l' | d'] eqn:Hd;
    cbn [py_strip];
    try (unfold mret, M_ret; cbn [fst snd tasks]; split; [| reflexivity];
         intros H; exfalso; exact (error_reply_has_error _ _ H)).
  all: try (destruct (or_none (PyStr.strip s)) as [d1 |] eqn:Ed;
            [destruct (2000 <? String.length d1);
             [unfold mret, M_ret; cbn [fst snd tasks]; split; [| reflexivity];
              intros H; exfalso; exact (error_reply_has_error _ _ H) |] |]).
  all: unfold mbind, M_bind, mret, M_ret;
    cbn [utcnow write_task fst snd tasks clock ticks];
    (split;
     [intros _; eexists id, task, _;
      repeat (split; [solve_field |]); solve_field
     | intros H; exfalso; apply H, task_reply_no_error]).
Qed.

Lemma update_task_contract_witness :
  let args : dict :=
    {[ "user_id" := VStr "bob"; "task_id" := VInt 2;
       "title" := VStr " Quarterly report " ]} in
  exists id old new,
    py_int (get args "task_id") = inr id
    /\ tasks Samples.world !! id = Some old
    /\ get args "user_id" = VStr (Task.user_id old)
    /\ tasks (snd (update_task args Samples.world))
       = <[id := new]> (tasks Samples.world)
    /\ fst (update_task args Samples.world) = task_reply id new
    /\ UpdateSpec.same_but_text old new
    /\ Task.updated_at new = clock Samples.world (ticks Samples.world)
    /\ UpdateSpec.text_after (get args "title")
         (Task.title old) (Task.title new) (fun s => s)
    /\ UpdateSpec.text_after (get args "description")
         (Task.description old) (Task.description new) or_none.
Proof.
  intros args.
  apply (proj1 (update_task_contract args Samples.world)).
  vm_compute. reflexivity.
Defined.

(** ** The agent and the tools together *)

Module AgentFlow.
Import PyStr IntentMapper TaskMCPServer TaskMCPDispatch AgentService.
Import Spec TaskSpec TextSpec.

(** The world after [process_message]: the world after the one tool
    call, made in the world with the decision logged, and one more log
    event; or, for a rejected message, the world with the decision
    logged. *)
Lemma process_message_world (container_str : pyval -> string)
      (user_id : string) (conversation_id : UUID)
      (messages : list Message.t) (user_input : string)
      (include_context : bool) (w : World) :
  let intent := fst (extract_intent user_input) in
  let confidence := snd (extract_intent user_input) in
  let w0 := logged (AgentDecision user_id conversation_id (value intent)
                                  confidence user_input) w in
  let w' := snd (process_message container_str user_id conversation_id
                                 messages user_input include_context w) in
  if low_confidence intent confidence then w' = w0
  else exists e,
      w' = logged e (snd (_invoke_tool (get_tool_name intent)
                            (_extract_parameters intent user_input user_id)
                            user_id conversation_id w0)).
Proof.
  destruct (extract_intent user_input) as [intent confidence] eqn:He.
  cbn [fst snd].
  destruct (low_confidence intent confidence) eqn:Hlow.
  - rewrite (process_message_rejected container_str user_id conversation_id
               messages user_input include_context w intent confidence
               He Hlow).
    reflexivity.
  - destruct (_invoke_tool (get_tool_name intent)
                (_extract_parameters intent user_input user_id)
                user_id conversation_id
                (logged (AgentDecision user_id conversation_id
                           (value intent) confidence user_input) w))
      as [[tool_result params] w1] eqn:Hinv.
    destruct (process_message_invoked container_str user_id conversation_id
                messages user_input include_context w intent confidence
                tool_result params w1 He Hlow Hinv) as [Herr Hok].
    destruct (truthy (get tool_result "error")) eqn:Ht.
    + rewrite (Herr eq_refl). eexists. reflexivity.
    + destruct (Hok eq_refl) as [response ->]. eexists. reflexivity.
Qed.

(** [_invoke_tool] leaves the world the dispatcher of the Task MCP
    leaves, called with the parameters and the user's id. *)
Lemma invoke_tool_world (tool_name : string) (params : dict)
      (user_id : string) (conversation_id : UUID) (w : World) :
  snd (_invoke_tool tool_name params user_id conversation_id w)
  = snd (call_tool tool_name (<["user_id" := VStr user_id]> params) w).
Proof.
  unfold _invoke_tool, call_tool.
  repeat match goal with
         | |- context [if String.eqb ?a ?b then _ else _] =>
             destruct (String.eqb a b)
         end;
    unfold mbind, M_bind;
    try match goal with
        | |- context [?tool (<["user_id" := _]> params) w] =>
            destruct (tool (<["user_id" := VStr user_id]> params) w)
              as [r w1]
        end;
    try destruct r; reflexivity.
Qed.

Lemma table_step_frame (user : pyval) (w1 w2 w1' w2' : World) :
  table_step user w1 w2 ->
  tasks w1' = tasks w1 -> task_seq w1' = task_seq w1 ->
  tasks w2' = tasks w2 -> task_seq w2' = task_seq w2 ->
  table_step user w1' w2'.
Proof.
  intros Hstep Ht1 Hs1 Ht2 Hs2.
  destruct Hstep as [Ht Hs | t Hfree Ht Hs Hu Hrow Hc
                    | id0 t t' Hrow Ht Hs Hu Hsame Hcr Hkeep
                    | id0 t Hrow Ht Hs Hu | Htaken Ht Hs].
  - apply step_none; rewrite ?Ht1, ?Hs1, ?Ht2, ?Hs2; assumption.
  - apply (step_insert _ _ _ t); rewrite ?Ht1, ?Hs1, ?Ht2, ?Hs2; assumption.
  - apply (step_rewrite _ _ _ id0 t t');
      rewrite ?Ht1, ?Hs1, ?Ht2, ?Hs2; assumption.
  - apply (step_delete _ _ _ id0 t);
      rewrite ?Ht1, ?Hs1, ?Ht2, ?Hs2; assumption.
  - apply step_taken; rewrite ?Ht1, ?Hs1, ?Ht2, ?Hs2; assumption.
Qed.

Lemma process_message_step (container_str : pyval -> string)
      (user_id : string) (conversation_id : UUID)
      (messages : list Message.t) (user_input : string)
      (include_context : bool) (w : World) :
  table_step (VStr user_id) w
    (snd (process_message container_str user_id conversation_id messages
                          user_input include_context w)).
Proof.
  pose proof (process_message_world container_str user_id conversation_id
                messages user_input include_context w) as H.
  cbv zeta in H.
  destruct (low_confidence _ _).
  - rewrite H. apply step_none; reflexivity.
  - destruct H as [e ->]. rewrite invoke_tool_world.
    match goal with
    | |- context [call_tool ?n ?a ?w0] =>
        pose proof (call_tool_step n a w0) as Hstep
    end.
    unfold get in Hstep at 1. rewrite lookup_insert_eq in Hstep.
    eapply table_step_frame; [exact Hstep | reflexivity ..].
Qed.

(** The parameters always carry the user's id. *)
Lemma extract_parameters_user (intent : Intent) (user_input user_id : string) :
  _extract_parameters intent user_input user_id !! "user_id"
  = Some (VStr user_id).
Proof.
  assert (Hfb : forall kws (params : dict),
             params !! "user_id" = Some (VStr user_id) ->
             add_fallback kws user_input params !! "user_id"
             = Some (VStr user_id)).
  { induction kws as [| k kws IH]; intros params Hp; cbn [add_fallback].
    - rewrite lookup_insert_ne by discriminate. exact Hp.
    - destruct (negb _); [| apply IH; exact Hp].
      destruct (nonempty _).
      + rewrite lookup_insert_ne by discriminate. exact Hp.
      + apply IH. rewrite lookup_insert_ne by discriminate. exact Hp. }
  unfold _extract_parameters, with_task_id.
  destruct intent;
    repeat match goal with
           | |- context [match ?x with Some _ => _ | None => _ end] =>
               destruct x
           end;
    try (apply Hfb);
    repeat rewrite lookup_insert_ne by discriminate;
    apply lookup_singleton_eq.
Qed.

End AgentFlow.

Import AgentFlow.

(** X13.  Whatever the message, one run of [process_message] for a user
    leaves every task of every other user as it was, creates none for
    them, changes at most one row of the table, and keeps a well-formed
    table well formed. *)
Theorem process_message_touches_one_task_of_the_user
        (container_str : pyval -> string)
        (user_id : string) (conversation_id : UUID)
        (messages : list Message.t) (user_input : string)
        (include_context : bool) (w : World) :
  let w' := snd (process_message container_str user_id conversation_id
                                 messages user_input include_context w) in
  (forall id other,
      Task.user_id other <> user_id ->
      (tasks w !! id = Some other <-> tasks w' !! id = Some other))
  /\ (forall id1 id2,
         tasks w' !! id1 <> tasks w !! id1 ->
         tasks w' !! id2 <> tasks w !! id2 ->
         id1 = id2)
  /\ (table_ok w -> table_ok w').
Proof.
  intros w'.
  pose proof (process_message_step container_str user_id conversation_id
                messages user_input include_context w) as Hstep.
  split; [| split].
  - intros id other Hother.
    apply (table_step_isolated _ _ _ Hstep). congruence.
  - apply (table_step_one_row _ _ _ Hstep).
  - apply (table_step_ok _ _ _ Hstep).
Qed.

Lemma process_message_touches_one_task_of_the_user_witness :
  tasks (snd (process_message Samples.plain "alice" "c-1" [] "delete task 2"
                              true Samples.world)) !! 2%Z
  = Some Samples.report.
Proof.
  apply (proj1 (process_message_touches_one_task_of_the_user
                  Samples.plain "alice" "c-1" [] "delete task 2" true
                  Samples.world) 2%Z Samples.report).
  - vm_compute. discriminate.
  - vm_compute. reflexivity.
Defined.

Module ServedFacts.
Import IntentMapper TaskMCPServer AgentService Spec FlowSpec.

Lemma keeps_served_ret {A : Type} (a : A) : keeps_served (mret a).
Proof. intros w. reflexivity. Qed.

Lemma keeps_served_bind {A B : Type} (m : M A) (f : A -> M B) :
  keeps_served m -> (forall a, keeps_served (f a)) ->
  keeps_served (mbind f m).
Proof.
  intros Hm Hf w. unfold mbind, M_bind.
  specialize (Hm w). destruct (m w) as [a w']. simpl in Hm.
  rewrite Hf. exact Hm.
Qed.

Lemma keeps_served_utcnow : keeps_served utcnow.
Proof. intros w. reflexivity. Qed.

Lemma keeps_served_read_tasks : keeps_served read_tasks.
Proof. intros w. reflexivity. Qed.

Lemma keeps_served_write_task (id : Z) (task : Task.t) :
  keeps_served (write_task id task).
Proof. intros w. reflexivity. Qed.

Lemma keeps_served_remove_task (id : Z) : keeps_served (remove_task id).
Proof. intros w. reflexivity. Qed.

Lemma keeps_served_next_task_id : keeps_served next_task_id.
Proof. intros w. reflexivity. Qed.

Create HintDb served.
#[export] Hint Resolve keeps_served_ret keeps_served_utcnow
  keeps_served_read_tasks keeps_served_write_task keeps_served_remove_task
  keeps_served_next_task_id : served.

Lemma keeps_served_with_task (what : string) (args : dict)
      (k : Z -> Task.t -> M dict) :
  (forall id task, keeps_served (k id task)) ->
  keeps_served (with_task what args k).
Proof.
  intros Hk. unfold with_task.
  destruct (py_int _) as [[]|id]; try apply keeps_served_ret.
  apply keeps_served_bind; [apply keeps_served_read_tasks | intros table].
  destruct (select_task _ _ _); [apply Hk | apply keeps_served_ret].
Qed.

Ltac served_frame :=
  repeat first
    [ progress auto with served
    | progress cbv beta zeta
    | apply keeps_served_bind; [| intros ?]
    | apply keeps_served_with_task; intros ? ?
    | match goal with
      | |- keeps_served (match ?x with _ => _ end) => destruct x
      | |- keeps_served (if ?b then _ else _) => destruct b
      | |- keeps_served (let '(_, _) := ?p in _) => destruct p
      end ].

(** A tool is entered once, at its beginning. *)
Lemma served_after_entered {A : Type} (tool : string) (args : dict)
      (rest : M A) (w : World) :
  keeps_served rest ->
  served (snd ((_ ← entered tool args; rest) w))
  = served w ++ [(tool, args)].
Proof.
  intros Hrest. unfold mbind, M_bind. cbn [entered fst snd].
  rewrite Hrest. reflexivity.
Qed.

Lemma add_task_served (args : dict) (w : World) :
  served (snd (add_task args w)) = served w ++ [("add_task", args)].
Proof. unfold add_task. apply served_after_entered. served_frame. Qed.

Lemma list_tasks_served (args : dict) (w : World) :
  served (snd (list_tasks args w)) = served w ++ [("list_tasks", args)].
Proof. unfold list_tasks. apply served_after_entered. served_frame. Qed.

Lemma get_task_served (args : dict) (w : World) :
  served (snd (get_task args w)) = served w ++ [("get_task", args)].
Proof. unfold get_task. apply served_after_entered. served_frame. Qed.

Lemma update_task_served (args : dict) (w : World) :
  served (snd (update_task args w)) = served w ++ [("update_task", args)].
Proof. unfold update_task. apply served_after_entered. served_frame. Qed.

Lemma delete_task_served (args : dict) (w : World) :
  served (snd (delete_task args w)) = served w ++ [("delete_task", args)].
Proof. unfold delete_task. apply served_after_entered. served_frame. Qed.

Lemma complete_task_served (args : dict) (w : World) :
  served (snd (complete_task args w))
  = served w ++ [("complete_task", args)].
Proof. unfold complete_task. apply served_after_entered. served_frame. Qed.

(** [_invoke_tool] enters the tool named by an intent other than
    UNKNOWN, once, with the parameters and the user's id. *)
Lemma invoke_tool_served (intent : Intent) (params : dict)
      (user_id : string) (conversation_id : UUID) (w : World) :
  intent <> UNKNOWN ->
  served (snd (_invoke_tool (get_tool_name intent) params user_id
                            conversation_id w))
  = served w
      ++ [(value intent, <["user_id" := VStr user_id]> params)].
Proof.
  intros Hi. unfold _invoke_tool, get_tool_name.
  destruct intent; try contradiction; cbn [value String.eqb Ascii.eqb
    Bool.eqb]; unfold mbind, M_bind.
  - rewrite <- add_task_served.
    destruct (add_task _ w) as [[e | r] w1]; reflexivity.
  - rewrite <- list_tasks_served.
    destruct (list_tasks _ w) as [r w1]; reflexivity.
  - rewrite <- get_task_served.
    destruct (get_task _ w) as [r w1]; reflexivity.
  - rewrite <- update_task_served.
    destruct (update_task _ w) as [r w1]; reflexivity.
  - rewrite <- delete_task_served.
    destruct (delete_task _ w) as [r w1]; reflexivity.
  - rewrite <- complete_task_served.
    destruct (complete_task _ w) as [r w1]; reflexivity.
Qed.

End ServedFacts.

(** X14.  For a message that is not rejected, [process_message] enters
    exactly one tool of the Task MCP: the one named by the intent, with
    exactly the extracted parameters, in which [user_id] is the user of
    the request. *)
Theorem process_message_calls_the_tool_of_the_intent
        (container_str : pyval -> string)
        (user_id : string) (conversation_id : UUID)
        (messages : list Message.t) (user_input : string)
        (include_context : bool) (w : World) :
  let intent := fst (extract_intent user_input) in
  let confidence := snd (extract_intent user_input) in
  let params := _extract_parameters intent user_input user_id in
  low_confidence intent confidence = false ->
  served (snd (process_message container_str user_id conversation_id
                               messages user_input include_context w))
  = served w ++ [(value intent, params)]
  /\ params !! "user_id" = Some (VStr user_id).
Proof.
  intros intent confidence params Hlow.
  pose proof (process_message_world container_str user_id conversation_id
                messages user_input include_context w) as H.
  cbv zeta in H. fold intent confidence in H. rewrite Hlow in H.
  destruct H as [e ->].
  assert (Hu : params !! "user_id" = Some (VStr user_id))
    by apply extract_parameters_user.
  split; [| exact Hu].
  change (served (Spec.logged e ?x)) with (served x).
  rewrite ServedFacts.invoke_tool_served.
  - fold params. rewrite (insert_id params _ _ Hu). reflexivity.
  - intros Hi. unfold low_confidence in Hlow. rewrite Hi in Hlow.
    discriminate Hlow.
Qed.

Lemma process_message_calls_the_tool_of_the_intent_witness :
  served (snd (process_message Samples.plain "alice" "c-1" []
                               "delete task 2" true Samples.world))
  = [("delete_task",
      {[ "task_id" := VStr "2"; "user_id" := VStr "alice" ]})].
Proof.
  apply (proj1 (process_message_calls_the_tool_of_the_intent
                  Samples.plain "alice" "c-1" [] "delete task 2" true
                  Samples.world ltac:(vm_compute; reflexivity))).
Defined.

Module TaskIdFacts.
Import PyStr IntentMapper TaskMCPServer AgentService TextSpec IdFacts.

(** The ADD fallback sets no [task_id]. *)
Lemma add_fallback_no_task_id (kws : list string) (user_input : string)
      (params : dict) :
  params !! "task_id" = None ->
  add_fallback kws user_input params !! "task_id" = None.
Proof.
  revert params.
  induction kws as [| k kws IH]; intros params Hp; cbn [add_fallback].
  - rewrite lookup_insert_ne by discriminate. exact Hp.
  - destruct (negb _); [| apply IH; exact Hp].
    destruct (nonempty _).
    + rewrite lookup_insert_ne by discriminate. exact Hp.
    + apply IH. rewrite lookup_insert_ne by discriminate. exact Hp.
Qed.

(** An extracted [task_id] is a non-empty string of decimal digits. *)
Lemma extracted_task_id (intent : Intent) (user_input user_id : string) :
  match _extract_parameters intent user_input user_id !! "task_id" with
  | Some v =>
      exists ds,
        v = VStr ds /\ ds <> EmptyString /\ all_chars is_digit ds = true
  | None => True
  end.
Proof.
  pose proof (leading_digits_spec user_input) as Hspec.
  unfold _extract_parameters.
  destruct intent; try rewrite with_task_id_spec.
  - destruct (first_match _ _).
    + rewrite lookup_insert_ne by discriminate.
      rewrite lookup_singleton_ne by discriminate. exact I.
    + rewrite add_fallback_no_task_id; [exact I |].
      apply lookup_singleton_ne. discriminate.
  - rewrite lookup_insert_ne by discriminate.
    rewrite lookup_singleton_ne by discriminate. exact I.
  - destruct (leading_digits user_input) as [ds|].
    + rewrite lookup_insert_eq.
      destruct Hspec as (pre & rest & _ & _ & Hne & Hall & _). eauto.
    + rewrite lookup_singleton_ne by discriminate. exact I.
  - destruct (Re.search update_pattern user_input false) as [m|] eqn:E.
    + rewrite lookup_insert_ne by discriminate. rewrite lookup_insert_eq.
      destruct (update_pattern_id _ _ E) as [Hne Hall]. eauto.
    + rewrite lookup_singleton_ne by discriminate. exact I.
  - destruct (leading_digits user_input) as [ds|].
    + rewrite lookup_insert_eq.
      destruct Hspec as (pre & rest & _ & _ & Hne & Hall & _). eauto.
    + rewrite lookup_singleton_ne by discriminate. exact I.
  - rewrite lookup_insert_ne by discriminate.
    destruct (leading_digits user_input) as [ds|].
    + rewrite lookup_insert_eq.
      destruct Hspec as (pre & rest & _ & _ & Hne & Hall & _). eauto.
    + rewrite lookup_singleton_ne by discriminate. exact I.
  - rewrite lookup_singleton_ne by discriminate. exact I.
Qed.

End TaskIdFacts.

(** X15.  With the parameters the agent extracts, whatever the intent
    and the message, a tool that works on one task replies 500 with the
    [TypeError] of [int(None)] when no [task_id] was extracted, and
    "Invalid task ID format" (400) when the extracted [task_id], a
    non-empty string of decimal digits, has more than 4300 of them.
    Otherwise [int] reads it as a number that is not negative, and for a
    number the integer column of the table holds, one up to
    2147483647, the tool reaches its body with the task of the user
    under that number, or replies "Task not found" (404) when the user
    has no task there. *)
Theorem extracted_task_id_outcomes
        (intent : Intent) (user_input user_id what : string)
        (k : Z -> Task.t -> M dict) (w : World) :
  let params := _extract_parameters intent user_input user_id in
  let run := TaskMCPServer.with_task what params k w in
  match params !! "task_id" with
  | None =>
      run
      = (TaskMCPServer.error_reply
           ("Failed to " ++ what
            ++ " task: int() argument must be a string, a bytes-like object or a real number, not 'NoneType'")
           500, w)
  | Some v =>
      exists ds,
        v = VStr ds /\ ds <> EmptyString
        /\ TextSpec.all_chars PyStr.is_digit ds = true
        /\ ((4300 < Z.of_nat (String.length ds))%Z ->
            run = (TaskMCPServer.error_reply "Invalid task ID format" 400, w))
        /\ ((Z.of_nat (String.length ds) <= 4300)%Z ->
            exists id,
              py_int (VStr ds) = inr id /\ (0 <= id)%Z
              /\ ((id <= 2147483647)%Z ->
                  (exists task,
                      tasks w !! id = Some task
                      /\ Task.user_id task = user_id
                      /\ run = k id task w)
                  \/ ((forall task, tasks w !! id = Some task ->
                                    Task.user_id task <> user_id)
                      /\ run
                         = (TaskMCPServer.error_reply "Task not found" 404,
                            w))))
  end.
Proof.
  intros params run. subst run.
  pose proof (TaskIdFacts.extracted_task_id intent user_input user_id) as Hid.
  pose proof (extract_parameters_user intent user_input user_id) as Hu.
  fold params in Hid, Hu.
  unfold TaskMCPServer.with_task, get. rewrite Hu.
  destruct (params !! "task_id") as [v|] eqn:Hv; [| reflexivity].
  destruct Hid as (ds & -> & Hne & Hall).
  exists ds. split; [reflexivity |]. split; [exact Hne |].
  split; [exact Hall |].
  destruct (IdFacts.int_of_digits ds Hne Hall) as [Hshort Hlong].
  split.
  - intros Hlen. destruct (Hlong Hlen) as [text ->]. reflexivity.
  - intros Hlen. destruct (Hshort Hlen) as (id & -> & Hpos).
    exists id. split; [reflexivity |]. split; [exact Hpos |]. intros _.
    unfold mbind, M_bind, read_tasks, TaskMCPServer.select_task.
    cbn [fst snd TaskMCPServer.owned_by].
    destruct (tasks w !! id) as [task|] eqn:Hrow.
    + destruct (String.eqb (Task.user_id task) user_id) eqn:Hown.
      * apply String.eqb_eq in Hown. left. exists task. auto.
      * apply String.eqb_neq in Hown. right.
        split; [| reflexivity]. intros t [= <-]. exact Hown.
    + right. split; [| reflexivity]. intros t Ht. discriminate Ht.
Qed.

(** A number of 4301 digits: the tool replies 400 and the request is
    answered with the fallback text. *)
Example long_task_id_is_refused :
  fst (TaskMCPServer.delete_task
         (_extract_parameters DELETE Samples.long_request "bob")
         Samples.world)
  = TaskMCPServer.error_reply "Invalid task ID format" 400
  /\ fst (process_message Samples.plain "bob" "c-1" [] Samples.long_request
                          true Samples.world)
     = inr (get_fallback_response DELETE, []).
Proof. split; vm_compute; reflexivity. Qed.

Module NoIdFacts.
Import IntentMapper TaskMCPServer AgentService.

(** Without a [task_id] the opening of a tool replies the 500 of the
    [TypeError] that [int(None)] raises. *)
Lemma with_task_no_id (what : string) (params : dict)
      (k : Z -> Task.t -> M dict) (w : World) :
  params !! "task_id" = None ->
  exists message,
    with_task what params k w = (error_reply message 500, w)
    /\ message <> EmptyString.
Proof.
  intros Hp. unfold with_task, get. rewrite Hp. cbn [py_int].
  eexists. split; [reflexivity | discriminate].
Qed.

Lemma invoke_tool_no_id (intent : Intent) (params : dict)
      (user_id : string) (conversation_id : UUID) (w : World) :
  intent = GET \/ intent = UPDATE \/ intent = DELETE \/ intent = COMPLETE ->
  params !! "task_id" = None ->
  exists message params' w1,
    _invoke_tool (get_tool_name intent) params user_id conversation_id w
    = ((error_reply message 500, params'), w1)
    /\ message <> EmptyString
    /\ tasks w1 = tasks w /\ task_seq w1 = task_seq w.
Proof.
  intros Hi Hp.
  assert (Hp' : <["user_id" := VStr user_id]> params !! "task_id" = None)
    by (rewrite lookup_insert_ne by discriminate; exact Hp).
  unfold _invoke_tool, get_tool_name.
  destruct Hi as [-> | [-> | [-> | ->]]];
    cbn [value String.eqb Ascii.eqb Bool.eqb];
    unfold get_task, update_task, delete_task, complete_task;
    unfold mbind at 1 2; unfold M_bind at 1 2; cbn [entered fst snd];
    match goal with
    | |- context [with_task ?what ?a ?k ?w0] =>
        destruct (with_task_no_id what a k w0 Hp') as (message & -> & Hne)
    end;
    exists message; eexists _, _;
    (split; [reflexivity | split; [exact Hne | split; reflexivity]]).
Qed.

End NoIdFacts.

(** X16.  When a message is read as GET, UPDATE, DELETE or COMPLETE but
    yields no [task_id], [process_message] answers the fallback text of
    the intent with no tool call recorded, and the tasks table is as it
    was. *)
Theorem request_without_task_id_falls_back
        (container_str : pyval -> string)
        (user_id : string) (conversation_id : UUID)
        (messages : list Message.t) (user_input : string)
        (include_context : bool) (w : World) :
  let intent := fst (extract_intent user_input) in
  let confidence := snd (extract_intent user_input) in
  let outcome :=
    process_message container_str user_id conversation_id messages
                    user_input include_context w in
  low_confidence intent confidence = false ->
  intent = GET \/ intent = UPDATE \/ intent = DELETE \/ intent = COMPLETE ->
  _extract_parameters intent user_input user_id !! "task_id" = None ->
  fst outcome = inr (get_fallback_response intent, [])
  /\ tasks (snd outcome) = tasks w
  /\ task_seq (snd outcome) = task_seq w.
Proof.
  intros intent confidence outcome Hlow Hi Hp. subst outcome.
  destruct (NoIdFacts.invoke_tool_no_id intent
              (_extract_parameters intent user_input user_id)
              user_id conversation_id
              (Spec.logged (AgentDecision user_id conversation_id
                              (value intent) confidence user_input) w)
              Hi Hp)
    as (message & params' & w1 & Hinv & Hne & Ht & Hs).
  destruct (process_message_invoked container_str user_id conversation_id
              messages user_input include_context w intent confidence
              _ params' w1 (surjective_pairing _) Hlow Hinv) as [Herr _].
  rewrite Herr.
  - cbn [fst snd]. split; [reflexivity |].
    unfold Spec.logged. cbn [emit snd tasks task_seq].
    rewrite Ht, Hs. split; reflexivity.
  - unfold get, TaskMCPServer.error_reply.
    rewrite lookup_insert_eq. cbn [truthy].
    destruct message; [contradiction | reflexivity].
Qed.

Lemma request_without_task_id_falls_back_witness :
  fst (process_message Samples.plain "alice" "c-1" [] "delete my task" true
                       Samples.world)
  = inr (get_fallback_response DELETE, []).
Proof.
  apply (request_without_task_id_falls_back
           Samples.plain "alice" "c-1" [] "delete my task" true
           Samples.world).
  - vm_compute. reflexivity.
  - right. right. left. vm_compute. reflexivity.
  - vm_compute. reflexivity.
Defined.

(** ** Requests from the message to the answer *)

Module RequestFacts.
Import PyStr IntentMapper TaskMCPServer AgentService Spec TaskSpec.
Import IntentFacts AgentFacts AddTaskFacts OneTaskFacts.

(** A known intent passes the guard of the rejection branch. *)
Lemma known_not_low (user_input : string) :
  fst (extract_intent user_input) <> UNKNOWN ->
  low_confidence (fst (extract_intent user_input))
                 (snd (extract_intent user_input)) = false.
Proof.
  destruct (extract_intent_cases user_input)
    as [(i & _ & ->) | [(i & _ & _ & ->) | (_ & _ & ->)]];
    cbn [fst snd]; intros Hi; [| | contradiction];
    unfold low_confidence; destruct i; try contradiction; reflexivity.
Qed.

(** The outcome of [process_message] when the tool reports no error and
    the template of the intent renders. *)
Lemma process_message_answer (container_str : pyval -> string)
      (user_id : string) (conversation_id : UUID)
      (messages : list Message.t) (user_input : string)
      (include_context : bool) (w : World) (intent : Intent)
      (tool_result params : dict) (w1 : World) (response : string) :
  fst (extract_intent user_input) = intent ->
  intent <> UNKNOWN ->
  _invoke_tool (get_tool_name intent)
               (_extract_parameters intent user_input user_id)
               user_id conversation_id
               (logged (AgentDecision user_id conversation_id (value intent)
                          (snd (extract_intent user_input)) user_input) w)
  = ((tool_result, params), w1) ->
  tool_result !! "error" = None ->
  (forall user_context,
      _generate_response container_str intent tool_result user_input
                         user_context = inr response) ->
  fst (process_message container_str user_id conversation_id messages
                       user_input include_context w)
  = inr (response, [invocation_record (value intent) params tool_result])
  /\ tasks (snd (process_message container_str user_id conversation_id
                                 messages user_input include_context w))
     = tasks w1.
Proof.
  intros He Hi Hinv Herr Hgen.
  pose proof (known_not_low user_input) as Hlow.
  rewrite He in Hlow. specialize (Hlow Hi).
  destruct (extract_intent user_input) as [i confidence] eqn:Hei.
  cbn [fst snd] in *. subst i.
  unfold process_message. rewrite Hei.
  unfold mbind, M_bind. simpl. rewrite Hlow.
  unfold logged in Hinv. simpl in Hinv. rewrite Hinv.
  assert (Hno : truthy (get tool_result "error") = false)
    by (unfold get; rewrite Herr; reflexivity).
  rewrite Hno, Hgen. split; reflexivity.
Qed.

(** What makes arguments acceptable to [add_task] determines the row. *)
Lemma new_task_args_unique (args : dict) (o1 o2 t1 t2 : string)
      (d1 d2 : option string) :
  new_task_args args o1 t1 d1 -> new_task_args args o2 t2 d2 ->
  o1 = o2 /\ t1 = t2 /\ d1 = d2.
Proof.
  intros (s & d & Hu & Ht & -> & _ & _ & Hd & -> & _)
         (s' & d' & Hu' & Ht' & -> & _ & _ & Hd' & -> & _).
  assert (o1 = o2) by congruence.
  assert (s' = s) by congruence. assert (d' = d) by congruence.
  subst. auto.
Qed.

End RequestFacts.

(** X17.  A message read as ADD whose extracted title has at most 200
    characters creates, in a well-formed table, one task of the user
    under the next id, with that title, no description and not
    completed; the answer names the title and the one recorded tool call
    carries the parameters and the stored row. *)
Theorem add_request_creates_the_task
        (container_str : pyval -> string)
        (user_id : string) (conversation_id : UUID)
        (messages : list Message.t) (user_input : string)
        (include_context : bool) (w : World) (title : string) :
  let outcome :=
    process_message container_str user_id conversation_id messages
                    user_input include_context w in
  let params := _extract_parameters ADD user_input user_id in
  let id := (task_seq w + 1)%Z in
  let task :=
    Task.mk user_id title None false None None
            (clock w (ticks w)) (clock w (S (ticks w))) in
  fst (extract_intent user_input) = ADD ->
  table_ok w ->
  params !! "title" = Some (VStr title) ->
  String.length title <= 200 ->
  fst outcome
  = inr ((mark_created ++ " Created task: " ++ title)%string,
         [invocation_record "add_task" params (task_reply id task)])
  /\ tasks (snd outcome) = <[id := task]> (tasks w).
Proof.
  intros outcome params id task He Hok Htitle Hlen. subst outcome.
  destruct (add_parameters user_input user_id) as (t & Hp & Hne & Hstrip).
  fold params in Hp.
  assert (t = title).
  { rewrite Hp, lookup_insert_eq in Htitle. congruence. }
  subst t.
  assert (Hargs : new_task_args params user_id title None).
  { exists title, EmptyString. rewrite Hp. unfold get, get_default.
    rewrite lookup_insert_ne by discriminate.
    rewrite lookup_singleton_eq, lookup_insert_eq.
    rewrite lookup_insert_ne by discriminate.
    rewrite lookup_singleton_ne by discriminate.
    repeat split; auto. cbn. lia. }
  set (w0 := Spec.logged (AgentDecision user_id conversation_id (value ADD)
                            (snd (extract_intent user_input)) user_input) w).
  assert (Hfree : tasks w0 !! (task_seq w0 + 1)%Z = None)
    by exact (table_ok_next_free w Hok).
  destruct (add_task_cases params w0 Hfree)
    as [(o & t & d & Hargs' & Hr & Ht & _) | (Hnot & _)];
    [| exfalso; exact (Hnot _ _ _ Hargs)].
  destruct (RequestFacts.new_task_args_unique _ _ _ _ _ _ _ Hargs' Hargs)
    as (-> & -> & ->).
  assert (Hr' : fst (add_task params w0) = inr (task_reply id task))
    by exact Hr.
  assert (Ht' : tasks (snd (add_task params w0)) = <[id := task]> (tasks w))
    by exact Ht.
  clear Hr Ht.
  assert (Hinv : _invoke_tool (get_tool_name ADD) params user_id
                              conversation_id w0
                 = ((task_reply id task, params), snd (add_task params w0))).
  { unfold _invoke_tool, get_tool_name.
    cbn [value String.eqb Ascii.eqb Bool.eqb].
    rewrite (insert_id params _ _
               (extract_parameters_user ADD user_input user_id)).
    unfold mbind, M_bind.
    destruct (add_task params w0) as [r w1]. cbn [fst snd] in Hr'.
    subst r. reflexivity. }
  destruct (RequestFacts.process_message_answer container_str user_id
              conversation_id messages user_input include_context w ADD
              (task_reply id task) params _
              (mark_created ++ " Created task: " ++ title)%string
              He ltac:(discriminate) Hinv (task_reply_no_error _ _))
    as [Hout Hw].
  - intros ctx. unfold _generate_response, get_default, task_reply.
    rewrite lookup_insert_ne by discriminate.
    rewrite lookup_insert_ne by discriminate.
    rewrite lookup_insert_eq. reflexivity.
  - split; [exact Hout | rewrite Hw; exact Ht'].
Qed.

Lemma add_request_creates_the_task_witness :
  tasks (snd (process_message Samples.plain "alice" "c-1" [] "add buy milk"
                              true Samples.world))
  = <[3%Z := Task.mk "alice" "buy milk" None false None None 1000%Z 1001%Z]>
      (tasks Samples.world).
Proof.
  apply (proj2 (add_request_creates_the_task
                  Samples.plain "alice" "c-1" [] "add buy milk" true
                  Samples.world "buy milk"
                  ltac:(vm_compute; reflexivity) samples_world_ok
                  ltac:(vm_compute; reflexivity)
                  ltac:(vm_compute; lia))).
Defined.

Module OneTaskRequests.
Import PyStr IntentMapper TaskMCPServer AgentService Spec OneTaskFacts.

(** A tool that is given the id of a task of the user runs its body on
    that task. *)
Lemma tool_on_task (tool what : string) (params : dict)
      (k : Z -> Task.t -> M dict) (w : World) (id : Z) (task : Task.t) :
  py_int (get params "task_id") = inr id ->
  tasks w !! id = Some task ->
  params !! "user_id" = Some (VStr (Task.user_id task)) ->
  (_ ← entered tool params; with_task what params k) w
  = k id task (FlowSpec.entering tool params w).
Proof.
  intros Hid Hrow Hu. unfold mbind, M_bind. cbn [entered fst snd].
  apply with_task_found; [exact Hid | exact Hrow |].
  unfold get. rewrite Hu. reflexivity.
Qed.

End OneTaskRequests.

(** X18.  A message read as DELETE that names a task of the user removes
    that row and no other.  The answer is "Deleted task None.", whatever
    the id: the template reads the entry "id" of the reply, and the
    reply of [delete_task] has "task_id" instead. *)
Theorem delete_request_removes_the_task
        (container_str : pyval -> string)
        (user_id : string) (conversation_id : UUID)
        (messages : list Message.t) (user_input : string)
        (include_context : bool) (w : World) (id : Z) (task : Task.t) :
  let outcome :=
    process_message container_str user_id conversation_id messages
                    user_input include_context w in
  let params := _extract_parameters DELETE user_input user_id in
  fst (extract_intent user_input) = DELETE ->
  py_int (get params "task_id") = inr id ->
  tasks w !! id = Some task ->
  Task.user_id task = user_id ->
  fst outcome
  = inr ((mark_deleted ++ " Deleted task None.")%string,
         [invocation_record "delete_task" params
            {[ "success" := VBool true;
               "message" := VStr "Task deleted successfully";
               "task_id" := get params "task_id" ]}])
  /\ tasks (snd outcome) = delete id (tasks w).
Proof.
  intros outcome params He Hid Hrow Hown. subst outcome.
  pose proof (extract_parameters_user DELETE user_input user_id) as Hu.
  fold params in Hu.
  set (w0 := Spec.logged (AgentDecision user_id conversation_id
                            (value DELETE)
                            (snd (extract_intent user_input)) user_input) w).
  assert (Hinv : _invoke_tool (get_tool_name DELETE) params user_id
                              conversation_id w0
                 = (({[ "success" := VBool true;
                        "message" := VStr "Task deleted successfully";
                        "task_id" := get params "task_id" ]}, params),
                    snd (remove_task id
                           (FlowSpec.entering "delete_task" params
                                                     w0)))).
  { unfold _invoke_tool, get_tool_name.
    cbn [value String.eqb Ascii.eqb Bool.eqb].
    rewrite (insert_id params _ _ Hu).
    unfold mbind at 1, M_bind at 1. unfold delete_task. cbv zeta.
    rewrite (OneTaskRequests.tool_on_task _ _ _ _ w0 id task Hid Hrow);
      [reflexivity | rewrite Hown; exact Hu]. }
  destruct (RequestFacts.process_message_answer container_str user_id
              conversation_id messages user_input include_context w DELETE
              _ params _ (mark_deleted ++ " Deleted task None.")%string
              He ltac:(discriminate) Hinv)
    as [Hout Hw].
  - repeat rewrite lookup_insert_ne by discriminate.
    apply lookup_singleton_ne. discriminate.
  - intros ctx. unfold _generate_response, get.
    repeat rewrite lookup_insert_ne by discriminate.
    rewrite lookup_singleton_ne by discriminate. reflexivity.
  - split; [exact Hout | rewrite Hw; reflexivity].
Qed.

Lemma delete_request_removes_the_task_witness :
  tasks (snd (process_message Samples.plain "bob" "c-1" [] "delete task 2"
                              true Samples.world))
  = delete 2%Z (tasks Samples.world).
Proof.
  apply (proj2 (delete_request_removes_the_task
                  Samples.plain "bob" "c-1" [] "delete task 2" true
                  Samples.world 2%Z Samples.report
                  ltac:(vm_compute; reflexivity)
                  ltac:(vm_compute; reflexivity)
                  ltac:(vm_compute; reflexivity)
                  ltac:(vm_compute; reflexivity))).
Defined.

(** X19.  A message read as COMPLETE that names a task of the user
    stores that row with [is_completed] true, or false when the message
    contains "uncomplete", and with the time of the call as
    [updated_at].  The answer says "Marked task <id> as done." in both
    cases. *)
Theorem complete_request_sets_the_flag
        (container_str : pyval -> string)
        (user_id : string) (conversation_id : UUID)
        (messages : list Message.t) (user_input : string)
        (include_context : bool) (w : World) (id : Z) (task : Task.t) :
  let outcome :=
    process_message container_str user_id conversation_id messages
                    user_input include_context w in
  let params := _extract_parameters COMPLETE user_input user_id in
  let flag := negb (PyStr.contains "uncomplete" (PyStr.lower user_input)) in
  let task' :=
    Task.mk (Task.user_id task) (Task.title task) (Task.description task)
            flag (Task.priority task) (Task.due_date task)
            (Task.created_at task) (clock w (ticks w)) in
  fst (extract_intent user_input) = COMPLETE ->
  py_int (get params "task_id") = inr id ->
  tasks w !! id = Some task ->
  Task.user_id task = user_id ->
  fst outcome
  = inr ((mark_created ++ " Marked task " ++ str_of_Z id ++ " as done.")%string,
         [invocation_record "complete_task" params
            (TaskMCPServer.task_reply id task')])
  /\ tasks (snd outcome) = <[id := task']> (tasks w).
Proof.
  intros outcome params flag task' He Hid Hrow Hown. subst outcome.
  pose proof (extract_parameters_user COMPLETE user_input user_id) as Hu.
  fold params in Hu.
  assert (Hflag : get_default params "completed" (VBool true) = VBool flag).
  { unfold get_default, params, _extract_parameters.
    rewrite lookup_insert_eq. reflexivity. }
  set (w0 := Spec.logged (AgentDecision user_id conversation_id
                            (value COMPLETE)
                            (snd (extract_intent user_input)) user_input) w).
  assert (Hinv : _invoke_tool (get_tool_name COMPLETE) params user_id
                              conversation_id w0
                 = ((TaskMCPServer.task_reply id task', params),
                    snd (write_task id task'
                           (snd (utcnow
                                   (FlowSpec.entering
                                      "complete_task" params w0)))))).
  { unfold _invoke_tool, get_tool_name.
    cbn [value String.eqb Ascii.eqb Bool.eqb].
    rewrite (insert_id params _ _ Hu).
    unfold mbind at 1, M_bind at 1. unfold TaskMCPServer.complete_task.
    cbv zeta.
    rewrite (OneTaskRequests.tool_on_task _ _ _ _ w0 id task Hid Hrow);
      [| rewrite Hown; exact Hu].
    rewrite Hflag. reflexivity. }
  destruct (RequestFacts.process_message_answer container_str user_id
              conversation_id messages user_input include_context w COMPLETE
              _ params _
              (mark_created ++ " Marked task " ++ str_of_Z id
               ++ " as done.")%string
              He ltac:(discriminate) Hinv
              (AddTaskFacts.task_reply_no_error _ _))
    as [Hout Hw].
  - intros ctx. unfold _generate_response, get, TaskMCPServer.task_reply.
    rewrite lookup_insert_eq. reflexivity.
  - split; [exact Hout | rewrite Hw; reflexivity].
Qed.

Lemma complete_request_sets_the_flag_witness :
  tasks (snd (process_message Samples.plain "bob" "c-1" []
                              "uncomplete task 2" true Samples.world))
  = <[2%Z := Task.mk "bob" "write report" (Some "quarterly") false
                     (Some "high") None 200%Z 1000%Z]>
      (tasks Samples.world).
Proof.
  apply (proj2 (complete_request_sets_the_flag
                  Samples.plain "bob" "c-1" [] "uncomplete task 2" true
                  Samples.world 2%Z Samples.report
                  ltac:(vm_compute; reflexivity)
                  ltac:(vm_compute; reflexivity)
                  ltac:(vm_compute; reflexivity)
                  ltac:(vm_compute; reflexivity))).
Defined.

Module ListRequests.
Import PyStr IntentMapper TaskMCPServer AgentService Spec ListSpec.

Lemma task_reply_title (id : Z) (task : Task.t) :
  task_reply id task !! "title" = Some (VStr (Task.title task)).
Proof.
  unfold task_reply. repeat rewrite lookup_insert_ne by discriminate.
  apply lookup_insert_eq.
Qed.

Lemma task_reply_is_completed (id : Z) (task : Task.t) :
  task_reply id task !! "is_completed"
  = Some (VBool (Task.is_completed task)).
Proof.
  unfold task_reply. repeat rewrite lookup_insert_ne by discriminate.
  apply lookup_insert_eq.
Qed.

(** The lines of the rows of a listing. *)
Lemma task_lines_of_rows (container_str : pyval -> string)
      (rows : list (Z * Task.t)) :
  task_lines container_str
    (List.map (fun r : Z * Task.t => VDict (task_reply (fst r) (snd r)))
              rows)
  = inr (List.map line_of rows).
Proof.
  induction rows as [| [id task] rows IH]; [reflexivity |].
  cbn [List.map task_lines]. rewrite IH.
  unfold task_line, line_of. cbn [fst snd].
  rewrite AddTaskFacts.task_reply_id. unfold get.
  rewrite task_reply_title, task_reply_is_completed.
  reflexivity.
Qed.

Lemma generate_listing (container_str : pyval -> string)
      (rows : list (Z * Task.t)) (user_input : string) (user_context : dict) :
  _generate_response container_str LIST (listing rows) user_input
                     user_context
  = inr (listing_text rows).
Proof.
  unfold _generate_response, get_default, listing.
  rewrite lookup_singleton_eq.
  destruct rows as [| r rows]; [reflexivity |].
  cbn [List.map truthy negb iterate].
  change (VDict (task_reply (fst r) (snd r))
          :: List.map (fun r0 : Z * Task.t =>
                         VDict (task_reply (fst r0) (snd r0))) rows)
    with (List.map (fun r0 : Z * Task.t =>
                      VDict (task_reply (fst r0) (snd r0))) (r :: rows)).
  rewrite task_lines_of_rows. reflexivity.
Qed.

End ListRequests.

(** X20.  A message read as LIST is answered with the tasks of the user,
    each once and the latest created first, one line for each; when the
    message contains "completed", the completed tasks are the ones left
    out.  The tasks table is as it was. *)
Theorem list_request_shows_the_tasks_of_the_user
        (container_str : pyval -> string)
        (user_id : string) (conversation_id : UUID)
        (messages : list Message.t) (user_input : string)
        (include_context : bool) (w : World) :
  let outcome :=
    process_message container_str user_id conversation_id messages
                    user_input include_context w in
  let params := _extract_parameters LIST user_input user_id in
  fst (extract_intent user_input) = LIST ->
  exists rows : list (Z * Task.t),
    (forall id task,
        In (id, task) rows
        <-> tasks w !! id = Some task
            /\ Task.user_id task = user_id
            /\ (PyStr.contains "completed" (PyStr.lower user_input) = true ->
                Task.is_completed task = false))
    /\ List.NoDup rows
    /\ ListSpec.latest_first rows
    /\ fst outcome
       = inr (ListSpec.listing_text rows,
              [invocation_record "list_tasks" params (ListSpec.listing rows)])
    /\ tasks (snd outcome) = tasks w.
Proof.
  intros outcome params He. subst outcome.
  pose proof (extract_parameters_user LIST user_input user_id) as Hu.
  fold params in Hu.
  set (w0 := Spec.logged (AgentDecision user_id conversation_id
                            (value LIST)
                            (snd (extract_intent user_input)) user_input) w).
  destruct (list_tasks_rows params w0)
    as (rows & Hreply & Hrows & Hnodup & Hsorted & Htasks).
  exists rows.
  assert (Hinv : _invoke_tool (get_tool_name LIST) params user_id
                              conversation_id w0
                 = ((ListSpec.listing rows, params),
                    snd (TaskMCPServer.list_tasks params w0))).
  { unfold _invoke_tool, get_tool_name.
    cbn [value String.eqb Ascii.eqb Bool.eqb].
    rewrite (insert_id params _ _ Hu).
    unfold mbind, M_bind.
    destruct (TaskMCPServer.list_tasks params w0) as [r w1].
    cbn [fst] in Hreply. subst r. reflexivity. }
  destruct (RequestFacts.process_message_answer container_str user_id
              conversation_id messages user_input include_context w LIST
              _ params _ (ListSpec.listing_text rows)
              He ltac:(discriminate) Hinv)
    as [Hout Hw].
  - apply lookup_singleton_ne. discriminate.
  - intros ctx. apply ListRequests.generate_listing.
  - split; [| split; [exact Hnodup | split; [exact Hsorted |]]].
    + intros id task. rewrite Hrows. unfold ListSpec.listed.
      unfold get, get_default. rewrite Hu.
      unfold params at 1, _extract_parameters.
      rewrite lookup_insert_eq. cbn [truthy].
      rewrite negb_false_iff.
      change (tasks w0) with (tasks w).
      split; intros (H1 & H2 & H3); (split; [exact H1 | split; [| exact H3]]);
        congruence.
    + split; [exact Hout | rewrite Hw; exact Htasks].
Qed.

Lemma list_request_shows_the_tasks_of_the_user_witness :
  exists rows : list (Z * Task.t),
    fst (process_message Samples.plain "alice" "c-1" []
                         "show completed tasks" true Samples.world)
    = inr (ListSpec.listing_text rows,
           [invocation_record "list_tasks"
              (_extract_parameters LIST "show completed tasks" "alice")
              (ListSpec.listing rows)]).
Proof.
  destruct (list_request_shows_the_tasks_of_the_user
              Samples.plain "alice" "c-1" [] "show completed tasks" true
              Samples.world ltac:(vm_compute; reflexivity))
    as (rows & _ & _ & _ & H & _).
  exists rows. exact H.
Defined.

(** ** Patterns that never decide *)

Module AnchorFacts.
Import PyStr Re IntentMapper PatternSpec.

(** A pattern that begins with [^] matches at the start or nowhere. *)
Lemma search_from_anchored (ic : bool) (r : regex) (pos : nat) (s : string) :
  search_from ic (Seq Bol r) (S pos) s = None.
Proof.
  revert pos. induction s as [| c s IH]; intros pos; cbn; [reflexivity |].
  apply IH.
Qed.

Lemma search_anchored (r : regex) (s : string) (ic : bool) :
  anchored r = true -> search r s ic = match_at ic r 0 s.
Proof.
  destruct r as [| | | r1 r2 | | | | |]; try discriminate.
  destruct r1; try discriminate. intros _.
  unfold search. destruct s as [| c s]; cbn [search_from].
  - destruct (match_at ic (Seq Bol r2) 0 ""); reflexivity.
  - rewrite search_from_anchored.
    destruct (match_at ic (Seq Bol r2) 0 (String c s)); reflexivity.
Qed.

Lemma pattern_hit_anchored (config : Config) (message : string) :
  forallb anchored (patterns config) = true ->
  pattern_hit config message
  = existsb (fun pattern => is_match (match_at true pattern 0 message))
            (patterns config).
Proof.
  unfold pattern_hit. induction (patterns config) as [| p ps IH];
    [reflexivity |].
  cbn [forallb existsb]. intros H. apply andb_true_iff in H as [Hp Hps].
  rewrite (search_anchored p message true Hp), (IH Hps). reflexivity.
Qed.

(** Every pattern of the table begins with [^]. *)
Lemma table_anchored :
  List.Forall (fun entry : Intent * Config =>
                 forallb anchored (patterns (snd entry)) = true)
              INTENT_PATTERNS.
Proof. repeat constructor. Qed.

(** The pattern pass, with every pattern tried at the start only. *)
Lemma pattern_pass_anchored (message : string) :
  first_hit pattern_hit INTENT_PATTERNS message
  = first_hit (fun config message =>
                 existsb (fun pattern =>
                            is_match (match_at true pattern 0 message))
                         (patterns config))
              INTENT_PATTERNS message.
Proof.
  pose proof table_anchored as H.
  induction H as [| [intent config] table Hc _ IH]; [reflexivity |].
  cbn [first_hit]. cbn [snd] in Hc.
  rewrite (pattern_hit_anchored config message Hc), IH. reflexivity.
Qed.

End AnchorFacts.

(** X21.  Two patterns of the table never decide.  A message that, once
    trimmed and lower-cased, begins with "get rid of" is read as GET
    with confidence 1.0, through [^get\s+], and not as DELETE; one that
    begins with "show task" is read as LIST with confidence 1.0,
    through [^show\s+], and not as GET. *)
Theorem shadowed_patterns (user_message rest : string) :
  (Spec.normalize user_message = ("get rid of" ++ rest)%string ->
   extract_intent user_message = (GET, 1%Q))
  /\ (Spec.normalize user_message = ("show task" ++ rest)%string ->
      extract_intent user_message = (LIST, 1%Q)).
Proof.
  unfold Spec.normalize, extract_intent.
  split; intros ->; rewrite AnchorFacts.pattern_pass_anchored;
    vm_compute; reflexivity.
Qed.

Lemma shadowed_patterns_witness :
  extract_intent "  Get rid of task 3" = (GET, 1%Q).
Proof.
  apply (proj1 (shadowed_patterns "  Get rid of task 3" " task 3")).
  vm_compute. reflexivity.
Defined.

(** ** The chat endpoint *)

Module ChatFacts.
Import IntentMapper ConversationService AgentService ChatRoute Spec.
Import ConversationFacts AgentFacts.

(** [process_message] returns; the tool calls are none or one record. *)
Lemma process_message_returns (container_str : pyval -> string)
      (user_id : string) (conversation_id : UUID)
      (messages : list Message.t) (user_input : string)
      (include_context : bool) (w : World) :
  exists response tool_calls,
    fst (process_message container_str user_id conversation_id messages
                         user_input include_context w)
    = inr (response, tool_calls)
    /\ (tool_calls = []
        \/ exists tool_name params tool_result,
             tool_calls = [invocation_record tool_name params tool_result]).
Proof.
  destruct (extract_intent user_input) as [intent confidence] eqn:He.
  destruct (low_confidence intent confidence) eqn:Hlow.
  - rewrite (process_message_rejected container_str user_id conversation_id
               messages user_input include_context w intent confidence
               He Hlow).
    eexists _, _. split; [reflexivity | left; reflexivity].
  - destruct (_invoke_tool (get_tool_name intent)
                (_extract_parameters intent user_input user_id)
                user_id conversation_id
                (logged (AgentDecision user_id conversation_id
                           (value intent) confidence user_input) w))
      as [[tool_result params] w1] eqn:Hinv.
    destruct (process_message_invoked container_str user_id conversation_id
                messages user_input include_context w intent confidence
                tool_result params w1 He Hlow Hinv) as [Herr Hok].
    destruct (truthy (get tool_result "error")) eqn:Ht.
    + rewrite (Herr eq_refl).
      eexists _, _. split; [reflexivity | left; reflexivity].
    + destruct (Hok eq_refl) as [response ->].
      eexists _, _. split; [reflexivity | right; eauto].
Qed.

Section Calls.
Variable validation_text : string -> pyval -> string.

(** The response shows a record as its tool and its parameters. *)
Lemma tool_call_of_record (tool_name : string) (params tool_result : dict) :
  tool_call_of validation_text
               (invocation_record tool_name params tool_result)
  = inr (ToolCall.mk tool_name params).
Proof.
  unfold tool_call_of, invocation_record.
  rewrite lookup_insert_eq.
  rewrite lookup_insert_ne by discriminate.
  rewrite lookup_insert_eq. reflexivity.
Qed.

End Calls.

(** A fresh primary key passes the insertion. *)
Lemma fresh_message_id (rows : list Message.t) (id : UUID) :
  (forall m, In m rows -> Message.id m <> id) ->
  existsb (fun m => String.eqb (Message.id m) id) rows = false.
Proof.
  intros H. apply not_true_is_false. intros Hex.
  apply existsb_exists in Hex as (m & Hin & Heq).
  apply String.eqb_eq in Heq. exact (H m Hin Heq).
Qed.

(** The row of an identifier is the conversation that is loaded, under
    the primary key. *)
Lemma load_owned (session : AsyncSession) (conversation : Conversation.t)
      (user_id : string) :
  List.NoDup (List.map Conversation.id (conversations (view session))) ->
  In conversation (conversations (view session)) ->
  Conversation.user_id conversation = user_id ->
  load_conversation session (Conversation.id conversation) user_id
  = inr (conversation,
         order_by_created_at
           (messages_of (Conversation.id conversation)
                        (messages (view session)))).
Proof.
  intros Hnd Hin Hu. unfold load_conversation.
  rewrite (filter_primary_key _ _ Hnd Hin), Hu, String.eqb_refl.
  reflexivity.
Qed.

(** A request for a conversation the user does not own, or that does not
    exist, makes [load_conversation] raise a [ValueError]. *)
Lemma load_refused (session : AsyncSession) (conversation_id : UUID)
      (user_id : string) :
  List.NoDup (List.map Conversation.id (conversations (view session))) ->
  (forall c, In c (conversations (view session)) ->
             Conversation.id c = conversation_id ->
             Conversation.user_id c <> user_id) ->
  exists text,
    load_conversation session conversation_id user_id
    = inl (ValueError text).
Proof.
  intros Hnd Hown. unfold load_conversation.
  destruct (List.filter _ (conversations (view session)))
    as [| c rest] eqn:Hf; [eexists; reflexivity |].
  assert (Hc : In c (conversations (view session))
               /\ Conversation.id c = conversation_id).
  { assert (Hin : In c (c :: rest)) by (left; reflexivity).
    rewrite <- Hf in Hin. apply List.filter_In in Hin as [Hin Heq].
    apply String.eqb_eq in Heq. auto. }
  destruct Hc as [Hin Hid].
  pose proof (filter_primary_key _ _ Hnd Hin) as Hone.
  rewrite Hid, Hf in Hone. injection Hone as Hrest. subst rest.
  destruct (String.eqb (Conversation.user_id c) user_id) eqn:E.
  - apply String.eqb_eq in E. exfalso. exact (Hown c Hin Hid E).
  - eexists. reflexivity.
Qed.

End ChatFacts.

(** X22.  Under the primary key of the conversations, a chat request
    that names a conversation which does not exist or belongs to another
    user is answered with status 404; nothing is stored, no tool is
    called, nothing is logged and the clock is not read. *)
Theorem chat_refuses_a_foreign_conversation
        (container_str : pyval -> string)
        (validation_text : string -> pyval -> string)
        (db : ConversationService.Tables) (fresh : ChatRoute.Fresh)
        (user_id : string) (request : ChatRequest.t)
        (conversation_id : UUID) (w : World) :
  ChatRequest.conversation_id request = Some conversation_id ->
  List.NoDup (List.map Conversation.id (ConversationService.conversations db)) ->
  (forall c, In c (ConversationService.conversations db) ->
             Conversation.id c = conversation_id ->
             Conversation.user_id c <> user_id) ->
  exists detail,
    ChatRoute.chat_request container_str validation_text db fresh user_id
                           request w
    = ((inl (HTTPException.mk 404 detail), db), w).
Proof.
  intros Hreq Hnd Hown.
  destruct (ChatFacts.load_refused (ConversationService.open_session db)
              conversation_id user_id Hnd Hown) as [text Hload].
  exists text.
  unfold ChatRoute.chat_request, ChatRoute.chat, ChatRoute.open_conversation.
  rewrite Hreq, Hload. reflexivity.
Qed.

Lemma chat_refuses_a_foreign_conversation_witness :
  exists detail,
    ChatRoute.chat_request Samples.plain (fun _ _ => "") ChatSamples.db
      (ChatRoute.mkFresh "c-9" "m-1" "m-2") "bob"
      (ChatRequest.mk (Some "c-1") "delete task 1" false) Samples.world
    = ((inl (HTTPException.mk 404 detail), ChatSamples.db), Samples.world).
Proof.
  apply (chat_refuses_a_foreign_conversation
           Samples.plain (fun _ _ => "") ChatSamples.db
           (ChatRoute.mkFresh "c-9" "m-1" "m-2") "bob"
           (ChatRequest.mk (Some "c-1") "delete task 1" false) "c-1"
           Samples.world eq_refl).
  - repeat constructor. intros [].
  - intros c [<- | []] _. discriminate.
Defined.

Module TurnFacts.
Import IntentMapper ConversationService AgentService ChatRoute Spec.
Import ChatSpec ChatFacts.

(** With fresh identifiers the turn is stored and answered. *)
Lemma chat_turn_succeeds (container_str : pyval -> string)
      (validation_text : string -> pyval -> string)
      (fresh : Fresh) (user_id : string) (request : ChatRequest.t)
      (conversation : Conversation.t) (history : list Message.t)
      (session : AsyncSession) (w : World) :
  fresh_messages fresh (messages (view session)) ->
  exists answer calls m1 m2 w',
    chat_turn container_str validation_text fresh user_id request
              conversation history session w
    = ((inr (ChatResponse.mk (Conversation.id conversation) answer calls),
        open_session
          (mkTables (conversations (view session))
                    (messages (view session) ++ [m1; m2]))),
       w')
    /\ turn_of fresh user_id request (Conversation.id conversation) answer
               m1 m2
    /\ length calls <= 1
    /\ exists records w2,
         process_message container_str user_id (Conversation.id conversation)
                         (history ++ [m1]) (ChatRequest.message request)
                         (ChatRequest.include_context request)
                         (snd (utcnow w))
         = (inr (answer, records), w2)
         /\ w' = snd (utcnow w2)
         /\ tool_calls_of validation_text records = inr calls
         /\ shown_as records calls.
Proof.
  intros [Hdiff Hfresh].
  unfold chat_turn. unfold mbind at 1, M_bind at 1.
  cbn [utcnow fst snd].
  unfold persist_user_message, add_message.
  rewrite fresh_message_id by (intros m Hm; apply (Hfresh m Hm)).
  set (m1 := Message.mk (user_message_uuid fresh)
                        (Conversation.id conversation) user_id "user"
                        (ChatRequest.message request) None
                        (clock w (ticks w))).
  set (w1 := mkWorld (tasks w) (task_seq w) (clock w) (S (ticks w))
                     (served w) (log w)).
  unfold mbind at 1, M_bind at 1.
  destruct (process_message_returns container_str user_id
              (Conversation.id conversation) (history ++ [m1])
              (ChatRequest.message request)
              (ChatRequest.include_context request) w1)
    as (answer & records & Hout & Hrecords).
  destruct (process_message container_str user_id
              (Conversation.id conversation) (history ++ [m1])
              (ChatRequest.message request)
              (ChatRequest.include_context request) w1)
    as [outcome w2] eqn:Hrun.
  cbn [fst] in Hout. subst outcome.
  unfold mbind at 1, M_bind at 1. cbn [utcnow fst snd].
  unfold persist_assistant_message, add_message. cbn [view messages].
  rewrite fresh_message_id.
  2:{ intros m Hm. apply in_app_or in Hm as [Hm | [<- | []]].
      - apply (Hfresh m Hm).
      - exact Hdiff. }
  assert (Hcalls : exists calls,
             tool_calls_of validation_text records = inr calls
             /\ length calls <= 1
             /\ shown_as records calls).
  { destruct Hrecords as [-> | (n & p & r & ->)].
    - exists []. split; [reflexivity |]. split; [cbn; lia |].
      left. split; reflexivity.
    - exists [ToolCall.mk n p]. cbn [tool_calls_of].
      rewrite tool_call_of_record. split; [reflexivity |].
      split; [cbn; lia |]. right. exists n, p, r. split; reflexivity. }
  destruct Hcalls as (calls & Hcalls & Hlen & Hshown). rewrite Hcalls.
  eexists answer, calls, m1, _, _. split; [| split; [| split]].
  - unfold mret, M_ret, save_conversation, open_session.
    cbn [view durable conversations messages].
    rewrite <- app_assoc. reflexivity.
  - repeat split.
  - exact Hlen.
  - exists records, w2.
    split; [exact Hrun |]. split; [reflexivity |].
    split; [exact Hcalls | exact Hshown].
Qed.

End TurnFacts.

(** X23.  Under the primary key, a chat request for a conversation of
    the user, with identifiers no message has, is answered.  The answer
    and the tool calls are those [process_message] returns for the
    message of the request and the history [load_conversation] gives
    followed by the message just stored, a call shown as its tool and
    parameters without the result.  The database then holds the rows it
    held and, after them, the message of the user and the answer, both
    in that conversation. *)
Theorem chat_stores_the_turn
        (container_str : pyval -> string)
        (validation_text : string -> pyval -> string)
        (db : ConversationService.Tables) (fresh : ChatRoute.Fresh)
        (user_id : string) (request : ChatRequest.t)
        (conversation : Conversation.t) (w : World) :
  ChatRequest.conversation_id request = Some (Conversation.id conversation) ->
  List.NoDup (List.map Conversation.id (ConversationService.conversations db)) ->
  In conversation (ConversationService.conversations db) ->
  Conversation.user_id conversation = user_id ->
  ChatSpec.fresh_messages fresh (ConversationService.messages db) ->
  exists answer calls m1 m2 w',
    ChatRoute.chat_request container_str validation_text db fresh user_id
                           request w
    = ((inr (ChatResponse.mk (Conversation.id conversation) answer calls),
        ConversationService.mkTables
          (ConversationService.conversations db)
          (ConversationService.messages db ++ [m1; m2])),
       w')
    /\ ChatSpec.turn_of fresh user_id request (Conversation.id conversation)
                        answer m1 m2
    /\ length calls <= 1
    /\ exists history records w2,
         ConversationService.load_conversation
           (ConversationService.open_session db)
           (Conversation.id conversation) user_id
         = inr (conversation, history)
         /\ process_message container_str user_id
                            (Conversation.id conversation)
                            (history ++ [m1]) (ChatRequest.message request)
                            (ChatRequest.include_context request)
                            (snd (utcnow w))
            = (inr (answer, records), w2)
         /\ w' = snd (utcnow w2)
         /\ ChatSpec.shown_as records calls.
Proof.
  intros Hreq Hnd Hin Hown Hfresh.
  pose proof (ChatFacts.load_owned (ConversationService.open_session db)
                conversation user_id Hnd Hin Hown) as Hload.
  unfold ChatRoute.chat_request, ChatRoute.chat, ChatRoute.open_conversation.
  rewrite Hreq, Hload.
  unfold mbind at 2, M_bind at 2. unfold mret at 1, M_ret at 1.
  cbn [fst snd].
  destruct (TurnFacts.chat_turn_succeeds container_str validation_text fresh
              user_id request conversation
              (ConversationService.order_by_created_at
                 (ConversationService.messages_of
                    (Conversation.id conversation)
                    (ConversationService.messages db)))
              (ConversationService.open_session db) w Hfresh)
    as (answer & calls & m1 & m2 & w' & Hrun & Hturn & Hlen
        & records & w2 & Hagent & Hw' & _ & Hshown).
  exists answer, calls, m1, m2, w'.
  split; [| split; [exact Hturn | split; [exact Hlen |]]].
  - unfold mbind, M_bind, mret, M_ret. cbv beta iota.
    cbn [ConversationService.view ConversationService.open_session] in Hrun.
    cbn [ConversationService.view ConversationService.open_session].
    rewrite Hrun. reflexivity.
  - eexists _, records, w2.
    split; [reflexivity |]. split; [exact Hagent |].
    split; [exact Hw' | exact Hshown].
Qed.

Lemma chat_stores_the_turn_witness :
  exists answer calls m1 m2 w',
    ChatRoute.chat_request Samples.plain (fun _ _ => "") ChatSamples.db
      (ChatRoute.mkFresh "c-9" "m-1" "m-2") "alice"
      (ChatRequest.mk (Some "c-1") "add buy milk" false) Samples.world
    = ((inr (ChatResponse.mk "c-1" answer calls),
        ConversationService.mkTables
          [ChatSamples.talk] ([ChatSamples.hello] ++ [m1; m2])),
       w').
Proof.
  destruct (chat_stores_the_turn
              Samples.plain (fun _ _ => "") ChatSamples.db
              (ChatRoute.mkFresh "c-9" "m-1" "m-2") "alice"
              (ChatRequest.mk (Some "c-1") "add buy milk" false)
              ChatSamples.talk Samples.world eq_refl)
    as (answer & calls & m1 & m2 & w' & H & _).
  - repeat constructor. intros [].
  - left. reflexivity.
  - reflexivity.
  - split; [discriminate |].
    intros m [<- | []]. split; discriminate.
  - exists answer, calls, m1, m2, w'. exact H.
Defined.

Module OutcomeFacts.
Import IntentMapper ConversationService AgentService ChatRoute Spec.
Import TaskSpec ChatSpec OutcomeSpec ChatFacts AgentFlow.

Lemma http_error_status (e : Raised) :
  HTTPException.status_code (http_error e) = 404%Z
  \/ HTTPException.status_code (http_error e) = 500%Z.
Proof.
  unfold http_error. destruct (is_value_error e); [left | right]; reflexivity.
Qed.

(** The turn, whatever the identifiers: it is stored whole or not at
    all, and it touches the tasks of the user only. *)
Lemma chat_turn_outcome (container_str : pyval -> string)
      (validation_text : string -> pyval -> string)
      (fresh : Fresh) (user_id : string) (request : ChatRequest.t)
      (conversation : Conversation.t) (history : list Message.t)
      (session : AsyncSession) (w : World) :
  exists outcome session' w',
    chat_turn container_str validation_text fresh user_id request
              conversation history session w
    = ((outcome, session'), w')
    /\ table_step (VStr user_id) w w'
    /\ match outcome with
       | inl e =>
           durable session' = durable session
           /\ (HTTPException.status_code e = 404%Z
               \/ HTTPException.status_code e = 500%Z)
       | inr response =>
           ChatResponse.conversation_id response
           = Conversation.id conversation
           /\ all_or_nothing (durable session) (view session) (inr response)
                             (durable session')
           /\ view session' = durable session'
       end.
Proof.
  unfold chat_turn. unfold mbind at 1, M_bind at 1.
  cbn [utcnow fst snd].
  unfold persist_user_message, add_message.
  set (w1 := mkWorld (tasks w) (task_seq w) (clock w) (S (ticks w))
                     (served w) (log w)).
  destruct (existsb _ (messages (view session))).
  { unfold raised, mret, M_ret. eexists _, _, _.
    split; [reflexivity |].
    split; [apply step_none; reflexivity |].
    split; [reflexivity | apply http_error_status]. }
  set (m1 := Message.mk (user_message_uuid fresh)
                        (Conversation.id conversation) user_id "user"
                        (ChatRequest.message request) None
                        (clock w (ticks w))).
  unfold mbind at 1, M_bind at 1.
  pose proof (process_message_step container_str user_id
                (Conversation.id conversation) (history ++ [m1])
                (ChatRequest.message request)
                (ChatRequest.include_context request) w1) as Hstep.
  destruct (process_message_returns container_str user_id
              (Conversation.id conversation) (history ++ [m1])
              (ChatRequest.message request)
              (ChatRequest.include_context request) w1)
    as (answer & records & Hout & Hrecords).
  destruct (process_message container_str user_id
              (Conversation.id conversation) (history ++ [m1])
              (ChatRequest.message request)
              (ChatRequest.include_context request) w1)
    as [outcome w2].
  cbn [fst snd] in Hout, Hstep. subst outcome.
  assert (Hw : table_step (VStr user_id) w
                 (mkWorld (tasks w2) (task_seq w2) (clock w2) (S (ticks w2))
                          (served w2) (log w2)))
    by (eapply table_step_frame; [exact Hstep | reflexivity ..]).
  unfold mbind at 1, M_bind at 1. cbn [utcnow fst snd].
  unfold persist_assistant_message, add_message. cbn [view messages].
  destruct (existsb _ (messages (view session) ++ [m1])).
  { unfold raised, mret, M_ret. eexists _, _, _.
    split; [reflexivity |].
    split; [exact Hw |].
    split; [reflexivity | apply http_error_status]. }
  assert (Hcalls : exists calls,
             tool_calls_of validation_text records = inr calls).
  { destruct Hrecords as [-> | (n & p & r & ->)].
    - exists []. reflexivity.
    - exists [ToolCall.mk n p]. cbn [tool_calls_of].
      rewrite tool_call_of_record. reflexivity. }
  destruct Hcalls as (calls & ->).
  unfold mret, M_ret. eexists _, _, _.
  split; [reflexivity |].
  split; [exact Hw |]. split; [reflexivity |]. split; [| reflexivity].
  unfold all_or_nothing, save_conversation.
  cbn [view durable conversations messages].
  eexists m1, _. rewrite <- app_assoc.
  repeat split.
Qed.

Lemma fresh_conversation_id (rows : list Conversation.t) (id : UUID) :
  (forall c, In c rows -> Conversation.id c <> id) ->
  existsb (fun c => String.eqb (Conversation.id c) id) rows = false.
Proof.
  intros H. apply not_true_is_false. intros Hex.
  apply existsb_exists in Hex as (c & Hin & Heq).
  apply String.eqb_eq in Heq. exact (H c Hin Heq).
Qed.

End OutcomeFacts.

(** X24.  A chat request without a conversation id, with identifiers
    not yet in use, opens a conversation of the user under the new
    identifier and stores the turn in it: the database then holds the
    rows it held, the new conversation, and the message of the user
    followed by the answer; the response carries the new identifier. *)
Theorem chat_opens_a_conversation
        (container_str : pyval -> string)
        (validation_text : string -> pyval -> string)
        (db : ConversationService.Tables) (fresh : ChatRoute.Fresh)
        (user_id : string) (request : ChatRequest.t) (w : World) :
  ChatRequest.conversation_id request = None ->
  (forall c, In c (ConversationService.conversations db) ->
             Conversation.id c <> ChatRoute.conversation_uuid fresh) ->
  ChatSpec.fresh_messages fresh (ConversationService.messages db) ->
  exists answer calls m1 m2 w',
    ChatRoute.chat_request container_str validation_text db fresh user_id
                           request w
    = ((inr (ChatResponse.mk (ChatRoute.conversation_uuid fresh) answer
                             calls),
        ConversationService.mkTables
          (ConversationService.conversations db
           ++ [Conversation.mk (ChatRoute.conversation_uuid fresh) user_id
                               (clock w (ticks w)) (clock w (S (ticks w)))])
          (ConversationService.messages db ++ [m1; m2])),
       w')
    /\ ChatSpec.turn_of fresh user_id request
                        (ChatRoute.conversation_uuid fresh) answer m1 m2
    /\ length calls <= 1.
Proof.
  intros Hreq Hnew Hfresh.
  unfold ChatRoute.chat_request, ChatRoute.chat, ChatRoute.open_conversation.
  rewrite Hreq.
  unfold ConversationService.create_conversation.
  cbn [ConversationService.view ConversationService.open_session].
  rewrite (OutcomeFacts.fresh_conversation_id _ _ Hnew).
  set (conversation :=
         Conversation.mk (ChatRoute.conversation_uuid fresh) user_id
                         (clock w (ticks w)) (clock w (S (ticks w)))).
  destruct (TurnFacts.chat_turn_succeeds container_str validation_text fresh
              user_id request conversation []
              (ConversationService.mkSession db
                 (ConversationService.mkTables
                    (ConversationService.conversations db ++ [conversation])
                    (ConversationService.messages db)))
              (snd (utcnow (snd (utcnow w)))) Hfresh)
    as (answer & calls & m1 & m2 & w' & Hrun & Hturn & Hlen & _).
  exists answer, calls, m1, m2, w'.
  split; [| split; [exact Hturn | exact Hlen]].
  unfold mbind, M_bind, mret, M_ret. cbv beta iota.
  cbn [ConversationService.view ConversationService.durable
       ConversationService.conversations ConversationService.messages
       utcnow fst snd tasks task_seq clock ticks served log] in Hrun.
  cbn [ConversationService.durable ConversationService.open_session
       utcnow fst snd tasks task_seq clock ticks served log].
  fold conversation. rewrite Hrun. reflexivity.
Qed.

Lemma chat_opens_a_conversation_witness :
  exists answer calls m1 m2 w',
    ChatRoute.chat_request Samples.plain (fun _ _ => "") ChatSamples.db
      (ChatRoute.mkFresh "c-9" "m-1" "m-2") "bob"
      (ChatRequest.mk None "show my tasks" false) Samples.world
    = ((inr (ChatResponse.mk "c-9" answer calls),
        ConversationService.mkTables
          ([ChatSamples.talk]
           ++ [Conversation.mk "c-9" "bob" 1000%Z 1001%Z])
          ([ChatSamples.hello] ++ [m1; m2])),
       w').
Proof.
  destruct (chat_opens_a_conversation
              Samples.plain (fun _ _ => "") ChatSamples.db
              (ChatRoute.mkFresh "c-9" "m-1" "m-2") "bob"
              (ChatRequest.mk None "show my tasks" false)
              Samples.world eq_refl)
    as (answer & calls & m1 & m2 & w' & H & _).
  - intros c [<- | []]. discriminate.
  - split; [discriminate |].
    intros m [<- | []]. split; discriminate.
  - exists answer, calls, m1, m2, w'. exact H.
Defined.

(** X25.  A chat request stores all of a turn or nothing.  When it
    raises, the status is 404 or 500 and the database is as it was;
    when it answers, the database holds what the session saw, with a new
    conversation if one was opened, and after it the message of the user
    and the answer, both in the conversation of the response.  In both
    cases the tasks of other users are as they were. *)
Theorem chat_request_stores_all_or_nothing
        (container_str : pyval -> string)
        (validation_text : string -> pyval -> string)
        (db : ConversationService.Tables) (fresh : ChatRoute.Fresh)
        (user_id : string) (request : ChatRequest.t) (w : World) :
  let run :=
    ChatRoute.chat_request container_str validation_text db fresh user_id
                           request w in
  (exists seen,
      ConversationService.messages seen = ConversationService.messages db
      /\ (ConversationService.conversations seen
          = ConversationService.conversations db
          \/ exists conversation,
               ChatRequest.conversation_id request = None
               /\ Conversation.user_id conversation = user_id
               /\ ConversationService.conversations seen
                  = ConversationService.conversations db ++ [conversation])
      /\ OutcomeSpec.all_or_nothing db seen (fst (fst run)) (snd (fst run)))
  /\ (forall id other,
         Task.user_id other <> user_id ->
         (tasks w !! id = Some other <-> tasks (snd run) !! id = Some other)).
Proof.
  intros run. subst run.
  assert (Hiso : forall w',
             TaskSpec.table_step (VStr user_id) w w' ->
             forall id other,
               Task.user_id other <> user_id ->
               (tasks w !! id = Some other <-> tasks w' !! id = Some other)).
  { intros w' Hstep id other Hother.
    apply (StepFacts.table_step_isolated _ _ _ Hstep). congruence. }
  unfold ChatRoute.chat_request, ChatRoute.chat, ChatRoute.open_conversation.
  destruct (ChatRequest.conversation_id request) as [conversation_id |].
  - unfold mbind, M_bind, mret, M_ret. cbv beta iota.
    destruct (ConversationService.load_conversation _ conversation_id user_id)
      as [e | [conversation history]]; cbv beta iota.
    + unfold ChatRoute.raised, mret, M_ret. cbn [fst snd].
      split; [| apply Hiso, TaskSpec.step_none; reflexivity].
      exists db. split; [reflexivity |]. split; [left; reflexivity |].
      split; [reflexivity | apply OutcomeFacts.http_error_status].
    + destruct (OutcomeFacts.chat_turn_outcome container_str
                  validation_text fresh user_id request conversation
                  history (ConversationService.open_session db) w)
        as (outcome & session & w' & Hrun & Hstep & Hout).
      rewrite Hrun.
      destruct outcome as [e | response];
        cbn [fst snd]; (split; [| exact (Hiso _ Hstep)]);
        exists db; (split; [reflexivity |]); (split; [left; reflexivity |]).
      * destruct Hout as [Hd Hs]. split; [exact Hd | exact Hs].
      * destruct Hout as (_ & Hall & Hview).
        unfold ConversationService.save_conversation.
        cbn [ConversationService.durable]. rewrite Hview. exact Hall.
  - unfold mbind, M_bind, mret, M_ret. cbv beta iota.
    cbn [utcnow fst snd tasks task_seq clock ticks served log].
    unfold ConversationService.create_conversation.
    cbn [ConversationService.view ConversationService.durable
         ConversationService.open_session].
    destruct (existsb _ (ConversationService.conversations db));
      cbv beta iota.
    + unfold ChatRoute.raised, mret, M_ret. cbn [fst snd].
      split; [| apply Hiso, TaskSpec.step_none; reflexivity].
      exists db. split; [reflexivity |]. split; [left; reflexivity |].
      split; [reflexivity | apply OutcomeFacts.http_error_status].
    + match goal with
      | |- context [ChatRoute.chat_turn _ _ _ _ _ ?c ?h ?s ?w0] =>
          destruct (OutcomeFacts.chat_turn_outcome container_str
                      validation_text fresh user_id request c h s w0)
            as (outcome & session & w' & Hrun & Hstep & Hout);
          rewrite Hrun;
          set (conversation := c) in *
      end.
      assert (Hstep' : TaskSpec.table_step (VStr user_id) w w')
        by (eapply AgentFlow.table_step_frame;
            [exact Hstep | reflexivity ..]).
      destruct outcome as [e | response];
        cbn [fst snd]; (split; [| exact (Hiso _ Hstep')]).
      * exists db. split; [reflexivity |]. split; [left; reflexivity |].
        destruct Hout as [Hd Hs]. split; [exact Hd | exact Hs].
      * destruct Hout as (_ & Hall & Hview).
        eexists (ConversationService.mkTables _ _).
        split; [reflexivity |].
        split; [right; exists conversation;
                split; [reflexivity | split; reflexivity] |].
        unfold ConversationService.save_conversation.
        cbn [ConversationService.durable]. rewrite Hview.
        unfold OutcomeSpec.all_or_nothing in *.
        cbn [ConversationService.view ConversationService.durable
             ConversationService.conversations
             ConversationService.messages] in Hall.
        exact Hall.
Qed.

(** ** The commands that name a title *)

Module CommandFacts.
Import PyStr Re IntentMapper AgentService TextSpec CommandSpec.
Import ReFacts ParamFacts StripFacts.

Lemma span_app_all (cl : charclass) (s t : string) :
  all_chars (in_class cl) s = true ->
  span cl (s ++ t)%string = String.length s + span cl t.
Proof.
  induction s as [|c s IH]; simpl; [reflexivity |].
  intros H. apply andb_true_iff in H as [Hc Hs].
  rewrite Hc, (IH Hs). reflexivity.
Qed.

Lemma span_all (cl : charclass) (s : string) :
  all_chars (in_class cl) s = true -> span cl s = String.length s.
Proof.
  induction s as [|c s IH]; simpl; [reflexivity |].
  intros H. apply andb_true_iff in H as [Hc Hs].
  rewrite Hc, (IH Hs). reflexivity.
Qed.

Lemma drop_app_length (s t : string) :
  drop (String.length s) (s ++ t)%string = t.
Proof. induction s as [|c s IH]; simpl; [destruct t |]; auto. Qed.

Lemma drop_length (s : string) : drop (String.length s) s = EmptyString.
Proof. induction s as [|c s IH]; simpl; auto. Qed.

Lemma take_length (s : string) : take (String.length s) s = s.
Proof. induction s as [|c s IH]; simpl; [| rewrite IH]; reflexivity. Qed.

(** The greedy repetition stops at the longest run that lets the rest
    match. *)
Lemma try_down_first {R : Type} (pos : nat) (s : string)
      (k : nat -> string -> option R) (j : nat) (res : R) :
  0 < j -> k (pos + j) (drop j s) = Some res ->
  try_down pos s k j = Some res.
Proof.
  destruct j as [|j]; [lia |]. intros _ H. cbn [try_down].
  rewrite H. reflexivity.
Qed.

(** A title begins with something that is not white space. *)
Lemma title_head (t : string) : title_text t -> span space t = 0.
Proof.
  intros (Hne & Hstrip & _). pose proof (strip_head t) as H.
  rewrite Hstrip in H. destruct t as [|c t]; [contradiction |].
  cbn [span in_class]. rewrite H. reflexivity.
Qed.

Section Forward.
Context {R : Type}.
Variable ic : bool.

(** White space before something that is none is taken whole. *)
Lemma run_blank (blanks rest : string) (pos : nat) (caps : captures)
      (k : nat -> string -> captures -> option R) (res : R) :
  blank blanks -> span space rest = 0 ->
  k (pos + String.length blanks) rest caps = Some res ->
  run ic (Plus space) pos (blanks ++ rest)%string caps k = Some res.
Proof.
  intros [Hne Hall] Hrest Hk. cbn [run].
  rewrite (span_app_all space blanks rest Hall), Hrest, Nat.add_0_r.
  apply try_down_first.
  - destruct blanks; [contradiction | simpl; lia].
  - rewrite drop_app_length. exact Hk.
Qed.

(** The group [(.+)] before the end takes a title whole. *)
Lemma run_title (t : string) (pos : nat) (caps : captures)
      (k : nat -> string -> captures -> option R) (res : R) :
  title_text t ->
  k (pos + String.length t) EmptyString ((1, t) :: caps) = Some res ->
  run ic (Seq (Group 1 (Plus anychar)) (Seq Eol Eps)) pos t caps k
  = Some res.
Proof.
  intros (Hne & _ & Hline) Hk. cbn [run].
  rewrite (span_all anychar t Hline).
  apply try_down_first.
  - destruct t; [contradiction | simpl; lia].
  - rewrite drop_length.
    replace (pos + String.length t - pos) with (String.length t) by lia.
    rewrite take_length. exact Hk.
Qed.

(** White space and a title, to the end. *)
Lemma run_blank_title (blanks t : string) (pos : nat) (caps : captures)
      (k : nat -> string -> captures -> option R) (res : R) :
  blank blanks -> title_text t ->
  k (pos + String.length blanks + String.length t) EmptyString
    ((1, t) :: caps) = Some res ->
  run ic (Seq (Plus space) (Seq (Group 1 (Plus anychar)) (Seq Eol Eps)))
      pos (blanks ++ t)%string caps k
  = Some res.
Proof.
  intros Hblank Htitle Hk.
  change (run ic (Seq ?a ?b) ?p ?s ?c ?k0)
    with (run ic a p s c (fun p' s' c' => run ic b p' s' c' k0)).
  apply (run_blank blanks t pos caps _ res Hblank (title_head t Htitle)).
  apply run_title; assumption.
Qed.

End Forward.

(** A literal word at the head of the subject is matched as it is,
    case kept. *)
Lemma run_lit {R : Type} (word rest : string) (pos : nat) (caps : captures)
      (k : nat -> string -> captures -> option R) :
  run false (lit word) pos (word ++ rest)%string caps k
  = k (pos + String.length word) rest caps.
Proof.
  revert pos. induction word as [|c word IH]; intros pos.
  - cbn. rewrite Nat.add_0_r. reflexivity.
  - change (String c word ++ rest)%string
      with (String c (word ++ rest)%string).
    cbn [lit run]. unfold chr_eq. rewrite Ascii.eqb_refl, IH.
    cbn [String.length]. f_equal. lia.
Qed.

(** The first extraction pattern on a command word, white space and a
    title. *)
Lemma verb_pattern (verb blanks t : string) :
  In verb ["add"; "create"; "remember"] -> blank blanks -> title_text t ->
  exists m,
    search (cat [Bol; words "add" ["create"; "remember"]; ws;
                 Group 1 (Plus anychar); Eol])
           (verb ++ blanks ++ t)%string false
    = Some m
    /\ group m 1 = t.
Proof.
  intros Hverb Hblank Htitle.
  rewrite AnchorFacts.search_anchored by reflexivity.
  unfold match_at. cbn [cat words]. unfold ws.
  remember (Seq (Plus space)
                (Seq (Group 1 (Plus anychar)) (Seq Eol Eps))) as tail
    eqn:Htail.
  cbn [run Nat.eqb].
  destruct Hverb as [<- | [<- | [<- | []]]].
  - rewrite run_lit. subst tail.
    erewrite run_blank_title; [| exact Hblank | exact Htitle | reflexivity].
    eexists. split; reflexivity.
  - change (run false (lit "add") 0 ("create" ++ blanks ++ t)%string [] _)
      with (@None Match).
    cbv iota. rewrite run_lit. subst tail.
    erewrite run_blank_title; [| exact Hblank | exact Htitle | reflexivity].
    eexists. split; reflexivity.
  - change (run false (lit "add") 0 ("remember" ++ blanks ++ t)%string [] _)
      with (@None Match).
    cbv iota.
    change (run false (lit "create") 0 ("remember" ++ blanks ++ t)%string
                [] _)
      with (@None Match).
    cbv iota. rewrite run_lit. subst tail.
    erewrite run_blank_title; [| exact Hblank | exact Htitle | reflexivity].
    eexists. split; reflexivity.
Qed.

End CommandFacts.
